(** * SpliceAI [spliceai/utils.py]: a shallow embedding and its properties

    The development follows the layout of [utils.py]:
    - [PyStr]  : the Python [str] and slice operations the module relies on;
    - [Py]     : Python exceptions as an error type, with a small monad;
    - the functions of the module, under their own names
      ([normalise_chrom], [one_hot_encode], [Annotator], ...);
    - the properties, one section per function.

    Strings are sequences of 8-bit characters ([string] of [ascii]): the
    [str] of Python 2, and the ASCII text of Python 3.  The two
    interpreters part on characters beyond ASCII ([upper] folds them and
    [np.fromstring] reads their UTF-8 bytes under Python 3), so the
    properties of the encoder and of the case fold are stated for ASCII
    input ([is_ascii]).  Python integers are [Z], with floor division [//]
    as [Z.div] and [%] as [Z.modulo]; the entries of an [int64] column wrap
    around ([Np.int64]); probabilities are exact rationals [Q] (rounding
    is not modelled). *)

From Stdlib Require Import ZArith QArith Qminmax List Sorted String Ascii Bool Lia Lqa.
Import ListNotations.

Local Open Scope string_scope.
Local Open Scope list_scope.
Local Open Scope Z_scope.

(* ================================================================== *)
(** ** Python strings and slices *)
(* ================================================================== *)

Module PyStr.

(** [s[lo:hi]] on a sequence of length [n]: a negative bound counts from
    the end, and each bound is clamped to [0..n]. *)
Definition clamp_index (n i : Z) : Z :=
  if i <? 0 then Z.max (i + n) 0 else Z.min i n.

Definition slice {A : Type} (l : list A) (lo hi : Z) : list A :=
  let n := Z.of_nat (List.length l) in
  let a := clamp_index n lo in
  let b := clamp_index n hi in
  firstn (Z.to_nat (b - a)) (skipn (Z.to_nat a) l).

(** [s[lo:]] and [s[:hi]]. *)
Definition slice_from {A : Type} (l : list A) (lo : Z) : list A :=
  slice l lo (Z.of_nat (List.length l)).

Definition slice_to {A : Type} (l : list A) (hi : Z) : list A :=
  slice l 0 hi.

Definition chars (s : string) : list ascii := list_ascii_of_string s.
Definition of_chars (l : list ascii) : string := string_of_list_ascii l.

Definition len (s : string) : Z := Z.of_nat (String.length s).

Definition str_slice (s : string) (lo hi : Z) : string :=
  of_chars (slice (chars s) lo hi).
Definition str_slice_from (s : string) (lo : Z) : string :=
  of_chars (slice_from (chars s) lo).
Definition str_slice_to (s : string) (hi : Z) : string :=
  of_chars (slice_to (chars s) hi).

(** ['N' * k]: the empty string when [k <= 0]. *)
Fixpoint repeat_char (c : ascii) (k : nat) : string :=
  match k with
  | O => EmptyString
  | S k' => String c (repeat_char c k')
  end.

Definition str_mul (c : ascii) (k : Z) : string := repeat_char c (Z.to_nat k).

(** [s.startswith(p)]. *)
Fixpoint startswith (s p : string) : bool :=
  match p with
  | EmptyString => true
  | String b p' =>
      match s with
      | EmptyString => false
      | String a s' => Ascii.eqb a b && startswith s' p'
      end
  end.

Fixpoint mem_char (c : ascii) (cs : string) : bool :=
  match cs with
  | EmptyString => false
  | String d cs' => Ascii.eqb c d || mem_char c cs'
  end.

(** [s.lstrip(cs)], [s.rstrip(cs)], [s.strip(cs)]: [cs] is a SET of
    characters, removed from either end for as long as they occur. *)
Fixpoint lstrip (cs s : string) : string :=
  match s with
  | EmptyString => EmptyString
  | String c s' => if mem_char c cs then lstrip cs s' else s
  end.

Fixpoint rstrip (cs s : string) : string :=
  match s with
  | EmptyString => EmptyString
  | String c s' =>
      match rstrip cs s' with
      | EmptyString => if mem_char c cs then EmptyString else String c EmptyString
      | r => String c r
      end
  end.

Definition strip (cs s : string) : string := rstrip cs (lstrip cs s).

(** [s.upper()] on ASCII text: the letters [a..z] are folded, every other
    character is kept. *)
Definition upper_char (c : ascii) : ascii :=
  let n := nat_of_ascii c in
  if ((97 <=? n) && (n <=? 122))%nat then ascii_of_nat (n - 32) else c.

Fixpoint upper (s : string) : string :=
  match s with
  | EmptyString => EmptyString
  | String c s' => String (upper_char c) (upper s')
  end.

(** [s.replace(a, b)] for one-character [a] and [b]. *)
Fixpoint replace (a b : ascii) (s : string) : string :=
  match s with
  | EmptyString => EmptyString
  | String c s' => String (if Ascii.eqb c a then b else c) (replace a b s')
  end.

End PyStr.

(* ================================================================== *)
(** ** Python exceptions and sequences *)
(* ================================================================== *)

Module Py.

Inductive exn : Type :=
| TypeError
| IndexError
| ValueError
| KeyError
| NameError (name : string)
| UnboundLocalError (name : string).

Inductive result (A : Type) : Type :=
| Ok (a : A)
| Raise (e : exn).

Arguments Ok {A} a.
Arguments Raise {A} e.

Definition bind {A B : Type} (c : result A) (k : A -> result B) : result B :=
  match c with
  | Ok a => k a
  | Raise e => Raise e
  end.

(** A list comprehension whose element expression may raise. *)
Fixpoint mapM {A B : Type} (f : A -> result B) (l : list A) : result (list B) :=
  match l with
  | [] => Ok []
  | a :: l' =>
      bind (f a) (fun b => bind (mapM f l') (fun bs => Ok (b :: bs)))
  end.

(** A [for] loop threading the state [s]. *)
Fixpoint foldM {A S : Type} (f : S -> A -> result S) (l : list A) (s : S)
  : result S :=
  match l with
  | [] => Ok s
  | a :: l' => bind (f s a) (foldM f l')
  end.

(** [range(n)]. *)
Definition range (n : nat) : list Z := List.map Z.of_nat (List.seq 0 n).

(** [l[i]]: a negative index counts from the end; out of range raises
    [IndexError]. *)
Definition index {A : Type} (l : list A) (i : Z) : result A :=
  let n := Z.of_nat (List.length l) in
  let k := if i <? 0 then i + n else i in
  if (0 <=? k) && (k <? n) then
    match nth_error l (Z.to_nat k) with
    | Some a => Ok a
    | None => Raise IndexError
    end
  else Raise IndexError.

(** [a[idxs]] with an integer array [idxs] (NumPy fancy indexing). *)
Definition take {A : Type} (l : list A) (idxs : list Z) : result (list A) :=
  mapM (index l) idxs.

End Py.

Notation "x <- c ;; k" := (Py.bind c (fun x => k))
  (at level 61, c at next level, right associativity).

(* ================================================================== *)
(** ** [normalise_chrom] *)
(* ================================================================== *)

Definition has_prefix (x : string) : bool := PyStr.startswith x "chr".

Definition normalise_chrom (source target : string) : string :=
  if has_prefix source && negb (has_prefix target) then
    PyStr.strip "chr" source
  else if negb (has_prefix source) && has_prefix target then
    ("chr" ++ source)%string
  else
    source.

(* ================================================================== *)
(** ** [one_hot_encode] *)
(* ================================================================== *)

(** The local table [map] of [one_hot_encode]. *)
Definition map_table : list (list Z) :=
  [ [0; 0; 0; 0];
    [1; 0; 0; 0];
    [0; 1; 0; 0];
    [0; 0; 1; 0];
    [0; 0; 0; 1] ].

(** [np.fromstring(seq, np.int8)]: every byte read as a signed 8-bit
    integer. *)
Definition int8_of_char (c : ascii) : Z :=
  let n := Z.of_nat (nat_of_ascii c) in
  if n <? 128 then n else n - 256.

Definition fromstring_int8 (s : string) : list Z :=
  List.map int8_of_char (PyStr.chars s).

(** [one_hot_encode(seq)]: the case fold, the five replacements, and the
    lookup of every byte in the table.  On ASCII text a character is one
    byte. *)
Definition one_hot_encode (seq : string) : list (list Z) :=
  let seq := PyStr.replace "C" "002" (PyStr.replace "A" "001" (PyStr.upper seq)) in
  let seq := PyStr.replace "N" "000"
               (PyStr.replace "T" "004" (PyStr.replace "G" "003" seq)) in
  List.map (fun v => nth (Z.to_nat (v mod 5)) map_table [])
           (fromstring_int8 seq).


(* ================================================================== *)
(** ** NumPy arrays as nested lists *)
(* ================================================================== *)

Module Np.

(** Arrays of rank 2 and 3; the axes of a rank-3 array are
    (batch, position, channel). *)
Abbreviation Tensor2 := (list (list Q)) (only parsing).
Abbreviation Tensor3 := (list (list (list Q))) (only parsing).

(** The value that a NumPy [int64] array holds for the integer [z]: the
    arithmetic of such an array wraps around at 2^63. *)
Definition int64 (z : Z) : Z := (z + 2 ^ 63) mod 2 ^ 64 - 2 ^ 63.

(** [np.nonzero(mask)[0]]: the indices of the true entries, ascending. *)
Fixpoint nonzero_from (k : Z) (mask : list bool) : list Z :=
  match mask with
  | [] => []
  | b :: mask' =>
      if b then k :: nonzero_from (k + 1) mask' else nonzero_from (k + 1) mask'
  end.

Definition nonzero (mask : list bool) : list Z := nonzero_from 0 mask.

Fixpoint insert_sorted (x : Z) (l : list Z) : list Z :=
  match l with
  | [] => [x]
  | y :: l' => if x <=? y then x :: l else y :: insert_sorted x l'
  end.

Definition sort (l : list Z) : list Z := fold_right insert_sorted [] l.

(** [np.unique]: the sorted distinct values. *)
Definition unique (l : list Z) : list Z := sort (nodup Z.eq_dec l).

Definition mem (x : Z) (l : list Z) : bool := existsb (Z.eqb x) l.

(** [np.intersect1d(a, b)]: the sorted, distinct values that are in both
    arrays. *)
Definition intersect1d (a b : list Z) : list Z :=
  unique (filter (fun x => mem x b) a).

(** [x.astype('float')], also what [predict] does to an integer array. *)
Definition astype_float (x : list (list (list Z))) : Tensor3 :=
  List.map (List.map (List.map inject_Z)) x.

(** [x[:, ::-1, ::-1]] and [y[:, ::-1]]. *)
Definition flip_pos_chan {A : Type} (x : list (list (list A)))
  : list (list (list A)) :=
  List.map (fun m => rev (List.map (@rev A) m)) x.

Definition flip_pos {A : Type} (y : list (list (list A)))
  : list (list (list A)) :=
  List.map (@rev (list A)) y.

(** Element-wise operations; the operands have one shape. *)
Fixpoint map2 {A B C : Type} (f : A -> B -> C) (a : list A) (b : list B)
  : list C :=
  match a, b with
  | x :: a', y :: b' => f x y :: map2 f a' b'
  | _, _ => []
  end.

Definition add1 (a b : list Q) : list Q := map2 Qplus a b.
Definition sub1 (a b : list Q) : list Q := map2 Qminus a b.

Definition add3 (a b : Tensor3) : Tensor3 := map2 (map2 (map2 Qplus)) a b.
Definition sub3 (a b : Tensor3) : Tensor3 := map2 (map2 (map2 Qminus)) a b.
Definition div3 (a : Tensor3) (k : Z) : Tensor3 :=
  List.map (List.map (List.map (fun v => (v / inject_Z k)%Q))) a.

(** [np.mean(arrays, axis=0)] of a list of arrays of one shape. *)
Definition mean0 (arrays : list Tensor3) : Tensor3 :=
  match arrays with
  | [] => []
  | a :: rest => div3 (fold_left add3 rest a) (Z.of_nat (List.length arrays))
  end.

(** [np.zeros((n, c))]. *)
Definition zeros (n : Z) (c : nat) : Tensor2 :=
  repeat (repeat 0%Q c) (Z.to_nat n).

(** [np.max(m, axis=0)] of a rank-2 array: the maximum of every column;
    [ValueError] on an array with no row. *)
Definition max_rows (m : Tensor2) : Py.result (list Q) :=
  match m with
  | [] => Py.Raise Py.ValueError
  | r :: rest => Py.Ok (fold_left (map2 Qmax) rest r)
  end.

(** [m[:, c]] of a rank-2 array. *)
Definition column (m : Tensor2) (c : Z) : Py.result (list Q) :=
  Py.mapM (fun row => Py.index row c) m.

(** [d.argmax()]: one left-to-right scan that moves to a new position
    only on a strictly greater value; [ValueError] on an empty array. *)
Fixpoint argmax_from (best : Q) (ibest : Z) (k : Z) (d : list Q) : Z :=
  match d with
  | [] => ibest
  | v :: d' =>
      if Qle_bool v best then argmax_from best ibest (k + 1) d'
      else argmax_from v k (k + 1) d'
  end.

Definition argmax (d : list Q) : Py.result Z :=
  match d with
  | [] => Py.Raise Py.ValueError
  | v :: d' => Py.Ok (argmax_from v 0 1 d')
  end.

(** [x[:, p] = row] on a copy of [x]; [p] may be negative, and
    [IndexError] when it is out of range. *)
Fixpoint set_nth {A : Type} (l : list A) (n : nat) (a : A) : list A :=
  match l, n with
  | [], _ => []
  | _ :: l', O => a :: l'
  | x :: l', S n' => x :: set_nth l' n' a
  end.

Definition set_row (m : Tensor2) (p : Z) (row : list Q) : Py.result Tensor2 :=
  let n := Z.of_nat (List.length m) in
  let k := if p <? 0 then p + n else p in
  if (0 <=? k) && (k <? n) then Py.Ok (set_nth m (Z.to_nat k) row)
  else Py.Raise Py.IndexError.

Definition set_pos (x : Tensor3) (p : Z) (row : list Q) : Py.result Tensor3 :=
  Py.mapM (fun m => set_row m p row) x.

(** [x.shape[-2]] of a rank-3 array. *)
Definition shape_pos {A : Type} (x : list (list A)) : Z :=
  Z.of_nat (List.length (hd [] x)).

End Np.

(* ================================================================== *)
(** ** [class Annotator] *)
(* ================================================================== *)

(** One row of the annotation table read by [pd.read_csv], with the
    columns [#NAME], [CHROM], [STRAND], [TX_START], [TX_END]. *)
Record Row : Type := mkRow {
  NAME : string;
  CHROM : string;
  STRAND : string;
  TX_START : Z;
  TX_END : Z
}.

(** The [pyfaidx.Fasta] object, through the two ways the module uses it:
    [keys()], and [fetch c a b] for [fasta[c][a:b].seq]. *)
Record Fasta : Type := mkFasta {
  keys : list string;
  fetch : string -> Z -> Z -> Py.result string
}.

(** A loaded Keras model, through its [predict]. *)
Definition Model : Type := Np.Tensor3 -> Np.Tensor3.

Record Annotator : Type := mkAnnotator {
  genes : list string;
  chroms : list string;
  strands : list string;
  tx_starts : list Z;
  tx_ends : list Z;
  ref_fasta : Fasta;
  models : list Model
}.

(** [Annotator.__init__], after the files are read: [df] is the parsed
    table, [load_model x] the model loaded from [models/spliceai{x}.h5].
    The columns [TX_START] and [TX_END] are [int64] arrays, and so is
    [TX_START + 1]. *)
Definition Annotator_init (df : list Row) (fasta : Fasta) (load_model : Z -> Model)
  : Annotator :=
  {| genes := List.map NAME df;
     chroms := List.map CHROM df;
     strands := List.map STRAND df;
     tx_starts := List.map (fun r => Np.int64 (TX_START r + 1)) df;
     tx_ends := List.map TX_END df;
     ref_fasta := fasta;
     models := List.map load_model [1; 2; 3; 4; 5] |}.

Definition get_name_and_strand (self : Annotator) (chrom : string) (pos : Z)
  : Py.result (list string * list string * list Z) :=
  c0 <- Py.index (chroms self) 0 ;;
  let chrom := normalise_chrom chrom c0 in
  let idxs :=
    Np.intersect1d
      (Np.nonzero (List.map (fun c => String.eqb c chrom) (chroms self)))
      (Np.intersect1d
         (Np.nonzero (List.map (fun s => s <=? pos) (tx_starts self)))
         (Np.nonzero (List.map (fun e => pos <=? e) (tx_ends self)))) in
  if 1 <=? Z.of_nat (List.length idxs) then
    g <- Py.take (genes self) idxs ;;
    s <- Py.take (strands self) idxs ;;
    Py.Ok (g, s, idxs)
  else Py.Ok ([], [], []).

Definition get_pos_data (self : Annotator) (idx pos : Z) : Py.result (Z * Z) :=
  s <- Py.index (tx_starts self) idx ;;
  let dist_tx_start := s - pos in
  e <- Py.index (tx_ends self) idx ;;
  let dist_tx_end := e - pos in
  Py.Ok (dist_tx_start, dist_tx_end).

(* ================================================================== *)
(** ** Records, score lines, the windows *)
(* ================================================================== *)

(** A VCF record as the module reads it; [alts] is [None] on a record
    without alternate alleles, which makes [len(record.alts)] raise. *)
Record VcfRecord : Type := mkRecord {
  chrom : string;
  pos : Z;
  ref : string;
  alts : option (list string)
}.

(** The lines [get_delta_scores] appends: [Unscored a g] is
    ["a|g|.|.|.|.|.|.|.|."], [Scored] carries the four differences (before
    their rounding to two decimals) and the four offsets. *)
Inductive ScoreLine : Type :=
| Unscored (allele gene : string)
| Scored (allele gene : string) (ag al dg dl : Q) (pa na pd nd : Z).

(** The calls of [logging.warning]. *)
Inductive warning : Type := BadInput | FastaIssue | RefIssue.

Definition is_sentinel (a : string) : bool :=
  String.eqb a "<NON_REF>" || String.eqb a ".".

(** [seq[wid//2:wid//2+len(record.ref)].upper()]. *)
Definition window_centre (wid : Z) (seq ref : string) : string :=
  PyStr.upper (PyStr.str_slice seq (wid / 2) (wid / 2 + PyStr.len ref)).

Definition pad_size (wid : Z) (dist : Z * Z) : Z * Z :=
  (Z.max (wid / 2 + fst dist) 0, Z.max (wid / 2 - snd dist) 0).

(** ['N'*pad_size[0]+seq[pad_size[0]:wid-pad_size[1]]+'N'*pad_size[1]]. *)
Definition window_ref (wid : Z) (seq : string) (pad : Z * Z) : string :=
  (PyStr.str_mul "N" (fst pad)
   ++ PyStr.str_slice seq (fst pad) (wid - snd pad)
   ++ PyStr.str_mul "N" (snd pad))%string.

(** [x_ref[:wid//2]+str(record.alts[j])+x_ref[wid//2+ref_len:]]. *)
Definition window_alt (wid : Z) (x_ref alt : string) (ref_len : Z) : string :=
  (PyStr.str_slice_to x_ref (wid / 2)
   ++ alt
   ++ PyStr.str_slice_from x_ref (wid / 2 + ref_len))%string.

(** [one_hot_encode(x)[None, :]], then the strand flip. *)
Definition encode_window (x : string) (strand : string) : list (list (list Z)) :=
  let t := [one_hot_encode x] in
  if String.eqb strand "-" then Np.flip_pos_chan t else t.

(* ================================================================== *)
(** ** [get_delta_scores] *)
(* ================================================================== *)

(** [np.mean([ann.models[m].predict(x) for m in range(5)], axis=0)]. *)
Definition ensemble_mean (ms : list Model) (x : list (list (list Z)))
  : Py.result Np.Tensor3 :=
  preds <- Py.mapM (fun m => mdl <- Py.index ms m ;; Py.Ok (mdl (Np.astype_float x)))
                   (Py.range 5) ;;
  Py.Ok (Np.mean0 preds).

(** The two [np.concatenate(..., axis=1)] of the indel cases.  The pieces
    are joined along the position axis; the deletion case joins a
    [np.zeros((1, del_len, 3))], so its batch axis has to be of size 1. *)
Definition reconcile (cov ref_len alt_len del_len : Z) (y_alt : Np.Tensor3)
  : Py.result Np.Tensor3 :=
  if (1 <? ref_len) && (alt_len =? 1) then
    match y_alt with
    | [m] =>
        Py.Ok [ PyStr.slice_to m (cov / 2 + alt_len)
                ++ Np.zeros del_len 3
                ++ PyStr.slice_from m (cov / 2 + alt_len) ]
    | _ => Py.Raise Py.ValueError
    end
  else if (ref_len =? 1) && (1 <? alt_len) then
    Py.mapM (fun m =>
               mx <- Np.max_rows (PyStr.slice m (cov / 2) (cov / 2 + alt_len)) ;;
               Py.Ok (PyStr.slice_to m (cov / 2)
                      ++ [mx]
                      ++ PyStr.slice_from m (cov / 2 + alt_len)))
            y_alt
  else Py.Ok y_alt.

(** [y = np.concatenate([y_ref, y_alt])]: the arrays are stacked along the
    batch axis, which needs one length along the position axis. *)
Definition stack (y_ref y_alt : Np.Tensor3) : Py.result Np.Tensor3 :=
  if Np.shape_pos y_ref =? Np.shape_pos y_alt then Py.Ok (y_ref ++ y_alt)
  else Py.Raise Py.ValueError.

(** [y[a, :, c] - y[b, :, c]]. *)
Definition class_diff (y : Np.Tensor3) (a b c : Z) : Py.result (list Q) :=
  ya <- Py.index y a ;;
  ca <- Np.column ya c ;;
  yb <- Py.index y b ;;
  cb <- Np.column yb c ;;
  Py.Ok (Np.sub1 ca cb).

(** The values of one score line, from the stacked array [y]. *)
Definition extract_scores (cov : Z) (y : Np.Tensor3)
  : Py.result (Q * Q * Q * Q * (Z * Z * Z * Z)) :=
  d_pa <- class_diff y 1 0 1 ;;
  idx_pa <- Np.argmax d_pa ;;
  d_na <- class_diff y 0 1 1 ;;
  idx_na <- Np.argmax d_na ;;
  d_pd <- class_diff y 1 0 2 ;;
  idx_pd <- Np.argmax d_pd ;;
  d_nd <- class_diff y 0 1 2 ;;
  idx_nd <- Np.argmax d_nd ;;
  ag <- Py.index d_pa idx_pa ;;
  al <- Py.index d_na idx_na ;;
  dg <- Py.index d_pd idx_pd ;;
  dl <- Py.index d_nd idx_nd ;;
  Py.Ok (ag, al, dg, dl,
         (idx_pa - cov / 2, idx_na - cov / 2, idx_pd - cov / 2, idx_nd - cov / 2)).

(** The body of the two loops, for allele [j] and gene [i]. *)
Definition delta_scores_step (ann : Annotator) (record : VcfRecord) (cov : Z)
  (seq : string) (alts : list string)
  (genes strands : list string) (idxs : list Z)
  (j i : Z) (delta_scores : list ScoreLine) : Py.result (list ScoreLine) :=
  let wid := 10000 + cov in
  alt <- Py.index alts j ;;
  if is_sentinel alt then Py.Ok delta_scores
  else if (1 <? PyStr.len (ref record)) && (1 <? PyStr.len alt) then
    gene <- Py.index genes i ;;
    Py.Ok (delta_scores ++ [Unscored alt gene])
  else
    idx <- Py.index idxs i ;;
    dist <- get_pos_data ann idx (pos record) ;;
    let pad := pad_size wid dist in
    let ref_len := PyStr.len (ref record) in
    let alt_len := PyStr.len alt in
    let del_len := Z.max (ref_len - alt_len) 0 in
    let x_ref := window_ref wid seq pad in
    let x_alt := window_alt wid x_ref alt ref_len in
    strand <- Py.index strands i ;;
    let x_ref := encode_window x_ref strand in
    let x_alt := encode_window x_alt strand in
    y_ref <- ensemble_mean (models ann) x_ref ;;
    y_alt <- ensemble_mean (models ann) x_alt ;;
    let y_ref := if String.eqb strand "-" then Np.flip_pos y_ref else y_ref in
    let y_alt := if String.eqb strand "-" then Np.flip_pos y_alt else y_alt in
    y_alt <- reconcile cov ref_len alt_len del_len y_alt ;;
    y <- stack y_ref y_alt ;;
    sc <- extract_scores cov y ;;
    gene <- Py.index genes i ;;
    let '(ag, al, dg, dl, (pa, na, pd, nd)) := sc in
    Py.Ok (delta_scores ++ [Scored alt gene ag al dg dl pa na pd nd]).

Definition delta_scores_loop (ann : Annotator) (record : VcfRecord) (cov : Z)
  (seq : string) (alts : list string)
  (genes strands : list string) (idxs : list Z) : Py.result (list ScoreLine) :=
  Py.foldM
    (fun ds j =>
       Py.foldM
         (fun ds i =>
            delta_scores_step ann record cov seq alts genes strands idxs j i ds)
         (Py.range (List.length idxs)) ds)
    (Py.range (List.length alts)) [].

(** [get_delta_scores] returns its list of lines; the model pairs it with
    the warnings logged on the way. *)
Definition get_delta_scores (record : VcfRecord) (ann : Annotator) (cov : Z)
  : Py.result (list warning * list ScoreLine) :=
  let wid := 10000 + cov in
  let delta_scores : list ScoreLine := [] in
  match alts record with
  | None => Py.Ok ([BadInput], delta_scores)
  | Some alts =>
      r <- get_name_and_strand ann (chrom record) (pos record) ;;
      let '(genes, strands, idxs) := r in
      if Z.of_nat (List.length idxs) =? 0 then Py.Ok ([], delta_scores)
      else
        k0 <- Py.index (keys (ref_fasta ann)) 0 ;;
        let chrom := normalise_chrom (chrom record) k0 in
        match fetch (ref_fasta ann) chrom
                    (pos record - wid / 2 - 1) (pos record + wid / 2) with
        | Py.Raise Py.IndexError | Py.Raise Py.ValueError =>
            Py.Ok ([FastaIssue], delta_scores)
        | Py.Raise e => Py.Raise e
        | Py.Ok seq =>
            if negb (String.eqb (window_centre wid seq (ref record)) (ref record))
            then Py.Ok ([RefIssue], delta_scores)
            else
              ds <- delta_scores_loop ann record cov seq alts genes strands idxs ;;
              Py.Ok ([], ds)
        end
  end.

(* ================================================================== *)
(** ** [calculate_importance_score] *)
(* ================================================================== *)

(** [models[k].predict(Xa) + ... + models[k].predict(Xt)]. *)
Definition counterfactual_sum (ms : list Model) (k : Z) (Xa Xc Xg Xt : Np.Tensor3)
  : Py.result Np.Tensor3 :=
  ma <- Py.index ms k ;;
  mc <- Py.index ms k ;;
  mg <- Py.index ms k ;;
  mt <- Py.index ms k ;;
  Py.Ok (Np.add3 (Np.add3 (Np.add3 (ma Xa) (mc Xc)) (mg Xg)) (mt Xt)).

(** One round of the loop: the value assigned to [I[i]].  [Y] is the
    baseline after [Y = Y[None, :]]. *)
Definition importance_step (X : Np.Tensor3) (ms : list Model) (t : Z)
  (Y : list Np.Tensor3) (WINDOW_SIZE N i : Z) : Py.result Np.Tensor3 :=
  let p := (WINDOW_SIZE - N) / 2 + i in
  Xa <- Np.set_pos X p [1; 0; 0; 0]%Q ;;
  Xc <- Np.set_pos X p [0; 1; 0; 0]%Q ;;
  Xg <- Np.set_pos X p [0; 0; 1; 0]%Q ;;
  Xt <- Np.set_pos X p [0; 0; 0; 1]%Q ;;
  I0 <- counterfactual_sum ms 0 Xa Xc Xg Xt ;;
  I1 <- counterfactual_sum ms 1 Xa Xc Xg Xt ;;
  I2 <- counterfactual_sum ms 2 Xa Xc Xg Xt ;;
  I3 <- counterfactual_sum ms 3 Xa Xc Xg Xt ;;
  I4 <- counterfactual_sum ms 4 Xa Xc Xg Xt ;;
  let Ii := Np.div3 (Np.add3 (Np.add3 (Np.add3 (Np.add3 I0 I1) I2) I3) I4) 20 in
  let Ii := [Ii] in
  Yt <- Py.index Y t ;;
  Iit <- Py.index Ii t ;;
  Py.Ok (Np.sub3 Yt Iit).

(** [predict] returns a rank-3 array, so [len(Y.shape) == 3] holds and the
    baseline and every [Ii] get a leading axis of size 1.  The result is
    the array [I], as the list of its [N] entries [I[i]]. *)
Definition calculate_importance_score (X : Np.Tensor3) (ms : list Model) (t : Z)
  : Py.result (list Np.Tensor3) :=
  m0 <- Py.index ms 0 ;;
  let Y0 := m0 X in
  m1 <- Py.index ms 1 ;;
  let Y1 := m1 X in
  m2 <- Py.index ms 2 ;;
  let Y2 := m2 X in
  m3 <- Py.index ms 3 ;;
  let Y3 := m3 X in
  m4 <- Py.index ms 4 ;;
  let Y4 := m4 X in
  let Y := Np.div3 (Np.add3 (Np.add3 (Np.add3 (Np.add3 Y0 Y1) Y2) Y3) Y4) 5 in
  let Y := [Y] in
  let WINDOW_SIZE := Np.shape_pos X in
  let N := 1001 in
  Py.mapM (importance_step X ms t Y WINDOW_SIZE N) (Py.range (Z.to_nat N)).

(* ================================================================== *)
(** ** [get_importance_score] *)
(* ================================================================== *)

(** What a name of the module's namespace is bound to. *)
Inductive pyobj : Type :=
| PyModule
| PyClass
| PyFunction
| PyInt (z : Z).

(** The names bound at the top level of [utils.py]: its imports, its class
    and its functions. *)
Definition module_globals : list (string * pyobj) :=
  [ ("resource_filename", PyFunction);
    ("pd", PyModule);
    ("np", PyModule);
    ("Fasta", PyClass);
    ("load_model", PyFunction);
    ("logging", PyModule);
    ("Annotator", PyClass);
    ("one_hot_encode", PyFunction);
    ("normalise_chrom", PyFunction);
    ("get_delta_scores", PyFunction);
    ("calculate_importance_score", PyFunction);
    ("get_importance_score", PyFunction) ].

(** The functions and constants of Python's [builtins]; the exception
    classes, which all have longer names, are left out but for the ones the
    module names. *)
Definition builtins : list (string * pyobj) :=
  List.map (fun n => (n, PyFunction))
    [ "abs"; "all"; "any"; "ascii"; "bin"; "bool"; "breakpoint"; "bytearray";
      "bytes"; "callable"; "chr"; "classmethod"; "compile"; "complex";
      "copyright"; "credits"; "delattr"; "dict"; "dir"; "divmod"; "enumerate";
      "eval"; "exec"; "exit"; "filter"; "float"; "format"; "frozenset";
      "getattr"; "globals"; "hasattr"; "hash"; "help"; "hex"; "id"; "input";
      "int"; "isinstance"; "issubclass"; "iter"; "len"; "license"; "list";
      "locals"; "map"; "max"; "memoryview"; "min"; "next"; "object"; "oct";
      "open"; "ord"; "pow"; "print"; "property"; "quit"; "range"; "repr";
      "reversed"; "round"; "set"; "setattr"; "slice"; "sorted";
      "staticmethod"; "str"; "sum"; "super"; "tuple"; "type"; "vars"; "zip";
      "__import__"; "True"; "False"; "None"; "Ellipsis"; "NotImplemented";
      "TypeError"; "IOError"; "KeyError"; "IndexError"; "ValueError" ].

Fixpoint lookup_name (name : string) (env : list (string * pyobj)) : option pyobj :=
  match env with
  | [] => None
  | (n, o) :: env' => if String.eqb name n then Some o else lookup_name name env'
  end.

(** A name that is no local of the function: the module's globals, then
    the builtins, then [NameError]. *)
Definition load_global (name : string) : Py.result pyobj :=
  match lookup_name name module_globals with
  | Some o => Py.Ok o
  | None =>
      match lookup_name name builtins with
      | Some o => Py.Ok o
      | None => Py.Raise (Py.NameError name)
      end
  end.

(** A local of the function, which is unbound until it is assigned. *)
Definition load_local {A : Type} (name : string) (v : option A) : Py.result A :=
  match v with
  | Some a => Py.Ok a
  | None => Py.Raise (Py.UnboundLocalError name)
  end.

(** An object used as an index. *)
Definition as_index (o : pyobj) : Py.result Z :=
  match o with
  | PyInt z => Py.Ok z
  | _ => Py.Raise Py.TypeError
  end.

(** What [get_importance_score] returns: its (empty) list of lines on the
    early exits, the array of [calculate_importance_score] at the end. *)
Inductive importance_value : Type :=
| Lines (delta_scores : list ScoreLine)
| Importance (I : list Np.Tensor3).

(** The locals the two loops assign and the code after them reads. *)
Record importance_locals : Type := mkLocals {
  l_delta_scores : list ScoreLine;
  l_x_alt : option (list (list (list Z)))
}.

Definition importance_loop_step (ann : Annotator) (record : VcfRecord) (cov : Z)
  (seq : string) (alts : list string)
  (genes strands : list string) (idxs : list Z)
  (j i : Z) (st : importance_locals) : Py.result importance_locals :=
  let wid := 10000 + cov in
  alt <- Py.index alts j ;;
  if is_sentinel alt then Py.Ok st
  else if (1 <? PyStr.len (ref record)) && (1 <? PyStr.len alt) then
    gene <- Py.index genes i ;;
    Py.Ok (mkLocals (l_delta_scores st ++ [Unscored alt gene]) (l_x_alt st))
  else
    idx <- Py.index idxs i ;;
    dist <- get_pos_data ann idx (pos record) ;;
    let pad := pad_size wid dist in
    let ref_len := PyStr.len (ref record) in
    let x_ref := window_ref wid seq pad in
    let x_alt := window_alt wid x_ref alt ref_len in
    strand <- Py.index strands i ;;
    let x_alt := encode_window x_alt strand in
    Py.Ok (mkLocals (l_delta_scores st) (Some x_alt)).

Definition importance_loop (ann : Annotator) (record : VcfRecord) (cov : Z)
  (seq : string) (alts : list string)
  (genes strands : list string) (idxs : list Z) : Py.result importance_locals :=
  Py.foldM
    (fun st j =>
       Py.foldM
         (fun st i =>
            importance_loop_step ann record cov seq alts genes strands idxs j i st)
         (Py.range (List.length idxs)) st)
    (Py.range (List.length alts)) (mkLocals [] None).

(** [return calculate_importance_score(x_alt, ann.models, t)]: the
    arguments are evaluated from left to right, then the call is made. *)
Definition importance_return (ann : Annotator) (st : importance_locals)
  : Py.result (list Np.Tensor3) :=
  _f <- load_global "calculate_importance_score" ;;
  x_alt <- load_local "x_alt" (l_x_alt st) ;;
  let ms := models ann in
  t_obj <- load_global "t" ;;
  t <- as_index t_obj ;;
  calculate_importance_score (Np.astype_float x_alt) ms t.

Definition get_importance_score (record : VcfRecord) (ann : Annotator) (cov : Z)
  : Py.result (list warning * importance_value) :=
  let wid := 10000 + cov in
  let delta_scores : list ScoreLine := [] in
  match alts record with
  | None => Py.Ok ([BadInput], Lines delta_scores)
  | Some alts =>
      r <- get_name_and_strand ann (chrom record) (pos record) ;;
      let '(genes, strands, idxs) := r in
      if Z.of_nat (List.length idxs) =? 0 then Py.Ok ([], Lines delta_scores)
      else
        k0 <- Py.index (keys (ref_fasta ann)) 0 ;;
        let chrom := normalise_chrom (chrom record) k0 in
        match fetch (ref_fasta ann) chrom
                    (pos record - wid / 2 - 1) (pos record + wid / 2) with
        | Py.Raise Py.IndexError | Py.Raise Py.ValueError =>
            Py.Ok ([FastaIssue], Lines delta_scores)
        | Py.Raise e => Py.Raise e
        | Py.Ok seq =>
            if negb (String.eqb (window_centre wid seq (ref record)) (ref record))
            then Py.Ok ([RefIssue], Lines delta_scores)
            else
              st <- importance_loop ann record cov seq alts genes strands idxs ;;
              I <- importance_return ann st ;;
              Py.Ok ([], Importance I)
        end
  end.

(* ================================================================== *)
(** ** A small annotation, genome and ensemble *)
(* ================================================================== *)

(** Three genes on two chromosomes, labelled without the prefix. *)
Definition demo_df : list Row :=
  [ mkRow "GENE1" "1" "+" 999 50000;
    mkRow "GENE2" "1" "-" 15000 30000;
    mkRow "GENE3" "2" "+" 0 100 ].

(** A genome with the prefix, whose chromosome [chr1] reads A at every
    position and [chr2] cannot be read. *)
Definition demo_fasta : Fasta :=
  {| keys := ["chr1"; "chr2"];
     fetch := fun c a b =>
                if String.eqb c "chr1" then
                  Py.Ok (PyStr.repeat_char "A" (Z.to_nat (b - a)))
                else Py.Raise Py.IndexError |}.

(** The window that genome returns around a position of [chr1], at the
    default coverage. *)
Definition demo_seq : string := PyStr.str_mul "A" 11001.

(** A model that drops 5000 positions on either side, as the networks do,
    and scores every remaining position from its own row. *)
Definition demo_row (row : list Q) : list Q :=
  match row with
  | [a; c; g; t] => [(a + c) / 2; (g + t / 2) / 2; t / 4]%Q
  | _ => [1; 0; 0]%Q
  end.

Definition demo_model : Model :=
  List.map (fun m =>
              List.map demo_row
                (PyStr.slice m 5000 (Z.of_nat (List.length m) - 5000))).

Definition demo_ann : Annotator :=
  Annotator_init demo_df demo_fasta (fun _ => demo_model).

(** Two aligned outputs of three positions; the acceptor gain is tied at
    the first two positions. *)
Definition demo_y_ref : Np.Tensor2 :=
  [ [1; 0; 0]; [1; 0; 0]; [1; 0; 0] ]%Q.

Definition demo_y_alt : Np.Tensor2 :=
  [ [1 # 2; 1 # 2; 0]; [1 # 2; 1 # 2; 0]; [1; 0; 0] ]%Q.

(** A batch of one encoded window of 11001 positions. *)
Definition demo_X : Np.Tensor3 := [repeat [1; 0; 0; 0]%Q (Z.to_nat 11001)].

(** A record on chromosome 1 beyond every gene, and one on chromosome 2,
    which the genome cannot read. *)
Definition demo_record_far : VcfRecord := mkRecord "1" 60000 "A" (Some ["G"]).
Definition demo_record_chr2 : VcfRecord := mkRecord "2" 50 "A" (Some ["G"]).

(** A record with a two-base reference allele, a two-base alternate allele
    and a sentinel. *)
Definition demo_record_multi : VcfRecord :=
  mkRecord "1" 20000 "AA" (Some ["GC"; "."]).

(** A record whose alleles are all sentinels. *)
Definition demo_record_sentinels : VcfRecord :=
  mkRecord "1" 20000 "A" (Some ["."; "<NON_REF>"]).

(* ================================================================== *)
(** ** Reference definitions for the properties *)
(* ================================================================== *)

(** The encoding of one symbol, stated symbol by symbol: the four bases and
    N by name, whatever their case; any other byte by the residue modulo 5
    of its signed value. *)
Definition symbol_row (c : ascii) : list Z :=
  let u := PyStr.upper_char c in
  if Ascii.eqb u "A" then [1; 0; 0; 0]
  else if Ascii.eqb u "C" then [0; 1; 0; 0]
  else if Ascii.eqb u "G" then [0; 0; 1; 0]
  else if Ascii.eqb u "T" then [0; 0; 0; 1]
  else if Ascii.eqb u "N" then [0; 0; 0; 0]
  else nth (Z.to_nat (int8_of_char u mod 5)) map_table [].

(** The rows of the annotation that a query selects: row [i] carries the
    chromosome label [q] and its stored interval contains [pos]. *)
Definition overlaps (ann : Annotator) (q : string) (pos : Z) (i : Z) : Prop :=
  0 <= i
  /\ nth_error (chroms ann) (Z.to_nat i) = Some q
  /\ exists s e,
       nth_error (tx_starts ann) (Z.to_nat i) = Some s
       /\ nth_error (tx_ends ann) (Z.to_nat i) = Some e
       /\ s <= pos <= e.

(** [idx] is the first position of the maximum of [d]: no entry is
    greater, and every entry before [idx] is strictly smaller. *)
Definition first_max (d : list Q) (idx : Z) : Prop :=
  0 <= idx < Z.of_nat (List.length d)
  /\ (forall j, 0 <= j < Z.of_nat (List.length d) ->
                (nth (Z.to_nat j) d 0 <= nth (Z.to_nat idx) d 0)%Q)
  /\ (forall j, 0 <= j < idx ->
                (nth (Z.to_nat j) d 0 < nth (Z.to_nat idx) d 0)%Q).

(** A rank-2 array with [c] columns. *)
Definition has_columns (c : nat) (m : Np.Tensor2) : Prop :=
  Forall (fun row => List.length row = c) m.

(** What the module relies on of a model: a batch of one window gives a
    batch of one output, with 10000 positions fewer than the window (the
    flanks) and three classes at every position. *)
Definition model_contract (m : Model) : Prop :=
  forall x : Np.Tensor2,
    exists y, m [x] = [y]
              /\ Z.of_nat (List.length y) = Z.max 0 (Z.of_nat (List.length x) - 10000)
              /\ has_columns 3 y.

(** [mx] is the maximum, class by class, of the rows [span]. *)
Definition columnwise_max (span : Np.Tensor2) (mx : list Q) : Prop :=
  forall c, (c < List.length mx)%nat ->
    (forall row, In row span -> (nth c row 0 <= nth c mx 0)%Q)
    /\ (exists row, In row span /\ (nth c mx 0 == nth c row 0)%Q).

(** The entry of a rank-3 array at (batch [b], position [p], class [c]),
    and the indices that are in range. *)
Definition at3 (T : Np.Tensor3) (b p c : nat) : Q :=
  nth c (nth p (nth b T []) []) 0%Q.

Definition in_range3 (T : Np.Tensor3) (b p c : nat) : Prop :=
  (b < List.length T)%nat
  /\ (p < List.length (nth b T []))%nat
  /\ (c < List.length (nth p (nth b T []) []))%nat.

(** A batch of [B] windows of [W] positions. *)
Definition batch_of (B : nat) (W : Z) (x : Np.Tensor3) : Prop :=
  List.length x = B /\ Forall (fun w => Z.of_nat (List.length w) = W) x.

(** The window batch [X] with position [p] forced to the row [base]. *)
Definition counterfactual (X : Np.Tensor3) (p : Z) (base : list Q) : Np.Tensor3 :=
  List.map (fun m => Np.set_nth m (Z.to_nat p) base) X.

(** The sum and the mean over the ensemble of the predictions for [x], at
    one entry. *)
Definition sum_at (ms : list Model) (x : Np.Tensor3) (b p c : nat) : Q :=
  fold_right Qplus 0%Q (List.map (fun m => at3 (m x) b p c) ms).

Definition ensemble_at (ms : list Model) (x : Np.Tensor3) (b p c : nat) : Q :=
  (sum_at ms x b p c / inject_Z (Z.of_nat (List.length ms)))%Q.

(** The last character of a string. *)
Fixpoint last_char (s : string) : option ascii :=
  match s with
  | EmptyString => None
  | String c EmptyString => Some c
  | String _ s' => last_char s'
  end.

(** A label that neither starts nor ends with one of the characters c, h
    and r. *)
Definition clean_ends (x : string) : bool :=
  match x with
  | EmptyString => true
  | String c _ =>
      negb (PyStr.mem_char c "chr")
      && match last_char x with
         | Some d => negb (PyStr.mem_char d "chr")
         | None => true
         end
  end.

(** A symbol of the alphabet A, C, G, T, N, in either case. *)
Definition is_base (c : ascii) : bool :=
  let u := PyStr.upper_char c in
  Ascii.eqb u "A" || Ascii.eqb u "C" || Ascii.eqb u "G" || Ascii.eqb u "T"
  || Ascii.eqb u "N".

(** The complementary base, and the reverse complement of a sequence. *)
Definition complement_char (c : ascii) : ascii :=
  let u := PyStr.upper_char c in
  if Ascii.eqb u "A" then "T"%char
  else if Ascii.eqb u "C" then "G"%char
  else if Ascii.eqb u "G" then "C"%char
  else if Ascii.eqb u "T" then "A"%char
  else c.

Definition revcomp (s : string) : string :=
  PyStr.of_chars (rev (List.map complement_char (PyStr.chars s))).





(** Column [c] of a rank-2 array, and arrays of probabilities. *)
Definition col (c : Z) (m : Np.Tensor2) : list Q :=
  List.map (fun row => nth (Z.to_nat c) row 0%Q) m.

Definition unit_entries (m : Np.Tensor2) : Prop :=
  Forall (Forall (fun v => 0 <= v <= 1)%Q) m.

(** Text in ASCII: every character has a code below 128.  On such text the
    [upper] and the bytes of the module are those of [PyStr.upper] and
    [fromstring_int8], in Python 2 and in Python 3. *)
Definition is_ascii_char (c : ascii) : bool := (nat_of_ascii c <? 128)%nat.

Definition is_ascii (s : string) : bool :=
  forallb is_ascii_char (list_ascii_of_string s).

(** The upper-case form of an ASCII character: a letter of the lower-case
    alphabet gives the letter at its place in the upper-case alphabet,
    every other character is kept. *)
Definition lower_letters : list ascii :=
  list_ascii_of_string "abcdefghijklmnopqrstuvwxyz".
Definition upper_letters : list ascii :=
  list_ascii_of_string "ABCDEFGHIJKLMNOPQRSTUVWXYZ".

Fixpoint fold_letter (lo up : list ascii) (c : ascii) : ascii :=
  match lo, up with
  | l :: lo', u :: up' => if Ascii.eqb c l then u else fold_letter lo' up' c
  | _, _ => c
  end.

Definition to_upper_ascii (c : ascii) : ascii :=
  fold_letter lower_letters upper_letters c.

(** The row that encodes an ASCII symbol: the four bases and N by name, in
    either case; any other symbol by the residue modulo 5 of the code of
    its upper-case form. *)
Definition ascii_row (c : ascii) : list Z :=
  match to_upper_ascii c with
  | "A" => [1; 0; 0; 0]
  | "C" => [0; 1; 0; 0]
  | "G" => [0; 0; 1; 0]
  | "T" => [0; 0; 0; 1]
  | "N" => [0; 0; 0; 0]
  | u =>
      match Z.of_nat (nat_of_ascii u) mod 5 with
      | 0 => [0; 0; 0; 0]
      | 1 => [1; 0; 0; 0]
      | 2 => [0; 1; 0; 0]
      | 3 => [0; 0; 1; 0]
      | _ => [0; 0; 0; 1]
      end
  end%char.

(** The batch [X] with the row [base] at position [p] of every window and
    every other position as it is. *)
Definition force_position (X : list (list (list Q))) (p : nat) (base : list Q)
  : list (list (list Q)) :=
  List.map (fun m => firstn p m ++ base :: skipn (S p) m) X.

(** An array of exactly [B] batch elements, [L] positions and [C] classes. *)
Definition has_shape3 (B L C : nat) (T : list (list (list Q))) : Prop :=
  List.length T = B
  /\ Forall (fun m => List.length m = L
                      /\ Forall (fun row => List.length row = C) m) T.

(** The difference, at position [j] and class [c], between the outputs
    [y_to] and [y_from]. *)
Definition gain (y_to y_from : list (list Q)) (c j : nat) : Q :=
  (nth c (nth j y_to []) 0 - nth c (nth j y_from []) 0)%Q.

(** The offset [o] and the score [v] reported for the differences [d] at
    [n] positions: the offset plus [cov//2] is a position, the score is the
    difference there, no position has a greater difference, and every
    earlier position has a strictly smaller one. *)
Definition reported (cov : Z) (n : nat) (d : nat -> Q) (o : Z) (v : Q) : Prop :=
  let idx := o + cov / 2 in
  0 <= idx < Z.of_nat n
  /\ v = d (Z.to_nat idx)
  /\ (forall j, (j < n)%nat -> (d j <= d (Z.to_nat idx))%Q)
  /\ (forall j, (j < Z.to_nat idx)%nat -> (d j < d (Z.to_nat idx))%Q).





(** The five columns of an annotator have one length, as columns of one
    table do. *)
Definition columns_aligned (ann : Annotator) : Prop :=
  List.length (genes ann) = List.length (chroms ann)
  /\ List.length (strands ann) = List.length (chroms ann)
  /\ List.length (tx_starts ann) = List.length (chroms ann)
  /\ List.length (tx_ends ann) = List.length (chroms ann).

(** An allele for which the loops build the windows: no sentinel, and not
    a multi-base allele against a multi-base reference. *)
Definition builds_windows (record : VcfRecord) (alt : string) : bool :=
  negb (is_sentinel alt)
  && negb ((1 <? PyStr.len (ref record)) && (1 <? PyStr.len alt)).

(** Whether the local [x_alt] is bound. *)
Definition x_alt_bound (st : importance_locals) : bool :=
  match l_x_alt st with Some _ => true | None => false end.


(** The same variant with the reference allele in upper case, with one
    sentinel among its alleles. *)
Definition demo_record : VcfRecord := mkRecord "1" 20000 "A" (Some ["G"; "."]).

(* ================================================================== *)
(** * Properties *)
(* ================================================================== *)

(** ** [normalise_chrom] *)

Section NormaliseChrom.

Example normalise_chrom_strips : normalise_chrom "chr1" "1" = "1".
Proof. reflexivity. Qed.

Example normalise_chrom_adds : normalise_chrom "X" "chr1" = "chrX".
Proof. reflexivity. Qed.

Example normalise_chrom_keeps : normalise_chrom "chr7" "chr1" = "chr7".
Proof. reflexivity. Qed.

Lemma has_prefix_chr (s : string) : has_prefix ("chr" ++ s)%string = true.
Proof. unfold has_prefix. simpl. now destruct s. Qed.

(** What [lstrip] leaves starts with a character outside the set. *)
Lemma lstrip_head (cs s : string) (c : ascii) (r : string) :
  PyStr.lstrip cs s = String c r -> PyStr.mem_char c cs = false.
Proof.
  induction s as [|d s IH]; simpl; intro H.
  - discriminate.
  - destruct (PyStr.mem_char d cs) eqn:E.
    + now apply IH.
    + now inversion H; subst.
Qed.

(** [rstrip] keeps the first character of whatever it leaves. *)
Lemma rstrip_head (cs s : string) (c : ascii) (r : string) :
  PyStr.rstrip cs s = String c r -> exists r', s = String c r'.
Proof.
  destruct s as [|d s]; simpl; intro H.
  - discriminate.
  - destruct (PyStr.rstrip cs s).
    + destruct (PyStr.mem_char d cs); [discriminate|].
      inversion H; subst. now exists s.
    + inversion H; subst. now exists s.
Qed.

Lemma strip_head (cs s : string) (c : ascii) (r : string) :
  PyStr.strip cs s = String c r -> PyStr.mem_char c cs = false.
Proof.
  unfold PyStr.strip. intro H.
  destruct (rstrip_head _ _ _ _ H) as [r' Hr'].
  now apply lstrip_head in Hr'.
Qed.

Lemma has_prefix_head (s : string) :
  has_prefix s = true -> exists r, s = String "c" r.
Proof.
  unfold has_prefix, PyStr.startswith.
  destruct s as [|c s]; simpl; [discriminate|].
  destruct (Ascii.eqb_spec c "c") as [->|]; [|discriminate].
  intros _. now exists s.
Qed.

Lemma has_prefix_strip (s : string) : has_prefix (PyStr.strip "chr" s) = false.
Proof.
  destruct (has_prefix (PyStr.strip "chr" s)) eqn:E; [|reflexivity].
  destruct (has_prefix_head _ E) as [r Hr].
  apply strip_head in Hr. discriminate.
Qed.

(** C9, at an input where the claim and the code part: the label
    ["chr2r"], normalised against a target without the prefix, should lose
    its three leading characters and become ["2r"]; [strip('chr')] removes
    the characters c, h and r from both ends and returns ["2"]. *)
Theorem normalise_chrom_strip_removes_more :
  normalise_chrom "chr2r" "1" = "2"
  /\ normalise_chrom "chr2r" "1" <> PyStr.str_slice_from "chr2r" 3
  /\ PyStr.str_slice_from "chr2r" 3 = "2r".
Proof.
  repeat split; try reflexivity.
  vm_compute. discriminate.
Qed.

(** C10: [normalise_chrom] is idempotent for a fixed target:
    [normalise_chrom (normalise_chrom x t) t = normalise_chrom x t] for
    all strings [x] and [t]. *)
Theorem normalise_chrom_idempotent (x t : string) :
  normalise_chrom (normalise_chrom x t) t = normalise_chrom x t.
Proof.
  unfold normalise_chrom at 2 3.
  destruct (has_prefix x) eqn:Hx, (has_prefix t) eqn:Ht; cbn [andb negb].
  - unfold normalise_chrom. now rewrite Hx, Ht.
  - unfold normalise_chrom. now rewrite has_prefix_strip, Ht.
  - unfold normalise_chrom. now rewrite has_prefix_chr, Ht.
  - unfold normalise_chrom. now rewrite Hx, Ht.
Qed.

End NormaliseChrom.

(** ** [one_hot_encode] *)

Section OneHotEncode.

Example one_hot_encode_acgtn :
  one_hot_encode "acGTn"
  = [[1;0;0;0]; [0;1;0;0]; [0;0;1;0]; [0;0;0;1]; [0;0;0;0]].
Proof. reflexivity. Qed.

Lemma one_hot_encode_cons (c : ascii) (s : string) :
  one_hot_encode (String c s) = one_hot_encode (String c "") ++ one_hot_encode s.
Proof. reflexivity. Qed.

Lemma one_hot_encode_char (c : ascii) :
  one_hot_encode (String c "") = [symbol_row c].
Proof.
  destruct c as [[] [] [] [] [] [] [] []]; vm_compute; reflexivity.
Qed.

(** C3, on a symbol that is none of A, C, G, T, N: ["B"] has the byte
    value 66, and 66 mod 5 = 1 selects the row of A, not the zero row. *)
Lemma one_hot_encode_B_is_A :
  one_hot_encode "B" = [[1; 0; 0; 0]]
  /\ one_hot_encode "B" <> [[0; 0; 0; 0]].
Proof. split; vm_compute; [reflexivity | discriminate]. Qed.

(** In the model of byte strings [one_hot_encode] encodes a string byte
    by byte, each byte by [symbol_row]. *)
Lemma one_hot_encode_by_symbol (seq : string) :
  one_hot_encode seq = List.map symbol_row (PyStr.chars seq).
Proof.
  induction seq as [|c s IH].
  - reflexivity.
  - rewrite one_hot_encode_cons, one_hot_encode_char, IH. reflexivity.
Qed.

(** The encoding has one row for every symbol. *)
Lemma one_hot_encode_rows (seq : string) :
  List.length (one_hot_encode seq) = String.length seq.
Proof.
  induction seq as [|c s IH].
  - reflexivity.
  - rewrite one_hot_encode_cons, one_hot_encode_char. simpl. now rewrite IH.
Qed.

End OneHotEncode.

(** ** Python indexing and comprehensions *)

Section Sequences.

Lemma index_ok {A : Type} (l : list A) (i : Z) (a : A) :
  0 <= i -> nth_error l (Z.to_nat i) = Some a -> Py.index l i = Py.Ok a.
Proof.
  intros Hi Hn. unfold Py.index.
  assert (Hlt : (Z.to_nat i < List.length l)%nat)
    by (apply nth_error_Some; congruence).
  destruct (i <? 0) eqn:E; [lia|].
  replace ((0 <=? i) && (i <? Z.of_nat (List.length l))) with true
    by (symmetry; apply andb_true_iff; split; lia).
  now rewrite Hn.
Qed.

Lemma index_nat_ok {A : Type} (l : list A) (n : nat) (a : A) :
  nth_error l n = Some a -> Py.index l (Z.of_nat n) = Py.Ok a.
Proof.
  intro H. apply index_ok; [lia|]. now rewrite Nat2Z.id.
Qed.

Lemma mapM_ok {A B : Type} (f : A -> Py.result B) (g : A -> B) (l : list A) :
  (forall a, In a l -> f a = Py.Ok (g a)) ->
  Py.mapM f l = Py.Ok (List.map g l).
Proof.
  induction l as [|a l IH]; simpl; intro H.
  - reflexivity.
  - rewrite (H a) by now left. simpl.
    rewrite IH by (intros; apply H; now right). reflexivity.
Qed.

Lemma mapM_length {A B : Type} (f : A -> Py.result B) (l : list A) (bs : list B) :
  Py.mapM f l = Py.Ok bs -> List.length bs = List.length l.
Proof.
  revert bs. induction l as [|a l IH]; simpl; intros bs H.
  - now inversion H.
  - destruct (f a); [|discriminate]. simpl in H.
    destruct (Py.mapM f l) as [bs'|]; [|discriminate]. simpl in H.
    inversion H; subst. simpl. now rewrite (IH bs').
Qed.

(** [take] succeeds on indices that are all in range. *)
Lemma take_ok {A : Type} (l : list A) (idxs : list Z) (d : A) :
  Forall (fun i => 0 <= i < Z.of_nat (List.length l)) idxs ->
  Py.take l idxs = Py.Ok (List.map (fun i => nth (Z.to_nat i) l d) idxs).
Proof.
  intro H. unfold Py.take. apply mapM_ok. intros i Hi.
  rewrite Forall_forall in H. specialize (H i Hi).
  apply index_ok; [lia|]. apply nth_error_nth'. lia.
Qed.

End Sequences.

(** ** [Annotator.get_name_and_strand] *)

Section Lookup.

Lemma nonzero_from_In (mask : list bool) (k i : Z) :
  In i (Np.nonzero_from k mask)
  <-> k <= i /\ nth_error mask (Z.to_nat (i - k)) = Some true.
Proof.
  revert k. induction mask as [|b mask IH]; intro k; simpl.
  - split; [tauto|]. intros [_ H]. now destruct (Z.to_nat (i - k)).
  - assert (Hstep : forall j, k + 1 <= j ->
              nth_error (b :: mask) (Z.to_nat (j - k))
              = nth_error mask (Z.to_nat (j - (k + 1)))).
    { intros j Hj. replace (Z.to_nat (j - k)) with (S (Z.to_nat (j - (k + 1))))
        by lia. reflexivity. }
    destruct b; simpl; rewrite ?IH.
    + split.
      * intros [<-|[Hk Hn]].
        -- split; [lia|]. now rewrite Z.sub_diag.
        -- split; [lia|]. now rewrite Hstep.
      * intros [Hk Hn]. destruct (Z.eq_dec k i) as [->|Hne]; [now left|].
        right. split; [lia|]. now rewrite <- Hstep by lia.
    + split.
      * intros [Hk Hn]. split; [lia|]. now rewrite Hstep.
      * intros [Hk Hn]. destruct (Z.eq_dec k i) as [->|Hne].
        -- rewrite Z.sub_diag in Hn. discriminate.
        -- split; [lia|]. now rewrite <- Hstep by lia.
Qed.

Lemma nonzero_In (mask : list bool) (i : Z) :
  In i (Np.nonzero mask)
  <-> 0 <= i /\ nth_error mask (Z.to_nat i) = Some true.
Proof.
  unfold Np.nonzero. rewrite nonzero_from_In. now rewrite Z.sub_0_r.
Qed.

Lemma nonzero_from_sorted (mask : list bool) (k : Z) :
  StronglySorted Z.lt (Np.nonzero_from k mask).
Proof.
  revert k. induction mask as [|b mask IH]; intro k; simpl.
  - constructor.
  - destruct b; [|apply IH].
    constructor; [apply IH|].
    apply Forall_forall. intros j Hj. apply nonzero_from_In in Hj. lia.
Qed.

Lemma filter_sorted (f : Z -> bool) (l : list Z) :
  StronglySorted Z.lt l -> StronglySorted Z.lt (filter f l).
Proof.
  induction 1 as [|x l Hs IH Hx]; simpl.
  - constructor.
  - destruct (f x); [|exact IH].
    constructor; [exact IH|].
    apply Forall_forall. intros y Hy. apply filter_In in Hy.
    rewrite Forall_forall in Hx. now apply Hx.
Qed.

Lemma sorted_NoDup (l : list Z) : StronglySorted Z.lt l -> NoDup l.
Proof.
  induction 1 as [|x l Hs IH Hx]; constructor; [|exact IH].
  intro Hin. rewrite Forall_forall in Hx. specialize (Hx x Hin). lia.
Qed.

Lemma sort_sorted (l : list Z) : StronglySorted Z.lt l -> Np.sort l = l.
Proof.
  unfold Np.sort. induction 1 as [|x l Hs IH Hx]; simpl.
  - reflexivity.
  - rewrite IH.
    destruct l as [|y l]; simpl; [reflexivity|].
    inversion Hx; subst.
    replace (x <=? y) with true by (symmetry; apply Z.leb_le; lia).
    reflexivity.
Qed.

(** On strictly increasing arrays [np.unique] changes nothing and
    [np.intersect1d] is a filter. *)
Lemma unique_sorted (l : list Z) : StronglySorted Z.lt l -> Np.unique l = l.
Proof.
  intro H. unfold Np.unique.
  rewrite nodup_fixed_point by now apply sorted_NoDup.
  now apply sort_sorted.
Qed.

Lemma intersect1d_sorted (a b : list Z) :
  StronglySorted Z.lt a ->
  Np.intersect1d a b = filter (fun x => Np.mem x b) a.
Proof.
  intro H. unfold Np.intersect1d. apply unique_sorted. now apply filter_sorted.
Qed.

Lemma mem_In (x : Z) (l : list Z) : Np.mem x l = true <-> In x l.
Proof.
  unfold Np.mem. rewrite existsb_exists. split.
  - intros [y [Hy E]]. apply Z.eqb_eq in E. now subst.
  - intro H. exists x. split; [exact H | apply Z.eqb_refl].
Qed.

Lemma intersect1d_In (a b : list Z) (x : Z) :
  StronglySorted Z.lt a ->
  In x (Np.intersect1d a b) <-> In x a /\ In x b.
Proof.
  intro H. rewrite intersect1d_sorted by exact H.
  rewrite filter_In. now rewrite mem_In.
Qed.

Lemma intersect1d_is_sorted (a b : list Z) :
  StronglySorted Z.lt a -> StronglySorted Z.lt (Np.intersect1d a b).
Proof.
  intro H. rewrite intersect1d_sorted by exact H. now apply filter_sorted.
Qed.

Lemma Annotator_init_aligned (df : list Row) (fa : Fasta) (lm : Z -> Model) :
  columns_aligned (Annotator_init df fa lm).
Proof. unfold columns_aligned; simpl. now rewrite !length_map. Qed.

Lemma nth_error_map_true {A : Type} (f : A -> bool) (l : list A) (n : nat) :
  nth_error (List.map f l) n = Some true
  <-> exists a, nth_error l n = Some a /\ f a = true.
Proof.
  rewrite nth_error_map. destruct (nth_error l n) as [a|]; simpl.
  - split.
    + intro H. exists a. split; [reflexivity | congruence].
    + intros [b [Hb Hf]]. congruence.
  - split; [discriminate|]. intros [b [Hb _]]. discriminate.
Qed.

(** The index array computed by [get_name_and_strand] for the label [q]. *)
Lemma lookup_idxs_spec (ann : Annotator) (q : string) (pos : Z) :
  let idxs :=
    Np.intersect1d
      (Np.nonzero (List.map (fun c => String.eqb c q) (chroms ann)))
      (Np.intersect1d
         (Np.nonzero (List.map (fun s => s <=? pos) (tx_starts ann)))
         (Np.nonzero (List.map (fun e => pos <=? e) (tx_ends ann)))) in
  StronglySorted Z.lt idxs /\ forall i, In i idxs <-> overlaps ann q pos i.
Proof.
  intro idxs. subst idxs. split.
  - apply intersect1d_is_sorted, nonzero_from_sorted.
  - intro i.
    rewrite !intersect1d_In by apply nonzero_from_sorted.
    rewrite !nonzero_In, !nth_error_map_true. unfold overlaps. split.
    + intros [[Hi [c [Hc Ec]]] [[_ [s [Hs Es]]] [_ [e [He Ee]]]]].
      apply String.eqb_eq in Ec. subst c.
      split; [exact Hi|]. split; [exact Hc|].
      exists s, e. repeat split; try assumption; lia.
    + intros [Hi [Hc [s [e [Hs [He Hb]]]]]].
      split; [|split].
      * split; [exact Hi|]. exists q. split; [exact Hc | apply String.eqb_refl].
      * split; [exact Hi|]. exists s. split; [exact Hs | lia].
      * split; [exact Hi|]. exists e. split; [exact He | lia].
Qed.

Lemma overlaps_in_range (ann : Annotator) (q : string) (pos i : Z) :
  overlaps ann q pos i -> 0 <= i < Z.of_nat (List.length (chroms ann)).
Proof.
  intros [Hi [Hc _]]. split; [exact Hi|].
  assert (Z.to_nat i < List.length (chroms ann))%nat
    by (apply nth_error_Some; congruence).
  lia.
Qed.

(** What [get_name_and_strand] returns on an annotator with aligned,
    non-empty columns; [c0] is the label of the first row. *)
Lemma get_name_and_strand_result (ann : Annotator) (chrom c0 : string) (pos : Z) :
  columns_aligned ann ->
  nth_error (chroms ann) 0 = Some c0 ->
  exists idxs,
    get_name_and_strand ann chrom pos
    = Py.Ok (List.map (fun i => nth (Z.to_nat i) (genes ann) "") idxs,
             List.map (fun i => nth (Z.to_nat i) (strands ann) "") idxs,
             idxs)
    /\ StronglySorted Z.lt idxs
    /\ forall i, In i idxs <-> overlaps ann (normalise_chrom chrom c0) pos i.
Proof.
  intros [Hg [Hs [Ha He]]] H0.
  unfold get_name_and_strand.
  rewrite (index_ok _ 0 c0 (Z.le_refl 0) H0).
  cbn [Py.bind].
  destruct (lookup_idxs_spec ann (normalise_chrom chrom c0) pos) as [Hsort Hin].
  set (idxs := Np.intersect1d _ _) in *.
  assert (Hrange : Forall (fun i => 0 <= i < Z.of_nat (List.length (chroms ann))) idxs).
  { apply Forall_forall. intros i Hi. apply Hin in Hi.
    now apply overlaps_in_range in Hi. }
  exists idxs. split; [|now split].
  destruct (1 <=? Z.of_nat (List.length idxs)) eqn:E.
  - rewrite (take_ok (genes ann) idxs "") by now rewrite Hg.
    cbn [Py.bind].
    rewrite (take_ok (strands ann) idxs "") by now rewrite Hs.
    reflexivity.
  - apply Z.leb_gt in E.
    destruct idxs; [reflexivity|]. simpl List.length in E. lia.
Qed.

(** On an annotation with at least one row the lookup returns the index
    array [idxs] with the names and strands of its rows, where a row index
    is in [idxs] if and only if the label of the row equals the label that
    [normalise_chrom] makes of the query (against the label of the first
    row) and the stored interval contains the position, both ends
    included; [idxs] is strictly increasing. *)
Lemma get_name_and_strand_exact
  (df : list Row) (fa : Fasta) (lm : Z -> Model) (chrom : string) (pos : Z)
  (r0 : Row) (Hdf : hd_error df = Some r0) :
  let ann := Annotator_init df fa lm in
  let q := normalise_chrom chrom (CHROM r0) in
  exists g s idxs,
    get_name_and_strand ann chrom pos = Py.Ok (g, s, idxs)
    /\ (forall i, In i idxs <->
                  exists r, 0 <= i /\ nth_error df (Z.to_nat i) = Some r
                            /\ CHROM r = q
                            /\ Np.int64 (TX_START r + 1) <= pos <= TX_END r)
    /\ StronglySorted Z.lt idxs
    /\ g = List.map (fun i => NAME (nth (Z.to_nat i) df r0)) idxs
    /\ s = List.map (fun i => STRAND (nth (Z.to_nat i) df r0)) idxs.
Proof.
  intros ann q.
  destruct (get_name_and_strand_result ann chrom (CHROM r0) pos)
    as [idxs [Hres [Hsort Hin]]].
  { apply Annotator_init_aligned. }
  { destruct df; inversion Hdf; subst. reflexivity. }
  assert (Hiff : forall i, In i idxs <->
                  exists r, 0 <= i /\ nth_error df (Z.to_nat i) = Some r
                            /\ CHROM r = q
                            /\ Np.int64 (TX_START r + 1) <= pos <= TX_END r).
  { intro i. rewrite Hin. unfold overlaps, ann; simpl.
    rewrite !nth_error_map. split.
    - intros [Hi [Hc [s [e [Hs [He Hb]]]]]].
      destruct (nth_error df (Z.to_nat i)) as [r|]; [|discriminate].
      simpl in *. exists r. inversion Hc; inversion Hs; inversion He; subst.
      repeat split; try assumption; try reflexivity; lia.
    - intros [r [Hi [Hr [Hc Hb]]]]. rewrite Hr. simpl.
      split; [exact Hi|]. split; [now rewrite Hc|].
      exists (Np.int64 (TX_START r + 1)), (TX_END r). repeat split; lia. }
  eexists _, _, idxs. split; [exact Hres|].
  split; [exact Hiff|]. split; [exact Hsort|].
  assert (Hnth : forall (f : Row -> string) i, In i idxs ->
                   nth (Z.to_nat i) (List.map f df) "" = f (nth (Z.to_nat i) df r0)).
  { intros f i Hi. apply Hiff in Hi. destruct Hi as [r [_ [Hr _]]].
    rewrite (nth_indep _ "" (f r0)).
    - apply map_nth.
    - rewrite length_map. apply nth_error_Some. congruence. }
  split; apply map_ext_in; intros i Hi; unfold ann; simpl; now apply Hnth.
Qed.

End Lookup.

(** ** Lengths of strings and slices *)

Section Lengths.

Lemma slice_length {A : Type} (l : list A) (lo hi : Z) :
  let n := Z.of_nat (List.length l) in
  Z.of_nat (List.length (PyStr.slice l lo hi))
  = Z.max 0 (PyStr.clamp_index n hi - PyStr.clamp_index n lo).
Proof.
  intro n. unfold PyStr.slice. fold n.
  rewrite length_firstn, length_skipn.
  assert (Hn : n = Z.of_nat (List.length l)) by reflexivity.
  assert (Ha : 0 <= PyStr.clamp_index n lo <= n)
    by (unfold PyStr.clamp_index; destruct (Z.ltb_spec lo 0); lia).
  assert (Hb : 0 <= PyStr.clamp_index n hi <= n)
    by (unfold PyStr.clamp_index; destruct (Z.ltb_spec hi 0); lia).
  lia.
Qed.

(** The three slices on bounds that are in range. *)
Lemma slice_length_in {A : Type} (l : list A) (lo hi : Z) :
  0 <= lo <= hi -> hi <= Z.of_nat (List.length l) ->
  Z.of_nat (List.length (PyStr.slice l lo hi)) = hi - lo.
Proof.
  intros H1 H2. rewrite slice_length. unfold PyStr.clamp_index.
  destruct (Z.ltb_spec lo 0); [lia|]. destruct (Z.ltb_spec hi 0); lia.
Qed.

Lemma slice_to_length {A : Type} (l : list A) (hi : Z) :
  0 <= hi <= Z.of_nat (List.length l) ->
  Z.of_nat (List.length (PyStr.slice_to l hi)) = hi.
Proof.
  intro H. unfold PyStr.slice_to. rewrite slice_length_in; lia.
Qed.

Lemma slice_from_length {A : Type} (l : list A) (lo : Z) :
  0 <= lo <= Z.of_nat (List.length l) ->
  Z.of_nat (List.length (PyStr.slice_from l lo)) = Z.of_nat (List.length l) - lo.
Proof.
  intro H. unfold PyStr.slice_from. rewrite slice_length_in; lia.
Qed.

Lemma chars_length (s : string) : List.length (PyStr.chars s) = String.length s.
Proof. induction s; simpl; congruence. Qed.

Lemma of_chars_length (l : list ascii) :
  String.length (PyStr.of_chars l) = List.length l.
Proof. induction l; simpl; congruence. Qed.

Lemma len_append (a b : string) :
  PyStr.len (a ++ b)%string = PyStr.len a + PyStr.len b.
Proof.
  unfold PyStr.len. induction a as [|c a IH]; simpl String.length.
  - reflexivity.
  - rewrite !Nat2Z.inj_succ. simpl in IH. lia.
Qed.

Lemma len_nonneg (s : string) : 0 <= PyStr.len s.
Proof. unfold PyStr.len. lia. Qed.

Lemma len_str_mul (c : ascii) (k : Z) : PyStr.len (PyStr.str_mul c k) = Z.max k 0.
Proof.
  unfold PyStr.len, PyStr.str_mul.
  assert (H : forall n, String.length (PyStr.repeat_char c n) = n)
    by (induction n; simpl; congruence).
  rewrite H. lia.
Qed.

Lemma len_str_slice (s : string) (lo hi : Z) :
  0 <= lo <= hi -> hi <= PyStr.len s ->
  PyStr.len (PyStr.str_slice s lo hi) = hi - lo.
Proof.
  unfold PyStr.len, PyStr.str_slice. intros H1 H2.
  rewrite of_chars_length, slice_length_in; rewrite ?chars_length; lia.
Qed.

Lemma len_str_slice_to (s : string) (hi : Z) :
  0 <= hi <= PyStr.len s -> PyStr.len (PyStr.str_slice_to s hi) = hi.
Proof.
  unfold PyStr.len, PyStr.str_slice_to. intro H.
  rewrite of_chars_length, slice_to_length; rewrite ?chars_length; lia.
Qed.

Lemma len_str_slice_from (s : string) (lo : Z) :
  0 <= lo <= PyStr.len s ->
  PyStr.len (PyStr.str_slice_from s lo) = PyStr.len s - lo.
Proof.
  unfold PyStr.len, PyStr.str_slice_from. intro H.
  rewrite of_chars_length, slice_from_length; rewrite ?chars_length; lia.
Qed.

End Lengths.

(** ** The reference and alternate windows *)

Section Windows.

Variable cov : Z.
Let wid := 10000 + cov.

(** The reference window has the width [wid] whenever the variant lies
    inside the gene and the genome returned [wid] bases. *)
Lemma window_ref_len (seq : string) (dist : Z * Z) :
  0 <= wid ->
  fst dist <= 0 <= snd dist ->
  PyStr.len seq = wid ->
  PyStr.len (window_ref wid seq (pad_size wid dist)) = wid.
Proof.
  intros Hw Hd Hs. unfold window_ref, pad_size. cbn [fst snd].
  assert (Hh : 0 <= wid / 2 /\ 2 * (wid / 2) <= wid)
    by (split; [apply Z.div_pos; lia | apply Z.mul_div_le; lia]).
  rewrite !len_append, !len_str_mul, len_str_slice; lia.
Qed.

Lemma window_alt_length (seq ref alt : string) (dist : Z * Z) :
  0 <= wid ->
  fst dist <= 0 <= snd dist ->
  PyStr.len seq = wid ->
  wid / 2 + PyStr.len ref <= wid ->
  PyStr.len (window_alt wid (window_ref wid seq (pad_size wid dist)) alt
               (PyStr.len ref))
  = wid - PyStr.len ref + PyStr.len alt.
Proof.
  intros Hwid Hdist Hseq Href.
  assert (Hx : PyStr.len (window_ref wid seq (pad_size wid dist)) = wid)
    by now apply window_ref_len.
  assert (Hh : 0 <= wid / 2 /\ 2 * (wid / 2) <= wid)
    by (split; [apply Z.div_pos; lia | apply Z.mul_div_le; lia]).
  pose proof (len_nonneg ref) as Hr.
  unfold window_alt.
  rewrite !len_append, len_str_slice_to, len_str_slice_from; lia.
Qed.

(** C1, amended: for a reference window of width [wid] the alternate
    window, which replaces the [len(ref)] bases at the centre by the
    alternate allele, has the length [wid - len(ref) + len(alt)]: it is
    [wid] exactly when the two alleles have one length, longer for an
    insertion and shorter for a deletion. *)
Theorem window_alt_len (seq ref alt : string) (dist : Z * Z)
  (Hwid : 0 <= wid)
  (Hdist : fst dist <= 0 <= snd dist)
  (Hseq : PyStr.len seq = wid)
  (Href : wid / 2 + PyStr.len ref <= wid) :
  let x_ref := window_ref wid seq (pad_size wid dist) in
  let x_alt := window_alt wid x_ref alt (PyStr.len ref) in
  PyStr.len x_ref = wid
  /\ PyStr.len x_alt = wid - PyStr.len ref + PyStr.len alt
  /\ (PyStr.len x_alt = wid <-> PyStr.len alt = PyStr.len ref).
Proof.
  intros x_ref x_alt.
  assert (Hx : PyStr.len x_ref = wid) by now apply window_ref_len.
  assert (Ha : PyStr.len x_alt = wid - PyStr.len ref + PyStr.len alt)
    by now apply window_alt_length.
  split; [exact Hx|]. split; [exact Ha|]. lia.
Qed.

End Windows.

(** C1, on an insertion: with the default coverage the window is 11001
    wide, and splicing the two-base allele ["AT"] over the one-base
    reference gives an alternate window of 11002 bases. *)
Lemma window_alt_insertion_longer :
  PyStr.len (window_ref 11001 demo_seq (pad_size 11001 (-19000, 30000))) = 11001
  /\ PyStr.len (window_alt 11001
                  (window_ref 11001 demo_seq (pad_size 11001 (-19000, 30000)))
                  "AT" (PyStr.len "A"))
     <> 11001.
Proof. vm_compute. split; [reflexivity | discriminate]. Qed.

Lemma window_alt_len_witness :
  0 <= 10000 + 1001
  /\ PyStr.len (window_alt (10000 + 1001)
                  (window_ref (10000 + 1001) demo_seq
                     (pad_size (10000 + 1001) (-19000, 30000)))
                  "AT" (PyStr.len "A"))
     = 10000 + 1001 - PyStr.len "A" + PyStr.len "AT".
Proof.
  split; [lia|].
  apply (window_alt_len 1001 demo_seq "A" "AT" (-19000, 30000)).
  - lia.
  - simpl; lia.
  - vm_compute; reflexivity.
  - vm_compute; discriminate.
Defined.

(** ** The reference check of [get_delta_scores] *)

Section ReferenceCheck.

Variables (record : VcfRecord) (ann : Annotator) (cov : Z).
Let wid := 10000 + cov.

Variables (alleles : list string) (genes strands : list string) (idxs : list Z).
Variables (k0 seq : string).

(** The record reaches the check: it has alleles, a gene covers it, and
    the genome returns a window. *)
Hypothesis Halts : alts record = Some alleles.
Hypothesis Hlookup :
  get_name_and_strand ann (chrom record) (pos record)
  = Py.Ok (genes, strands, idxs).
Hypothesis Hidxs : idxs <> [].
Hypothesis Hkeys : Py.index (keys (ref_fasta ann)) 0 = Py.Ok k0.
Hypothesis Hfetch :
  fetch (ref_fasta ann) (normalise_chrom (chrom record) k0)
        (pos record - wid / 2 - 1) (pos record + wid / 2)
  = Py.Ok seq.

Lemma get_delta_scores_at_check :
  get_delta_scores record ann cov
  = if negb (String.eqb (window_centre wid seq (ref record)) (ref record))
    then Py.Ok ([RefIssue], [])
    else ds <- delta_scores_loop ann record cov seq alleles genes strands idxs ;;
         Py.Ok ([], ds).
Proof.
  unfold get_delta_scores. rewrite Halts, Hlookup. cbn [Py.bind].
  destruct idxs as [|i0 rest] eqn:E; [contradiction|].
  cbn [List.length]. rewrite Nat2Z.inj_succ.
  destruct (Z.eqb_spec (Z.succ (Z.of_nat (List.length rest))) 0); [lia|].
  rewrite Hkeys. cbn [Py.bind]. fold wid. rewrite Hfetch. reflexivity.
Qed.


End ReferenceCheck.


(** ** Loops over [range] *)

Section Loops.

Lemma range_In (n : nat) (j : Z) :
  In j (Py.range n) <-> 0 <= j < Z.of_nat n.
Proof.
  unfold Py.range. rewrite in_map_iff. split.
  - intros [k [<- Hk]]. apply in_seq in Hk. lia.
  - intro H. exists (Z.to_nat j). split; [lia|]. apply in_seq. lia.
Qed.

Lemma index_in_range {A : Type} (l : list A) (i : Z) :
  0 <= i < Z.of_nat (List.length l) ->
  exists a, Py.index l i = Py.Ok a /\ nth_error l (Z.to_nat i) = Some a.
Proof.
  intro H.
  destruct (nth_error l (Z.to_nat i)) as [a|] eqn:E.
  - exists a. split; [apply index_ok; [lia | exact E] | reflexivity].
  - apply nth_error_None in E. lia.
Qed.

(** A loop whose rounds all succeed, with a flag [b] of the state that a
    round raises exactly when [g] holds of its element. *)
Lemma foldM_flag {A S : Type} (f : S -> A -> Py.result S)
  (b : S -> bool) (g : A -> bool) (l : list A) :
  (forall a s, In a l -> exists s', f s a = Py.Ok s' /\ b s' = b s || g a) ->
  forall s, exists s', Py.foldM f l s = Py.Ok s' /\ b s' = b s || existsb g l.
Proof.
  induction l as [|a l IH]; intros H s; simpl.
  - exists s. split; [reflexivity | now rewrite orb_false_r].
  - destruct (H a s (or_introl eq_refl)) as [s1 [H1 B1]].
    rewrite H1. cbn [Py.bind].
    destruct (IH (fun a' s' Hin => H a' s' (or_intror Hin)) s1) as [s2 [H2 B2]].
    exists s2. split; [exact H2|]. rewrite B2, B1. now rewrite orb_assoc.
Qed.

(** A test of [l[j]] over [range(len(l))] is a test over the elements. *)
Lemma existsb_range_index {A : Type} (l : list A) (h : A -> bool) :
  existsb (fun j => match Py.index l j with Py.Ok a => h a | Py.Raise _ => false end)
          (Py.range (List.length l))
  = existsb h l.
Proof.
  apply eq_iff_eq_true. rewrite !existsb_exists. split.
  - intros [j [Hj Hh]]. apply range_In in Hj.
    destruct (index_in_range l j Hj) as [a [Ha Hn]]. rewrite Ha in Hh.
    exists a. split; [now apply nth_error_In in Hn | exact Hh].
  - intros [a [Ha Hh]]. apply In_nth_error in Ha. destruct Ha as [k Hk].
    exists (Z.of_nat k). split.
    + apply range_In. split; [lia|].
      apply inj_lt, nth_error_Some. congruence.
    + now rewrite (index_nat_ok _ _ _ Hk).
Qed.

Lemma existsb_const {A : Type} (c : bool) (l : list A) :
  l <> [] -> existsb (fun _ => c) l = c.
Proof.
  destruct l as [|a l]; [contradiction|]. intros _.
  destruct c; simpl; [reflexivity|]. induction l; simpl; auto.
Qed.

End Loops.

(** ** [get_importance_score] *)

(** The final [return] raises whatever the loops have left. *)
Lemma importance_return_raises (ann : Annotator) (st : importance_locals) :
  exists e, importance_return ann st = Py.Raise e.
Proof.
  unfold importance_return. destruct (l_x_alt st); eexists; reflexivity.
Qed.

(** So no call returns the array of [calculate_importance_score]: a call
    returns the empty list of an early exit, or raises. *)
Lemma get_importance_score_no_array (record : VcfRecord) (ann : Annotator)
  (cov : Z) (log : list warning) (I : list Np.Tensor3) :
  get_importance_score record ann cov <> Py.Ok (log, Importance I).
Proof.
  unfold get_importance_score.
  destruct (alts record) as [alleles|]; [|discriminate].
  destruct (get_name_and_strand ann (chrom record) (pos record))
    as [[[genes strands] idxs]|e]; cbn [Py.bind]; [|discriminate].
  destruct (Z.of_nat (List.length idxs) =? 0); [discriminate|].
  destruct (Py.index (keys (ref_fasta ann)) 0) as [k0|e]; cbn [Py.bind];
    [|discriminate].
  destruct (fetch _ _ _ _) as [seq|[]]; try discriminate.
  destruct (negb _); [discriminate|].
  destruct (importance_loop _ _ _ _ _ _ _ _) as [st|e]; cbn [Py.bind];
    [|discriminate].
  destruct (importance_return_raises ann st) as [e ->]. discriminate.
Qed.

Section ImportanceReturn.

Variables (record : VcfRecord) (ann : Annotator) (cov : Z).
Let wid := 10000 + cov.

Variables (alleles : list string) (genes strands : list string) (idxs : list Z).
Variables (k0 seq : string).

Hypothesis Hcols : columns_aligned ann.

(** The record passes the four checks. *)
Hypothesis Halts : alts record = Some alleles.
Hypothesis Hlookup :
  get_name_and_strand ann (chrom record) (pos record)
  = Py.Ok (genes, strands, idxs).
Hypothesis Hidxs : idxs <> [].
Hypothesis Hkeys : Py.index (keys (ref_fasta ann)) 0 = Py.Ok k0.
Hypothesis Hfetch :
  fetch (ref_fasta ann) (normalise_chrom (chrom record) k0)
        (pos record - wid / 2 - 1) (pos record + wid / 2)
  = Py.Ok seq.
Hypothesis Hcentre : window_centre wid seq (ref record) = ref record.

(** What the lookup hands to the loops. *)
Lemma lookup_shape :
  List.length genes = List.length idxs
  /\ List.length strands = List.length idxs
  /\ forall idx, In idx idxs ->
       exists d, get_pos_data ann idx (pos record) = Py.Ok d.
Proof.
  assert (Hc0 : exists c0, nth_error (chroms ann) 0 = Some c0).
  { destruct (chroms ann) as [|c0 cs] eqn:E.
    - unfold get_name_and_strand in Hlookup. rewrite E in Hlookup. discriminate.
    - now exists c0. }
  destruct Hc0 as [c0 Hc0].
  destruct (get_name_and_strand_result ann (chrom record) c0 (pos record) Hcols Hc0)
    as [idxs' [Hres [_ Hin]]].
  rewrite Hlookup in Hres. inversion Hres; subst.
  rewrite !length_map. repeat split.
  intros idx Hidx. apply Hin in Hidx.
  destruct Hidx as [Hi [_ [s [e [Hs [He _]]]]]].
  exists (s - pos record, e - pos record). unfold get_pos_data.
  rewrite (index_ok _ _ _ Hi Hs). cbn [Py.bind].
  rewrite (index_ok _ _ _ Hi He). reflexivity.
Qed.

(** One round of the inner loop succeeds, and binds [x_alt] exactly for an
    allele that builds the windows. *)
Lemma importance_loop_step_ok (j i : Z) (alt : string) (st : importance_locals) :
  Py.index alleles j = Py.Ok alt ->
  0 <= i < Z.of_nat (List.length idxs) ->
  exists st',
    importance_loop_step ann record cov seq alleles genes strands idxs j i st
    = Py.Ok st'
    /\ x_alt_bound st' = x_alt_bound st || builds_windows record alt.
Proof.
  intros Hj Hi. destruct lookup_shape as [Hg [Hs Hd]].
  unfold importance_loop_step, builds_windows. rewrite Hj. cbn [Py.bind].
  destruct (is_sentinel alt); cbn [negb andb].
  - exists st. split; [reflexivity | now rewrite orb_false_r].
  - destruct ((1 <? PyStr.len (ref record)) && (1 <? PyStr.len alt)); cbn [negb].
    + destruct (index_in_range genes i) as [g [Hgi _]]; [lia|].
      rewrite Hgi. cbn [Py.bind]. eexists. split; [reflexivity|].
      unfold x_alt_bound; simpl. now rewrite orb_false_r.
    + destruct (index_in_range idxs i Hi) as [idx [Hidx Hn]].
      rewrite Hidx. cbn [Py.bind].
      destruct (Hd idx) as [d Hdist]; [now apply nth_error_In in Hn|].
      rewrite Hdist. cbn [Py.bind].
      destruct (index_in_range strands i) as [sd [Hsd _]]; [lia|].
      rewrite Hsd. cbn [Py.bind]. eexists. split; [reflexivity|].
      unfold x_alt_bound; simpl. now rewrite orb_true_r.
Qed.

(** The two loops end, with [x_alt] bound exactly when some allele built
    the windows. *)
Lemma importance_inner_ok (j : Z) (alt : string) (st : importance_locals) :
  Py.index alleles j = Py.Ok alt ->
  exists st',
    Py.foldM
      (fun st i =>
         importance_loop_step ann record cov seq alleles genes strands idxs j i st)
      (Py.range (List.length idxs)) st
    = Py.Ok st'
    /\ x_alt_bound st' = x_alt_bound st || builds_windows record alt.
Proof.
  intro Hj.
  destruct (foldM_flag
              (fun st i =>
                 importance_loop_step ann record cov seq alleles genes strands
                   idxs j i st)
              x_alt_bound (fun _ => builds_windows record alt)
              (Py.range (List.length idxs))) with (s := st) as [st' [H1 H2]].
  - intros i st0 Hi. apply range_In in Hi. now apply importance_loop_step_ok.
  - exists st'. split; [exact H1|].
    rewrite H2, existsb_const; [reflexivity|].
    destruct idxs; [contradiction | discriminate].
Qed.

(** The two loops end, with [x_alt] bound exactly when some allele built
    the windows. *)
Lemma importance_loop_ok :
  exists st,
    importance_loop ann record cov seq alleles genes strands idxs = Py.Ok st
    /\ x_alt_bound st = existsb (builds_windows record) alleles.
Proof.
  unfold importance_loop.
  rewrite <- (existsb_range_index alleles (builds_windows record)).
  destruct (foldM_flag
              (fun st j =>
                 Py.foldM
                   (fun st i =>
                      importance_loop_step ann record cov seq alleles genes
                        strands idxs j i st)
                   (Py.range (List.length idxs)) st)
              x_alt_bound
              (fun j => match Py.index alleles j with
                        | Py.Ok a => builds_windows record a
                        | Py.Raise _ => false
                        end)
              (Py.range (List.length alleles)))
    with (s := mkLocals [] None) as [st [H1 H2]].
  - intros j st Hj. apply range_In in Hj.
    destruct (index_in_range alleles j Hj) as [alt [Halt _]]. rewrite Halt.
    now apply importance_inner_ok.
  - exists st. split; [exact H1 | exact H2].
Qed.

(** C2: for a record that passes the malformed-input, annotation,
    extraction and reference checks, [get_importance_score] does not
    return: the final [return] raises [NameError] on the name [t], which
    neither the function nor the module nor the builtins bind, and, when
    no allele built the windows, [UnboundLocalError] on [x_alt] before
    that. *)
Theorem get_importance_score_raises :
  get_importance_score record ann cov
  = Py.Raise (if existsb (builds_windows record) alleles
              then Py.NameError "t"
              else Py.UnboundLocalError "x_alt").
Proof.
  assert (Hlen : (Z.of_nat (List.length idxs) =? 0) = false).
  { apply Z.eqb_neq. intro H0.
    assert (Hn : List.length idxs = O) by lia.
    apply length_zero_iff_nil in Hn. contradiction. }
  unfold get_importance_score. rewrite Halts, Hlookup. cbn [Py.bind].
  rewrite Hlen, Hkeys. cbn [Py.bind]. fold wid. rewrite Hfetch, Hcentre.
  rewrite String.eqb_refl. cbn [negb].
  destruct importance_loop_ok as [st [Hst Hb]].
  rewrite Hst. cbn [Py.bind]. rewrite <- Hb.
  unfold importance_return, x_alt_bound.
  destruct (l_x_alt st); reflexivity.
Qed.

End ImportanceReturn.

Lemma get_importance_score_raises_witness :
  alts demo_record = Some ["G"; "."]
  /\ get_importance_score demo_record demo_ann 1001 = Py.Raise (Py.NameError "t").
Proof.
  split; [reflexivity|].
  refine (get_importance_score_raises demo_record demo_ann 1001 ["G"; "."]
            ["GENE1"; "GENE2"] ["+"; "-"] [0; 1] "chr1" demo_seq _ _ _ _ _ _ _).
  - apply Annotator_init_aligned.
  - reflexivity.
  - vm_compute; reflexivity.
  - discriminate.
  - reflexivity.
  - vm_compute; reflexivity.
  - vm_compute; reflexivity.
Defined.

(** ** [argmax] *)

Section Argmax.

Local Open Scope Q_scope.

Lemma argmax_from_spec (d : list Q) :
  forall (best : Q) (ibest k : Z),
    let r := Np.argmax_from best ibest k d in
    (r = ibest /\ forall v, In v d -> v <= best)
    \/ (exists i : nat,
          (i < List.length d)%nat
          /\ r = (k + Z.of_nat i)%Z
          /\ best < nth i d 0
          /\ (forall j, (j < List.length d)%nat -> nth j d 0 <= nth i d 0)
          /\ (forall j, (j < i)%nat -> nth j d 0 < nth i d 0)).
Proof.
  induction d as [|v d IH]; intros best ibest k; simpl.
  - left. split; [reflexivity | intros v []].
  - destruct (Qle_bool v best) eqn:E.
    + apply Qle_bool_iff in E.
      destruct (IH best ibest (k + 1)%Z) as [[Hr Hall]|[i [Hi [Hr [Hb [Hmax Hfirst]]]]]].
      * left. split; [exact Hr|]. intros w [<-|Hw]; [exact E | now apply Hall].
      * right. exists (S i). split; [simpl; lia|]. split; [lia|].
        split; [exact Hb|]. split.
        -- intros [|j] Hj; simpl.
           ++ apply Qlt_le_weak. now apply Qle_lt_trans with best.
           ++ apply Hmax. simpl in Hj. lia.
        -- intros [|j] Hj; simpl.
           ++ now apply Qle_lt_trans with best.
           ++ apply Hfirst. lia.
    + assert (Hlt : best < v).
      { apply Qnot_le_lt. intro H. apply Qle_bool_iff in H. congruence. }
      destruct (IH v k (k + 1)%Z) as [[Hr Hall]|[i [Hi [Hr [Hb [Hmax Hfirst]]]]]].
      * right. exists O. split; [simpl; lia|]. split; [lia|].
        split; [exact Hlt|]. split.
        -- intros [|j] Hj; simpl; [apply Qle_refl|].
           apply Hall, nth_In. simpl in Hj. lia.
        -- intros j Hj. lia.
      * right. exists (S i). split; [simpl; lia|]. split; [lia|].
        split; [now apply Qlt_trans with v|]. split.
        -- intros [|j] Hj; simpl.
           ++ now apply Qlt_le_weak.
           ++ apply Hmax. simpl in Hj. lia.
        -- intros [|j] Hj; simpl.
           ++ exact Hb.
           ++ apply Hfirst. lia.
Qed.

(** [argmax] succeeds on a non-empty array, with the first position of
    the maximum. *)
Lemma argmax_first_max (d : list Q) :
  d <> [] -> exists idx, Np.argmax d = Py.Ok idx /\ first_max d idx.
Proof.
  destruct d as [|v d]; [contradiction|]. intros _.
  exists (Np.argmax_from v 0 1 d). split; [reflexivity|].
  destruct (argmax_from_spec d v 0%Z 1%Z)
    as [[Hr Hall]|[i [Hi [Hr [Hb [Hmax Hfirst]]]]]].
  - rewrite Hr. unfold first_max. simpl List.length. split; [lia|]. split.
    + intros j Hj. change (Z.to_nat 0) with O.
      destruct (Z.to_nat j) as [|n] eqn:En; simpl; [apply Qle_refl|].
      apply Hall, nth_In. lia.
    + intros j Hj. lia.
  - rewrite Hr. unfold first_max. simpl List.length.
    replace (Z.to_nat (1 + Z.of_nat i)) with (S i) by lia.
    split; [lia|]. split.
    + intros j Hj. destruct (Z.to_nat j) as [|n] eqn:En; simpl.
      * now apply Qlt_le_weak.
      * apply Hmax. lia.
    + intros j Hj. destruct (Z.to_nat j) as [|n] eqn:En; simpl.
      * exact Hb.
      * apply Hfirst. lia.
Qed.

End Argmax.

(** ** The score extraction of [get_delta_scores] *)

Section Extraction.

Lemma map2_length {A B C : Type} (f : A -> B -> C) (a : list A) (b : list B) :
  List.length (Np.map2 f a b) = Nat.min (List.length a) (List.length b).
Proof.
  revert b. induction a as [|x a IH]; intros [|y b]; simpl; auto.
Qed.

Lemma column_ok (w : nat) (m : Np.Tensor2) (c : Z) :
  has_columns w m -> 0 <= c < Z.of_nat w ->
  Np.column m c = Py.Ok (List.map (fun row => nth (Z.to_nat c) row 0%Q) m).
Proof.
  intros Hm Hc. unfold Np.column. apply mapM_ok. intros row Hrow.
  unfold has_columns in Hm. rewrite Forall_forall in Hm. specialize (Hm row Hrow).
  apply index_ok; [lia|]. apply nth_error_nth'. lia.
Qed.

Variables (y_ref y_alt : Np.Tensor2).
Hypothesis Href : has_columns 3 y_ref.
Hypothesis Halt : has_columns 3 y_alt.
Hypothesis Hlen : List.length y_ref = List.length y_alt.
Hypothesis Hne : y_ref <> [].

(** Each of the four difference arrays is computed, and is not empty. *)
Lemma class_diff_ok (a b c : Z) :
  (a = 1 /\ b = 0) \/ (a = 0 /\ b = 1) -> c = 1 \/ c = 2 ->
  exists d, class_diff [y_ref; y_alt] a b c = Py.Ok d /\ d <> [].
Proof.
  intros Hab Hc. unfold class_diff.
  assert (Hw : 0 <= c < Z.of_nat 3) by lia.
  assert (Hd : forall (ya yb : Np.Tensor2),
             List.length ya = List.length y_ref ->
             List.length yb = List.length y_ref ->
             Np.sub1 (List.map (fun row => nth (Z.to_nat c) row 0%Q) ya)
                     (List.map (fun row => nth (Z.to_nat c) row 0%Q) yb) <> []).
  { intros ya yb Ha Hb E. apply (f_equal (@List.length Q)) in E.
    unfold Np.sub1 in E. rewrite map2_length, !length_map, Ha, Hb in E.
    destruct y_ref; [contradiction | simpl in E; discriminate]. }
  assert (H0 : Py.index [y_ref; y_alt] 0 = Py.Ok y_ref) by reflexivity.
  assert (H1 : Py.index [y_ref; y_alt] 1 = Py.Ok y_alt) by reflexivity.
  destruct Hab as [[-> ->]|[-> ->]]; rewrite H0, H1; cbn [Py.bind];
    rewrite (column_ok 3 y_alt c Halt Hw), (column_ok 3 y_ref c Href Hw);
    cbn [Py.bind]; eexists; (split; [reflexivity|]); apply Hd; congruence.
Qed.

(** On two aligned, non-empty outputs with three classes the four score
    components are computed, each index being the first position at which
    its array of [class_diff] takes its maximum. *)
Lemma extract_scores_first_occurrence (cov : Z) :
  exists d_pa d_na d_pd d_nd ag al dg dl pa na pd nd,
    class_diff [y_ref; y_alt] 1 0 1 = Py.Ok d_pa
    /\ class_diff [y_ref; y_alt] 0 1 1 = Py.Ok d_na
    /\ class_diff [y_ref; y_alt] 1 0 2 = Py.Ok d_pd
    /\ class_diff [y_ref; y_alt] 0 1 2 = Py.Ok d_nd
    /\ extract_scores cov [y_ref; y_alt]
       = Py.Ok (ag, al, dg, dl, (pa, na, pd, nd))
    /\ first_max d_pa (pa + cov / 2)
    /\ first_max d_na (na + cov / 2)
    /\ first_max d_pd (pd + cov / 2)
    /\ first_max d_nd (nd + cov / 2)
    /\ Py.index d_pa (pa + cov / 2) = Py.Ok ag
    /\ Py.index d_na (na + cov / 2) = Py.Ok al
    /\ Py.index d_pd (pd + cov / 2) = Py.Ok dg
    /\ Py.index d_nd (nd + cov / 2) = Py.Ok dl.
Proof.
  destruct (class_diff_ok 1 0 1) as [d_pa [Hpa Npa]]; [lia | lia |].
  destruct (class_diff_ok 0 1 1) as [d_na [Hna Nna]]; [lia | lia |].
  destruct (class_diff_ok 1 0 2) as [d_pd [Hpd Npd]]; [lia | lia |].
  destruct (class_diff_ok 0 1 2) as [d_nd [Hnd Nnd]]; [lia | lia |].
  destruct (argmax_first_max d_pa Npa) as [ipa [Apa Fpa]].
  destruct (argmax_first_max d_na Nna) as [ina [Ana Fna]].
  destruct (argmax_first_max d_pd Npd) as [ipd [Apd Fpd]].
  destruct (argmax_first_max d_nd Nnd) as [ind [And Fnd]].
  destruct (index_in_range d_pa ipa (proj1 Fpa)) as [ag [Iag _]].
  destruct (index_in_range d_na ina (proj1 Fna)) as [al [Ial _]].
  destruct (index_in_range d_pd ipd (proj1 Fpd)) as [dg [Idg _]].
  destruct (index_in_range d_nd ind (proj1 Fnd)) as [dl [Idl _]].
  exists d_pa, d_na, d_pd, d_nd, ag, al, dg, dl.
  exists (ipa - cov / 2), (ina - cov / 2), (ipd - cov / 2), (ind - cov / 2).
  replace (ipa - cov / 2 + cov / 2) with ipa by lia.
  replace (ina - cov / 2 + cov / 2) with ina by lia.
  replace (ipd - cov / 2 + cov / 2) with ipd by lia.
  replace (ind - cov / 2 + cov / 2) with ind by lia.
  repeat (split; [assumption|]).
  split; [|repeat (split; [assumption|]); assumption].
  unfold extract_scores.
  rewrite Hpa; cbn [Py.bind]. rewrite Apa; cbn [Py.bind].
  rewrite Hna; cbn [Py.bind]. rewrite Ana; cbn [Py.bind].
  rewrite Hpd; cbn [Py.bind]. rewrite Apd; cbn [Py.bind].
  rewrite Hnd; cbn [Py.bind]. rewrite And; cbn [Py.bind].
  rewrite Iag, Ial, Idg, Idl. reflexivity.
Qed.

End Extraction.

(** ** Shapes of the ensemble output *)

Section Shapes.

Lemma nth_map2 {A B C : Type} (f : A -> B -> C) (a : list A) (b : list B)
  (n : nat) (da : A) (db : B) (dc : C) :
  (n < List.length a)%nat -> (n < List.length b)%nat ->
  nth n (Np.map2 f a b) dc = f (nth n a da) (nth n b db).
Proof.
  revert a b. induction n as [|n IH]; intros [|x a] [|y b] Ha Hb;
    simpl in *; try lia; [reflexivity|]. apply IH; lia.
Qed.

Lemma has_columns_map2 (c : nat) (f : Q -> Q -> Q) (a b : Np.Tensor2) :
  has_columns c a -> has_columns c b -> has_columns c (Np.map2 (Np.map2 f) a b).
Proof.
  unfold has_columns. intro Ha. revert b.
  induction Ha as [|x a Hx Ha IH]; intros b Hb; simpl; [constructor|].
  destruct Hb as [|y b Hy Hb]; constructor.
  - rewrite map2_length, Hx, Hy. apply Nat.min_id.
  - now apply IH.
Qed.

Lemma has_columns_map (c : nat) (f : Q -> Q) (a : Np.Tensor2) :
  has_columns c a -> has_columns c (List.map (List.map f) a).
Proof.
  unfold has_columns. intro Ha. apply Forall_map.
  eapply Forall_impl; [|exact Ha]. intros row Hrow. simpl.
  now rewrite length_map.
Qed.

Lemma has_columns_rev (c : nat) (a : Np.Tensor2) :
  has_columns c a -> has_columns c (rev a).
Proof. unfold has_columns. apply Forall_rev. Qed.

Lemma has_columns_In (c : nat) (a : Np.Tensor2) (row : list Q) :
  has_columns c a -> In row a -> List.length row = c.
Proof. unfold has_columns. rewrite Forall_forall. auto. Qed.

Lemma one_hot_encode_length (x : string) :
  Z.of_nat (List.length (one_hot_encode x)) = PyStr.len x.
Proof.
  unfold PyStr.len. now rewrite one_hot_encode_rows.
Qed.

(** An encoded window is a batch of one, as long as the window. *)
Lemma encode_window_shape (x strand : string) :
  exists m, encode_window x strand = [m] /\ Z.of_nat (List.length m) = PyStr.len x.
Proof.
  unfold encode_window. destruct (String.eqb strand "-"); simpl.
  - eexists. split; [reflexivity|].
    rewrite length_rev, length_map. apply one_hot_encode_length.
  - eexists. split; [reflexivity | apply one_hot_encode_length].
Qed.

Variable ms : list Model.
Hypothesis Hms : List.length ms = 5%nat.
Hypothesis Hcontract : Forall model_contract ms.

(** The mean of the five predictions has the shape of each of them. *)
Lemma ensemble_mean_shape (x : list (list Z)) :
  exists y, ensemble_mean ms [x] = Py.Ok [y]
            /\ Z.of_nat (List.length y) = Z.max 0 (Z.of_nat (List.length x) - 10000)
            /\ has_columns 3 y.
Proof.
  destruct ms as [|m0 [|m1 [|m2 [|m3 [|m4 [|m5 rest]]]]]]; try discriminate.
  clear Hms. unfold ensemble_mean.
  change (Py.range 5) with [0; 1; 2; 3; 4].
  cbn [Py.mapM].
  change (Py.index [m0; m1; m2; m3; m4] 0) with (Py.Ok m0).
  change (Py.index [m0; m1; m2; m3; m4] 1) with (Py.Ok m1).
  change (Py.index [m0; m1; m2; m3; m4] 2) with (Py.Ok m2).
  change (Py.index [m0; m1; m2; m3; m4] 3) with (Py.Ok m3).
  change (Py.index [m0; m1; m2; m3; m4] 4) with (Py.Ok m4).
  cbn [Py.bind].
  set (xq := List.map (List.map inject_Z) x : Np.Tensor2).
  change (Np.astype_float [x]) with (@cons Np.Tensor2 xq (@nil Np.Tensor2)).
  assert (Hxq : List.length xq = List.length x) by (unfold xq; now rewrite length_map).
  inversion Hcontract as [|? ? C0 H0]; subst.
  inversion H0 as [|? ? C1 H1]; subst.
  inversion H1 as [|? ? C2 H2]; subst.
  inversion H2 as [|? ? C3 H3]; subst.
  inversion H3 as [|? ? C4 _]; subst.
  destruct (C0 xq) as [y0 [E0 [L0 K0]]]. destruct (C1 xq) as [y1 [E1 [L1 K1]]].
  destruct (C2 xq) as [y2 [E2 [L2 K2]]]. destruct (C3 xq) as [y3 [E3 [L3 K3]]].
  destruct (C4 xq) as [y4 [E4 [L4 K4]]].
  rewrite E0, E1, E2, E3, E4. rewrite Hxq in *.
  unfold Np.mean0. cbn [fold_left Np.add3 Np.map2 Np.div3 List.map].
  eexists. split; [reflexivity|]. split.
  - rewrite length_map, !map2_length. lia.
  - apply has_columns_map. repeat apply has_columns_map2; assumption.
Qed.

End Shapes.

(** ** The realignment of an insertion *)

Section ColumnMax.

Local Open Scope Q_scope.

Lemma fold_max_spec (w : nat) (rest : Np.Tensor2) :
  forall r : list Q,
    has_columns w (r :: rest) ->
    let mx := fold_left (Np.map2 Qmax) rest r in
    List.length mx = w /\ columnwise_max (r :: rest) mx.
Proof.
  induction rest as [|x rest IH]; intros r Hc; simpl.
  - inversion Hc; subst. split; [reflexivity|].
    intros c Hlt. split.
    + intros row [<-|[]]. apply Qle_refl.
    + exists r. split; [now left | reflexivity].
  - inversion Hc as [|? ? Hr Hc']; subst.
    inversion Hc' as [|? ? Hx Hrest]; subst.
    assert (Hr' : List.length (Np.map2 Qmax r x) = List.length r)
      by (rewrite map2_length, Hx; apply Nat.min_id).
    destruct (IH (Np.map2 Qmax r x)) as [Hlen Hmax].
    { constructor; assumption. }
    split; [exact Hlen|].
    intros c Hlt. destruct (Hmax c Hlt) as [Hle [row [Hin Heq]]].
    assert (Hcr : (c < List.length r)%nat) by congruence.
    assert (Hcx : (c < List.length x)%nat) by congruence.
    assert (Hnth : nth c (Np.map2 Qmax r x) 0 = Qmax (nth c r 0) (nth c x 0))
      by now apply nth_map2.
    assert (Htop : nth c (Np.map2 Qmax r x) 0
                   <= nth c (fold_left (Np.map2 Qmax) rest (Np.map2 Qmax r x)) 0)
      by (apply Hle; now left).
    rewrite Hnth in Htop. split.
    + intros row' [<-|[<-|Hin']].
      * eapply Qle_trans; [apply Q.le_max_l | exact Htop].
      * eapply Qle_trans; [apply Q.le_max_r | exact Htop].
      * apply Hle. now right.
    + destruct Hin as [<-|Hin].
      * rewrite Hnth in Heq.
        destruct (Q.max_dec (nth c r 0) (nth c x 0)) as [E|E].
        -- exists r. split; [now left|]. now rewrite Heq.
        -- exists x. split; [right; now left|]. now rewrite Heq.
      * exists row. split; [right; now right | exact Heq].
Qed.

(** [np.max(span, axis=0)] on rows of [w] classes. *)
Lemma max_rows_spec (w : nat) (span : Np.Tensor2) :
  span <> [] -> has_columns w span ->
  exists mx, Np.max_rows span = Py.Ok mx
             /\ List.length mx = w /\ columnwise_max span mx.
Proof.
  destruct span as [|r rest]; [contradiction|]. intros _ Hc.
  exists (fold_left (Np.map2 Qmax) rest r). split; [reflexivity|].
  now apply fold_max_spec.
Qed.

End ColumnMax.

Section Insertion.

Lemma slice_In {A : Type} (l : list A) (lo hi : Z) (x : A) :
  In x (PyStr.slice l lo hi) -> In x l.
Proof.
  unfold PyStr.slice. intro H.
  assert (Hf : forall n (l' : list A), In x (firstn n l') -> In x l').
  { induction n as [|n IH]; intros [|y l'] Hin; simpl in *; try tauto.
    destruct Hin as [->|Hin]; [now left | right; now apply IH]. }
  assert (Hs : forall n (l' : list A), In x (skipn n l') -> In x l').
  { induction n as [|n IH]; intros [|y l'] Hin; simpl in *; try tauto.
    right. now apply IH. }
  eapply Hs, Hf, H.
Qed.

Lemma has_columns_slice (w : nat) (m : Np.Tensor2) (lo hi : Z) :
  has_columns w m -> has_columns w (PyStr.slice m lo hi).
Proof.
  unfold has_columns. rewrite !Forall_forall.
  intros H row Hrow. apply H. eapply slice_In, Hrow.
Qed.

Variables (ms : list Model) (cov : Z) (seq ref alt strand : string) (dist : Z * Z).
Let wid := 10000 + cov.

Hypothesis Hms : List.length ms = 5%nat.
Hypothesis Hcontract : Forall model_contract ms.
Hypothesis Hcov : 1 <= cov.
Hypothesis Hdist : fst dist <= 0 <= snd dist.
Hypothesis Hseq : PyStr.len seq = wid.
Hypothesis Href : PyStr.len ref = 1.
Hypothesis Halt : 1 < PyStr.len alt.

Let x_ref := window_ref wid seq (pad_size wid dist).
Let x_alt := window_alt wid x_ref alt (PyStr.len ref).
Let orient (y : Np.Tensor3) : Np.Tensor3 :=
  if String.eqb strand "-" then Np.flip_pos y else y.

(** The output of the ensemble on a window of [n] bases, put back in the
    orientation of the genome. *)
Lemma oriented_output (x : string) :
  exists y m,
    ensemble_mean ms (encode_window x strand) = Py.Ok y
    /\ orient y = [m]
    /\ Z.of_nat (List.length m) = Z.max 0 (PyStr.len x - 10000)
    /\ has_columns 3 m.
Proof.
  destruct (encode_window_shape x strand) as [e [He Hle]].
  destruct (ensemble_mean_shape ms Hms Hcontract e) as [y [Hy [Hly Hcy]]].
  rewrite He. exists [y]. unfold orient.
  destruct (String.eqb strand "-"); simpl.
  - exists (rev y). split; [exact Hy|]. split; [reflexivity|].
    rewrite length_rev, Hly, Hle. split; [reflexivity|].
    now apply has_columns_rev.
  - exists y. split; [exact Hy|]. split; [reflexivity|].
    rewrite Hly, Hle. now split.
Qed.

(** For an insertion the alternate output of the ensemble is
    [len(alt) - 1] positions longer than the reference output, and the
    realigned alternate output has the length of the reference output. *)
Lemma insertion_realigned :
  exists y_ref y_alt r a mx,
    ensemble_mean ms (encode_window x_ref strand) = Py.Ok y_ref
    /\ ensemble_mean ms (encode_window x_alt strand) = Py.Ok y_alt
    /\ orient y_ref = [r]
    /\ orient y_alt = [a]
    /\ Z.of_nat (List.length a) = Z.of_nat (List.length r) + (PyStr.len alt - 1)
    /\ Z.of_nat (List.length (PyStr.slice a (cov / 2) (cov / 2 + PyStr.len alt)))
       = PyStr.len alt
    /\ Np.max_rows (PyStr.slice a (cov / 2) (cov / 2 + PyStr.len alt)) = Py.Ok mx
    /\ columnwise_max (PyStr.slice a (cov / 2) (cov / 2 + PyStr.len alt)) mx
    /\ reconcile cov (PyStr.len ref) (PyStr.len alt)
         (Z.max (PyStr.len ref - PyStr.len alt) 0) (orient y_alt)
       = Py.Ok [PyStr.slice_to a (cov / 2) ++ [mx]
                ++ PyStr.slice_from a (cov / 2 + PyStr.len alt)]
    /\ List.length (PyStr.slice_to a (cov / 2) ++ [mx]
                    ++ PyStr.slice_from a (cov / 2 + PyStr.len alt))
       = List.length r
    /\ Z.of_nat (List.length r) = cov.
Proof.
  assert (Hh : 0 <= cov / 2 /\ 2 * (cov / 2) <= cov)
    by (split; [apply Z.div_pos; lia | apply Z.mul_div_le; lia]).
  assert (Hwh : 2 * (wid / 2) <= wid) by (apply Z.mul_div_le; lia).
  assert (Hxr : PyStr.len x_ref = wid) by (apply window_ref_len; unfold wid; lia).
  assert (Hxa : PyStr.len x_alt = wid - PyStr.len ref + PyStr.len alt).
  { apply window_alt_length; try assumption; unfold wid in *; lia. }
  destruct (oriented_output x_ref) as [y_ref [r [Er [Or [Lr Cr]]]]].
  destruct (oriented_output x_alt) as [y_alt [a [Ea [Oa [La Ca]]]]].
  rewrite Hxr in Lr. rewrite Hxa, Href in La. unfold wid in Lr, La.
  set (c := cov / 2) in *. set (n := PyStr.len alt) in *.
  assert (Hspan : Z.of_nat (List.length (PyStr.slice a c (c + n))) = n)
    by (rewrite slice_length_in; lia).
  destruct (max_rows_spec 3 (PyStr.slice a c (c + n))) as [mx [Emx [_ Hmx]]].
  { intro E. rewrite E in Hspan. simpl in Hspan. lia. }
  { now apply has_columns_slice. }
  exists y_ref, y_alt, r, a, mx.
  repeat (split; [first [assumption | lia]|]).
  split; [|split; [|lia]].
  - rewrite Oa. unfold reconcile. rewrite Href. fold c.
    replace ((1 <? 1) && (n =? 1)) with false by reflexivity.
    replace ((1 =? 1) && (1 <? n)) with true
      by (symmetry; apply andb_true_iff; split; [reflexivity | lia]).
    cbn [Py.mapM Py.bind]. rewrite Emx. reflexivity.
  - apply Nat2Z.inj. rewrite !length_app, !Nat2Z.inj_add.
    rewrite slice_to_length, slice_from_length by lia.
    simpl List.length. lia.
Qed.

End Insertion.

(** ** [calculate_importance_score] *)

Section TensorEntries.

Lemma nth_map_in {A B : Type} (f : A -> B) (l : list A) (n : nat) (d : A) (d' : B) :
  (n < List.length l)%nat -> nth n (List.map f l) d' = f (nth n l d).
Proof.
  revert n. induction l as [|x l IH]; intros [|n] H; simpl in *; try lia.
  - reflexivity.
  - apply IH. lia.
Qed.

Lemma at3_map2 (f : Q -> Q -> Q) (S T : Np.Tensor3) (b p c : nat) :
  in_range3 S b p c -> in_range3 T b p c ->
  in_range3 (Np.map2 (Np.map2 (Np.map2 f)) S T) b p c
  /\ at3 (Np.map2 (Np.map2 (Np.map2 f)) S T) b p c = f (at3 S b p c) (at3 T b p c).
Proof.
  intros [Sb [Sp Sc]] [Tb [Tp Tc]]. unfold in_range3, at3.
  rewrite (nth_map2 _ S T b [] [] []) by assumption.
  rewrite (nth_map2 _ (nth b S []) (nth b T []) p [] [] []) by assumption.
  rewrite (nth_map2 _ _ _ c 0%Q 0%Q 0%Q) by assumption.
  rewrite !map2_length. repeat split; lia.
Qed.

Lemma at3_map (f : Q -> Q) (T : Np.Tensor3) (b p c : nat) :
  in_range3 T b p c ->
  in_range3 (List.map (List.map (List.map f)) T) b p c
  /\ at3 (List.map (List.map (List.map f)) T) b p c = f (at3 T b p c).
Proof.
  intros [Tb [Tp Tc]]. unfold in_range3, at3.
  rewrite (nth_map_in _ T b [] []) by assumption.
  rewrite (nth_map_in _ (nth b T []) p [] []) by assumption.
  rewrite (nth_map_in _ _ c 0%Q 0%Q) by assumption.
  rewrite !length_map. repeat split; assumption.
Qed.

Lemma at3_add3 (S T : Np.Tensor3) (b p c : nat) :
  in_range3 S b p c -> in_range3 T b p c ->
  in_range3 (Np.add3 S T) b p c
  /\ at3 (Np.add3 S T) b p c = (at3 S b p c + at3 T b p c)%Q.
Proof. apply at3_map2. Qed.

Lemma at3_sub3 (S T : Np.Tensor3) (b p c : nat) :
  in_range3 S b p c -> in_range3 T b p c ->
  in_range3 (Np.sub3 S T) b p c
  /\ at3 (Np.sub3 S T) b p c = (at3 S b p c - at3 T b p c)%Q.
Proof. apply at3_map2. Qed.

Lemma at3_div3 (T : Np.Tensor3) (k : Z) (b p c : nat) :
  in_range3 T b p c ->
  in_range3 (Np.div3 T k) b p c
  /\ at3 (Np.div3 T k) b p c = (at3 T b p c / inject_Z k)%Q.
Proof. apply (at3_map (fun v => (v / inject_Z k)%Q)). Qed.

Lemma set_nth_length {A : Type} (l : list A) (n : nat) (a : A) :
  List.length (Np.set_nth l n a) = List.length l.
Proof.
  revert n. induction l as [|x l IH]; intros [|n]; simpl; auto.
Qed.

(** Forcing a position that the windows have succeeds, and keeps the
    shape of the batch. *)
Lemma set_pos_ok (B : nat) (W : Z) (X : Np.Tensor3) (p : Z) (base : list Q) :
  batch_of B W X -> 0 <= p < W ->
  Np.set_pos X p base = Py.Ok (counterfactual X p base)
  /\ batch_of B W (counterfactual X p base).
Proof.
  intros [HB HW] Hp. rewrite Forall_forall in HW. split.
  - unfold Np.set_pos, counterfactual. apply mapM_ok. intros m Hm.
    unfold Np.set_row. rewrite (HW m Hm).
    destruct (Z.ltb_spec p 0); [lia|].
    replace ((0 <=? p) && (p <? W)) with true
      by (symmetry; apply andb_true_iff; split; lia).
    reflexivity.
  - unfold batch_of, counterfactual. rewrite length_map. split; [exact HB|].
    apply Forall_map, Forall_forall. intros m Hm.
    rewrite set_nth_length. now apply HW.
Qed.

End TensorEntries.

Ltac range3 :=
  lazymatch goal with
  | |- in_range3 (Np.add3 _ _) _ _ _ => apply at3_add3; range3
  | |- in_range3 (Np.sub3 _ _) _ _ _ => apply at3_sub3; range3
  | |- in_range3 (Np.div3 _ _) _ _ _ => apply at3_div3; range3
  | |- _ => auto
  end.

Ltac at3_entries :=
  repeat match goal with
    | |- context [at3 (Np.add3 ?S ?T) ?b ?p ?c] =>
        rewrite (proj2 (at3_add3 S T b p c ltac:(range3) ltac:(range3)))
    | |- context [at3 (Np.sub3 ?S ?T) ?b ?p ?c] =>
        rewrite (proj2 (at3_sub3 S T b p c ltac:(range3) ltac:(range3)))
    | |- context [at3 (Np.div3 ?T ?k) ?b ?p ?c] =>
        rewrite (proj2 (at3_div3 T k b p c ltac:(range3)))
    end.

Section Attribution.

Variables (X : Np.Tensor3) (m0 m1 m2 m3 m4 : Model) (B L : nat) (W : Z).
Let ms : list Model := [m0; m1; m2; m3; m4].

Hypothesis HX : batch_of B W X.
Hypothesis HB : (0 < B)%nat.
Hypothesis HW : 1001 <= W.

(** Every model answers a batch of [B] windows of [W] positions with an
    array that has the entries (b, p, c) for [b < B], [p < L], [c < 3]. *)
Hypothesis Hout :
  forall m x, In m ms -> batch_of B W x ->
    forall b p c, (b < B)%nat -> (p < L)%nat -> (c < 3)%nat -> in_range3 (m x) b p c.

(** The window position perturbed in round [i], the four counterfactual
    batches, and the arrays of the round. *)
Let position (i : Z) : Z := (W - 1001) / 2 + i.
Let Xa (i : Z) := counterfactual X (position i) [1; 0; 0; 0]%Q.
Let Xc (i : Z) := counterfactual X (position i) [0; 1; 0; 0]%Q.
Let Xg (i : Z) := counterfactual X (position i) [0; 0; 1; 0]%Q.
Let Xt (i : Z) := counterfactual X (position i) [0; 0; 0; 1]%Q.

Let Y : Np.Tensor3 :=
  Np.div3 (Np.add3 (Np.add3 (Np.add3 (Np.add3 (m0 X) (m1 X)) (m2 X)) (m3 X)) (m4 X)) 5.

Let Im (m : Model) (i : Z) : Np.Tensor3 :=
  Np.add3 (Np.add3 (Np.add3 (m (Xa i)) (m (Xc i))) (m (Xg i))) (m (Xt i)).

Let Ii (i : Z) : Np.Tensor3 :=
  Np.div3 (Np.add3 (Np.add3 (Np.add3 (Np.add3 (Im m0 i) (Im m1 i)) (Im m2 i))
                      (Im m3 i)) (Im m4 i)) 20.

Lemma position_in_window (i : Z) : 0 <= i < 1001 -> 0 <= position i < W.
Proof.
  intro Hi. unfold position.
  assert (0 <= (W - 1001) / 2) by (apply Z.div_pos; lia).
  assert (2 * ((W - 1001) / 2) <= W - 1001) by (apply Z.mul_div_le; lia).
  lia.
Qed.

Lemma shape_pos_X : Np.shape_pos X = W.
Proof.
  destruct HX as [Hlen Hall]. unfold Np.shape_pos.
  destruct X as [|x0 rest]; [simpl in Hlen; lia|].
  simpl. now inversion Hall.
Qed.

(** One round of the loop, for an index [t] of the added leading axis. *)
Lemma importance_step_ok (t i : Z) :
  t = 0 \/ t = -1 -> 0 <= i < 1001 ->
  importance_step X ms t [Y] W 1001 i = Py.Ok (Np.sub3 Y (Ii i)).
Proof.
  intros Ht Hi. pose proof (position_in_window i Hi) as Hp.
  unfold importance_step. fold (position i).
  rewrite (proj1 (set_pos_ok B W X (position i) [1; 0; 0; 0]%Q HX Hp)).
  rewrite (proj1 (set_pos_ok B W X (position i) [0; 1; 0; 0]%Q HX Hp)).
  rewrite (proj1 (set_pos_ok B W X (position i) [0; 0; 1; 0]%Q HX Hp)).
  rewrite (proj1 (set_pos_ok B W X (position i) [0; 0; 0; 1]%Q HX Hp)).
  cbn [Py.bind]. unfold counterfactual_sum, ms.
  change (Py.index [m0; m1; m2; m3; m4] 0) with (Py.Ok m0).
  change (Py.index [m0; m1; m2; m3; m4] 1) with (Py.Ok m1).
  change (Py.index [m0; m1; m2; m3; m4] 2) with (Py.Ok m2).
  change (Py.index [m0; m1; m2; m3; m4] 3) with (Py.Ok m3).
  change (Py.index [m0; m1; m2; m3; m4] 4) with (Py.Ok m4).
  cbn [Py.bind].
  destruct Ht as [-> | ->]; reflexivity.
Qed.

Lemma calculate_importance_score_ok (t : Z) :
  t = 0 \/ t = -1 ->
  calculate_importance_score X ms t
  = Py.Ok (List.map (fun i => Np.sub3 Y (Ii i)) (Py.range 1001)).
Proof.
  intro Ht. unfold calculate_importance_score, ms.
  change (Py.index [m0; m1; m2; m3; m4] 0) with (Py.Ok m0).
  change (Py.index [m0; m1; m2; m3; m4] 1) with (Py.Ok m1).
  change (Py.index [m0; m1; m2; m3; m4] 2) with (Py.Ok m2).
  change (Py.index [m0; m1; m2; m3; m4] 3) with (Py.Ok m3).
  change (Py.index [m0; m1; m2; m3; m4] 4) with (Py.Ok m4).
  cbn [Py.bind]. rewrite shape_pos_X.
  change (Z.to_nat 1001) with 1001%nat.
  apply mapM_ok. intros i Hi. apply range_In in Hi.
  apply importance_step_ok; [exact Ht | lia].
Qed.

Lemma range_nth (n i : nat) : (i < n)%nat -> nth i (Py.range n) 0 = Z.of_nat i.
Proof.
  intro H. unfold Py.range.
  rewrite (nth_map_in Z.of_nat (List.seq 0 n) i O 0) by now rewrite length_seq.
  now rewrite seq_nth.
Qed.

(** With [t] the one index of the leading axis that the function adds,
    the array [I] is computed and has 1001 entries; every entry that the
    outputs have is the baseline ensemble mean minus the twentieth of the
    sum of the counterfactual predictions of the round. *)
Lemma importance_two_level_mean (t : Z) (Ht : t = 0 \/ t = -1) :
  exists I,
    calculate_importance_score X ms t = Py.Ok I
    /\ List.length I = 1001%nat
    /\ forall i b p c,
         (i < 1001)%nat -> (b < B)%nat -> (p < L)%nat -> (c < 3)%nat ->
         let i' := Z.of_nat i in
         Np.set_pos X (position i') [1; 0; 0; 0]%Q = Py.Ok (Xa i')
         /\ Np.set_pos X (position i') [0; 1; 0; 0]%Q = Py.Ok (Xc i')
         /\ Np.set_pos X (position i') [0; 0; 1; 0]%Q = Py.Ok (Xg i')
         /\ Np.set_pos X (position i') [0; 0; 0; 1]%Q = Py.Ok (Xt i')
         /\ (at3 (nth i I []) b p c
             == ensemble_at ms X b p c
                - (ensemble_at ms (Xa i') b p c + ensemble_at ms (Xc i') b p c
                   + ensemble_at ms (Xg i') b p c + ensemble_at ms (Xt i') b p c)
                  / 4)%Q
         /\ (at3 (nth i I []) b p c
             == ensemble_at ms X b p c
                - (sum_at ms (Xa i') b p c + sum_at ms (Xc i') b p c
                   + sum_at ms (Xg i') b p c + sum_at ms (Xt i') b p c)
                  / 20)%Q.
Proof.
  exists (List.map (fun i => Np.sub3 Y (Ii i)) (Py.range 1001)).
  split; [now apply calculate_importance_score_ok|].
  split; [unfold Py.range; now rewrite !length_map, length_seq|].
  intros i b p c Hi Hb Hp Hc i'.
  assert (Hpos : 0 <= position i' < W) by (apply position_in_window; lia).
  destruct (set_pos_ok B W X (position i') [1; 0; 0; 0]%Q HX Hpos) as [Sa Ba].
  destruct (set_pos_ok B W X (position i') [0; 1; 0; 0]%Q HX Hpos) as [Sc Bc].
  destruct (set_pos_ok B W X (position i') [0; 0; 1; 0]%Q HX Hpos) as [Sg Bg].
  destruct (set_pos_ok B W X (position i') [0; 0; 0; 1]%Q HX Hpos) as [St Bt].
  repeat (split; [assumption|]).
  assert (Hentry : nth i (List.map (fun i => Np.sub3 Y (Ii i)) (Py.range 1001)) []
                   = Np.sub3 Y (Ii i')).
  { rewrite (nth_map_in _ (Py.range 1001) i 0 []).
    - now rewrite range_nth.
    - unfold Py.range. now rewrite length_map, length_seq. }
  rewrite Hentry.
  assert (Hr : forall m x, In m ms -> batch_of B W x -> in_range3 (m x) b p c)
    by (intros; apply Hout; assumption).
  assert (In0 : In m0 ms) by (unfold ms; simpl; auto).
  assert (In1 : In m1 ms) by (unfold ms; simpl; auto).
  assert (In2 : In m2 ms) by (unfold ms; simpl; auto).
  assert (In3 : In m3 ms) by (unfold ms; simpl; auto).
  assert (In4 : In m4 ms) by (unfold ms; simpl; auto 6).
  fold (Xa i') in Ba. fold (Xc i') in Bc. fold (Xg i') in Bg. fold (Xt i') in Bt.
  unfold Y, Ii, Im. at3_entries.
  unfold ensemble_at, sum_at, ms.
  cbn [List.map fold_right List.length].
  change (inject_Z (Z.of_nat 5)) with (5 # 1)%Q.
  change (inject_Z 5) with (5 # 1)%Q. change (inject_Z 20) with (20 # 1)%Q.
  split; field.
Qed.

End Attribution.

(** ** The small ensemble meets what the properties ask of a model *)

Section DemoModel.

Lemma demo_row_length (row : list Q) : List.length (demo_row row) = 3%nat.
Proof.
  destruct row as [|a [|c [|g [|t [|u r]]]]]; reflexivity.
Qed.

Lemma demo_model_rows (x : list (list Q)) :
  Z.of_nat (List.length
              (List.map demo_row
                 (PyStr.slice x 5000 (Z.of_nat (List.length x) - 5000))))
  = Z.max 0 (Z.of_nat (List.length x) - 10000).
Proof.
  rewrite length_map, slice_length. unfold PyStr.clamp_index.
  destruct (Z.ltb_spec 5000 0); [lia|].
  destruct (Z.ltb_spec (Z.of_nat (List.length x) - 5000) 0); lia.
Qed.

Lemma demo_model_contract : model_contract demo_model.
Proof.
  intro x. eexists. split; [reflexivity|]. split; [apply demo_model_rows|].
  apply Forall_map, Forall_forall. intros row _. apply demo_row_length.
Qed.

Lemma demo_models_contract : Forall model_contract (models demo_ann).
Proof. repeat constructor; apply demo_model_contract. Qed.

Lemma demo_model_entries (B : nat) (W : Z) (x : Np.Tensor3) (b p c : nat) :
  batch_of B W x ->
  (b < B)%nat -> Z.of_nat p < W - 10000 -> (c < 3)%nat ->
  in_range3 (demo_model x) b p c.
Proof.
  intros [HB HW] Hb Hp Hc. unfold in_range3, demo_model.
  assert (Hbx : (b < List.length x)%nat) by lia.
  rewrite (nth_map_in _ x b [] []) by exact Hbx.
  assert (Hlen : Z.of_nat (List.length (nth b x [])) = W).
  { rewrite Forall_forall in HW. apply HW, nth_In, Hbx. }
  pose proof (demo_model_rows (nth b x [])) as Hrows. rewrite Hlen in Hrows.
  assert (Hpx : (p < List.length
                       (List.map demo_row
                          (PyStr.slice (nth b x []) 5000
                             (Z.of_nat (List.length (nth b x [])) - 5000))))%nat)
    by (rewrite Hlen in *; lia).
  rewrite length_map. split; [exact Hbx|]. split; [exact Hpx|].
  rewrite length_map in Hpx.
  rewrite (nth_map_in _ _ p [] []) by exact Hpx.
  now rewrite demo_row_length.
Qed.

End DemoModel.

(* ================================================================== *)
(** * Further properties of the module *)
(* ================================================================== *)

(** ** [normalise_chrom]: conventions and round trips *)

Section NormaliseChromMore.

(** X1: the label that [normalise_chrom] returns follows the convention of
    the target: it starts with ["chr"] exactly when the target does. *)
Theorem normalise_chrom_follows_target (source target : string) :
  has_prefix (normalise_chrom source target) = has_prefix target.
Proof.
  unfold normalise_chrom.
  destruct (has_prefix source) eqn:Hs, (has_prefix target) eqn:Ht; cbn [andb negb].
  - exact Hs.
  - apply has_prefix_strip.
  - apply has_prefix_chr.
  - exact Hs.
Qed.

Lemma rstrip_clean (cs s : string) (d : ascii) :
  last_char s = Some d -> PyStr.mem_char d cs = false -> PyStr.rstrip cs s = s.
Proof.
  induction s as [|c s IH]; intros Hl Hd; [discriminate|].
  destruct s as [|c' s'].
  - simpl in *. inversion Hl; subst. now rewrite Hd.
  - change (last_char (String c (String c' s'))) with (last_char (String c' s')) in Hl.
    specialize (IH Hl Hd).
    change (PyStr.rstrip cs (String c (String c' s')))
      with (match PyStr.rstrip cs (String c' s') with
            | EmptyString => if PyStr.mem_char c cs then EmptyString
                             else String c EmptyString
            | r => String c r
            end).
    now rewrite IH.
Qed.

Lemma strip_clean (x : string) : clean_ends x = true -> PyStr.strip "chr" x = x.
Proof.
  destruct x as [|c r]; [reflexivity|]. unfold clean_ends.
  intro H. apply andb_true_iff in H. destruct H as [Hc Hl].
  apply negb_true_iff in Hc.
  destruct (last_char (String c r)) as [d|] eqn:El.
  - apply negb_true_iff in Hl. unfold PyStr.strip.
    change (PyStr.lstrip "chr" (String c r))
      with (if PyStr.mem_char c "chr" then PyStr.lstrip "chr" r else String c r).
    rewrite Hc.
    now apply (rstrip_clean _ _ d).
  - exfalso. clear -El. revert c El.
    induction r as [|c' r IH]; intros c El; [discriminate|].
    now apply (IH c').
Qed.

Lemma strip_chr_prefix (x : string) :
  PyStr.strip "chr" ("chr" ++ x)%string = PyStr.strip "chr" x.
Proof. reflexivity. Qed.

(** X2: adding the prefix and removing it again gives the label back: a
    label without the prefix that neither starts nor ends with c, h or r,
    normalised to a target with the prefix and then to a target without it,
    is unchanged. *)
Theorem normalise_chrom_round_trip (x t t' : string)
  (Hx : clean_ends x = true)
  (Ht : has_prefix t = true)
  (Ht' : has_prefix t' = false) :
  normalise_chrom x t = ("chr" ++ x)%string
  /\ normalise_chrom (normalise_chrom x t) t' = x.
Proof.
  assert (Hnp : has_prefix x = false).
  { destruct (has_prefix x) eqn:E; [|reflexivity].
    destruct (has_prefix_head x E) as [r ->].
    unfold clean_ends in Hx. simpl in Hx. discriminate. }
  assert (H1 : normalise_chrom x t = ("chr" ++ x)%string)
    by (unfold normalise_chrom; now rewrite Hnp, Ht).
  split; [exact H1|]. rewrite H1. unfold normalise_chrom.
  rewrite has_prefix_chr, Ht'. cbn [andb negb].
  rewrite strip_chr_prefix. now apply strip_clean.
Qed.

End NormaliseChromMore.

Lemma normalise_chrom_round_trip_witness :
  clean_ends "17" = true
  /\ normalise_chrom (normalise_chrom "17" "chr1") "1" = "17".
Proof.
  split; [reflexivity|].
  apply (normalise_chrom_round_trip "17" "chr1" "1"); reflexivity.
Defined.

(** ** [one_hot_encode]: rows and the strand flip *)

Section EncodingMore.

Lemma symbol_row_in_table (c : ascii) : In (symbol_row c) map_table.
Proof.
  destruct c as [[] [] [] [] [] [] [] []]; vm_compute; tauto.
Qed.

Lemma one_hot_encode_app (a b : string) :
  one_hot_encode (a ++ b)%string = one_hot_encode a ++ one_hot_encode b.
Proof.
  induction a as [|c a IH]; [reflexivity|].
  change (String c a ++ b)%string with (String c (a ++ b)%string).
  rewrite (one_hot_encode_cons c (a ++ b)), (one_hot_encode_cons c a), IH.
  now rewrite app_assoc.
Qed.

(** X3: for every input string of ASCII characters [one_hot_encode]
    returns one row for every symbol, and every row is one of the five rows
    of the table: four entries, each 0 or 1, with at most one 1. *)
Theorem one_hot_encode_rows_valid (seq : string) (Hseq : is_ascii seq = true) :
  List.length (one_hot_encode seq) = String.length seq
  /\ Forall (fun row =>
               In row [ [0; 0; 0; 0]; [1; 0; 0; 0]; [0; 1; 0; 0];
                        [0; 0; 1; 0]; [0; 0; 0; 1] ]
               /\ List.length row = 4%nat
               /\ Forall (fun v => v = 0 \/ v = 1) row
               /\ 0 <= fold_right Z.add 0 row <= 1)
            (one_hot_encode seq).
Proof.
  split; [apply one_hot_encode_rows|]. clear Hseq.
  induction seq as [|c s IH]; [constructor|].
  rewrite one_hot_encode_cons, one_hot_encode_char. simpl app.
  constructor; [|exact IH].
  pose proof (symbol_row_in_table c) as Hin. split; [exact Hin|].
  simpl in Hin.
  destruct Hin as [<-|[<-|[<-|[<-|[<-|[]]]]]];
    (split; [reflexivity|]);
    (split; [repeat (apply Forall_cons; [lia|]); apply Forall_nil | simpl; lia]).
Qed.

Lemma symbol_row_complement (c : ascii) :
  is_base c = true -> rev (symbol_row c) = symbol_row (complement_char c).
Proof.
  destruct c as [[] [] [] [] [] [] [] []]; vm_compute;
    intro H; try discriminate H; reflexivity.
Qed.

Lemma one_hot_encode_of_chars_rev (l : list ascii) :
  one_hot_encode (PyStr.of_chars (rev l))
  = rev (List.map symbol_row l).
Proof.
  assert (Happ : forall a b, PyStr.of_chars (a ++ b)
                             = (PyStr.of_chars a ++ PyStr.of_chars b)%string).
  { induction a as [|x a IHa]; intro b; simpl; [reflexivity|]. now rewrite IHa. }
  induction l as [|c l IH]; [reflexivity|].
  simpl rev. rewrite Happ, one_hot_encode_app, IH.
  simpl List.map. simpl rev.
  change (PyStr.of_chars [c]) with (String c EmptyString).
  now rewrite one_hot_encode_char.
Qed.

(** X4: on a sequence over A, C, G, T, N (in either case) the strand flip
    [x[:, ::-1, ::-1]] of the encoded window is the encoding of the reverse
    complement: reversing the four channels exchanges A with T and C with
    G, and leaves the zero row of N. *)
Theorem strand_flip_is_reverse_complement (seq : string)
  (Hseq : forallb is_base (PyStr.chars seq) = true) :
  encode_window seq "-" = [one_hot_encode (revcomp seq)].
Proof.
  unfold encode_window, revcomp, Np.flip_pos_chan.
  change (String.eqb "-" "-") with true. cbn [List.map]. f_equal.
  rewrite one_hot_encode_of_chars_rev. f_equal.
  revert Hseq. induction seq as [|c s IH]; intro Hseq; [reflexivity|].
  simpl in Hseq. apply andb_true_iff in Hseq. destruct Hseq as [Hc Hs].
  rewrite one_hot_encode_cons, one_hot_encode_char.
  simpl. rewrite (IH Hs). now rewrite symbol_row_complement.
Qed.

(** X5: the two strand flips undo themselves: flipping positions and
    channels twice, or positions twice, gives the array back. *)
Theorem strand_flips_involutive {A : Type} (x : list (list (list A))) :
  Np.flip_pos_chan (Np.flip_pos_chan x) = x
  /\ Np.flip_pos (Np.flip_pos x) = x.
Proof.
  unfold Np.flip_pos_chan, Np.flip_pos. split.
  - rewrite map_map. rewrite <- (map_id x) at 2. apply map_ext. intro m.
    rewrite map_rev, rev_involutive, map_map.
    rewrite <- (map_id m) at 2. apply map_ext. intro r. apply rev_involutive.
  - rewrite map_map. rewrite <- (map_id x) at 2. apply map_ext. intro m.
    apply rev_involutive.
Qed.

End EncodingMore.

Lemma one_hot_encode_rows_valid_witness :
  is_ascii "acgtNRYx-" = true
  /\ List.length (one_hot_encode "acgtNRYx-") = String.length "acgtNRYx-".
Proof.
  split; [reflexivity|].
  apply (one_hot_encode_rows_valid "acgtNRYx-"). reflexivity.
Defined.

Lemma strand_flip_is_reverse_complement_witness :
  forallb is_base (PyStr.chars "acGTn") = true
  /\ encode_window "acGTn" "-" = [one_hot_encode "nACgt"].
Proof.
  split; [reflexivity|].
  apply (strand_flip_is_reverse_complement "acGTn"). reflexivity.
Defined.

(** ** The annotation lookup and the early exits *)

Section LookupMore.

(** What a successful lookup says about its three results. *)
Lemma lookup_inv (ann : Annotator) (chrom : string) (pos : Z)
  (genes strands : list string) (idxs : list Z) :
  columns_aligned ann ->
  get_name_and_strand ann chrom pos = Py.Ok (genes, strands, idxs) ->
  exists c0,
    nth_error (chroms ann) 0 = Some c0
    /\ List.length genes = List.length idxs
    /\ List.length strands = List.length idxs
    /\ StronglySorted Z.lt idxs
    /\ forall i, In i idxs <-> overlaps ann (normalise_chrom chrom c0) pos i.
Proof.
  intros Hcols Hres.
  destruct (chroms ann) as [|c0 cs] eqn:E.
  - unfold get_name_and_strand in Hres. rewrite E in Hres. discriminate.
  - exists c0. split; [reflexivity|].
    destruct (get_name_and_strand_result ann chrom c0 pos Hcols)
      as [idxs' [Hres' [Hsort Hin]]]; [now rewrite E|].
    rewrite Hres in Hres'. inversion Hres'; subst.
    rewrite !length_map.
    split; [reflexivity|]. split; [reflexivity|]. split; [exact Hsort | exact Hin].
Qed.

(** X6: on an annotation without rows the lookup raises [IndexError], and
    so do [get_delta_scores] and [get_importance_score] on every record
    that has alleles: an empty table is not treated as "no gene here". *)
Theorem empty_annotation_raises (fa : Fasta) (lm : Z -> Model)
  (record : VcfRecord) (cov : Z) (alleles : list string)
  (Halts : alts record = Some alleles) :
  get_name_and_strand (Annotator_init [] fa lm) (chrom record) (pos record)
  = Py.Raise Py.IndexError
  /\ get_delta_scores record (Annotator_init [] fa lm) cov
     = Py.Raise Py.IndexError
  /\ get_importance_score record (Annotator_init [] fa lm) cov
     = Py.Raise Py.IndexError.
Proof.
  split; [reflexivity|].
  unfold get_delta_scores, get_importance_score. rewrite Halts.
  split; reflexivity.
Qed.

(** X8: when no row of the annotation covers the position, both functions
    return the empty list without a warning, and the genome is not read. *)
Theorem no_overlap_returns_empty (record : VcfRecord) (ann : Annotator) (cov : Z)
  (alleles : list string) (c0 : string)
  (Hcols : columns_aligned ann)
  (Hc0 : nth_error (chroms ann) 0 = Some c0)
  (Halts : alts record = Some alleles)
  (Hnone : forall i,
      ~ overlaps ann (normalise_chrom (chrom record) c0) (pos record) i) :
  get_name_and_strand ann (chrom record) (pos record) = Py.Ok ([], [], [])
  /\ get_delta_scores record ann cov = Py.Ok ([], [])
  /\ get_importance_score record ann cov = Py.Ok ([], Lines []).
Proof.
  destruct (get_name_and_strand_result ann (chrom record) c0 (pos record) Hcols Hc0)
    as [idxs [Hres [_ Hin]]].
  assert (Hnil : idxs = []).
  { destruct idxs as [|i rest]; [reflexivity|].
    exfalso. apply (Hnone i), Hin. now left. }
  subst idxs. simpl in Hres.
  split; [exact Hres|].
  unfold get_delta_scores, get_importance_score. rewrite Halts, Hres.
  split; reflexivity.
Qed.

End LookupMore.

Lemma empty_annotation_raises_witness :
  alts demo_record = Some ["G"; "."]
  /\ get_delta_scores demo_record
       (Annotator_init [] demo_fasta (fun _ => demo_model)) 1001
     = Py.Raise Py.IndexError.
Proof.
  split; [reflexivity|].
  refine (proj1 (proj2 (empty_annotation_raises demo_fasta (fun _ => demo_model)
                          demo_record 1001 ["G"; "."] _))).
  reflexivity.
Defined.

Lemma no_overlap_returns_empty_witness :
  alts demo_record_far = Some ["G"]
  /\ get_delta_scores demo_record_far demo_ann 1001 = Py.Ok ([], []).
Proof.
  split; [reflexivity|].
  refine (proj1 (proj2 (no_overlap_returns_empty demo_record_far demo_ann 1001
                          ["G"] "1" _ _ _ _))).
  - apply Annotator_init_aligned.
  - reflexivity.
  - reflexivity.
  - intros i [Hi [Hc [s [e [Hs [He Hb]]]]]].
    unfold demo_record_far in *. cbn [pos chrom] in *.
    destruct (Z.to_nat i) as [|[|[|n]]]; vm_compute in Hc, Hs, He;
      try discriminate; try (destruct n; discriminate);
      inversion Hs; inversion He; subst; lia.
Defined.

Section FastaErrors.

Variables (record : VcfRecord) (ann : Annotator) (cov : Z).
Let wid := 10000 + cov.
Variables (alleles : list string) (genes strands : list string) (idxs : list Z).

Hypothesis Halts : alts record = Some alleles.
Hypothesis Hlookup :
  get_name_and_strand ann (chrom record) (pos record)
  = Py.Ok (genes, strands, idxs).
Hypothesis Hidxs : idxs <> [].

Lemma idxs_not_zero : (Z.of_nat (List.length idxs) =? 0) = false.
Proof.
  apply Z.eqb_neq. intro H0.
  assert (Hn : List.length idxs = O) by lia.
  apply length_zero_iff_nil in Hn. contradiction.
Qed.

(** X7: once a gene covers the record, the genome decides: with no
    sequence in the genome the functions raise [IndexError]; an
    [IndexError] or [ValueError] of the extraction is a skip with the
    fasta-issue warning; any other exception of the extraction, such as the
    [KeyError] of a missing chromosome, is not caught. *)
Theorem fasta_errors :
  (keys (ref_fasta ann) = [] ->
   get_delta_scores record ann cov = Py.Raise Py.IndexError
   /\ get_importance_score record ann cov = Py.Raise Py.IndexError)
  /\ (forall k0 e,
        Py.index (keys (ref_fasta ann)) 0 = Py.Ok k0 ->
        fetch (ref_fasta ann) (normalise_chrom (chrom record) k0)
              (pos record - wid / 2 - 1) (pos record + wid / 2)
        = Py.Raise e ->
        if match e with
           | Py.IndexError | Py.ValueError => true
           | _ => false
           end
        then get_delta_scores record ann cov = Py.Ok ([FastaIssue], [])
             /\ get_importance_score record ann cov
                = Py.Ok ([FastaIssue], Lines [])
        else get_delta_scores record ann cov = Py.Raise e
             /\ get_importance_score record ann cov = Py.Raise e).
Proof.
  pose proof idxs_not_zero as Hz. split.
  - intro Hk. unfold get_delta_scores, get_importance_score.
    rewrite Halts, Hlookup. cbn [Py.bind]. rewrite Hz, Hk. split; reflexivity.
  - intros k0 e Hk Hf. unfold get_delta_scores, get_importance_score.
    rewrite Halts, Hlookup. cbn [Py.bind]. rewrite Hz, Hk. cbn [Py.bind].
    fold wid. rewrite Hf. destruct e; split; reflexivity.
Qed.

End FastaErrors.

Lemma fasta_errors_witness :
  alts demo_record_chr2 = Some ["G"]
  /\ get_delta_scores demo_record_chr2 demo_ann 1001 = Py.Ok ([FastaIssue], []).
Proof.
  split; [reflexivity|].
  refine (proj1 (proj2 (fasta_errors demo_record_chr2 demo_ann 1001 ["G"]
                          ["GENE3"] ["+"] [2] _ _ _)
                   "chr1" Py.IndexError _ _)).
  - reflexivity.
  - vm_compute; reflexivity.
  - discriminate.
  - reflexivity.
  - vm_compute; reflexivity.
Defined.

Section Distances.

Variables (ann : Annotator) (chrom : string) (pos : Z).
Variables (genes strands : list string) (idxs : list Z).

Hypothesis Hcols : columns_aligned ann.
Hypothesis Hlookup :
  get_name_and_strand ann chrom pos = Py.Ok (genes, strands, idxs).



End Distances.


(** ** The contents of the two windows *)

Section WindowContents.

Lemma chars_app (a b : string) :
  PyStr.chars (a ++ b)%string = PyStr.chars a ++ PyStr.chars b.
Proof. induction a as [|c a IH]; simpl; [reflexivity | now rewrite IH]. Qed.

Lemma chars_of_chars (l : list ascii) : PyStr.chars (PyStr.of_chars l) = l.
Proof. apply list_ascii_of_string_of_list_ascii. Qed.

Lemma of_chars_chars (s : string) : PyStr.of_chars (PyStr.chars s) = s.
Proof. apply string_of_list_ascii_of_string. Qed.

Lemma chars_str_mul (c : ascii) (k : Z) :
  PyStr.chars (PyStr.str_mul c k) = repeat c (Z.to_nat k).
Proof.
  unfold PyStr.str_mul. induction (Z.to_nat k) as [|n IH]; simpl;
    [reflexivity | now rewrite IH].
Qed.

(** An entry of a slice whose bounds are in range. *)
Lemma nth_slice {A : Type} (l : list A) (lo hi : Z) (j : nat) (d : A) :
  0 <= lo <= hi -> hi <= Z.of_nat (List.length l) ->
  Z.of_nat j < hi - lo ->
  nth j (PyStr.slice l lo hi) d = nth (Z.to_nat lo + j) l d.
Proof.
  intros H1 H2 Hj. unfold PyStr.slice, PyStr.clamp_index.
  destruct (Z.ltb_spec lo 0); [lia|]. destruct (Z.ltb_spec hi 0); [lia|].
  rewrite !Z.min_l by lia.
  rewrite nth_firstn.
  destruct (Nat.ltb_spec j (Z.to_nat (hi - lo))); [|lia].
  apply nth_skipn.
Qed.

Lemma slice_in_range {A : Type} (l : list A) (lo hi : Z) :
  0 <= lo <= hi -> hi <= Z.of_nat (List.length l) ->
  PyStr.slice l lo hi = firstn (Z.to_nat (hi - lo)) (skipn (Z.to_nat lo) l).
Proof.
  intros H1 H2. unfold PyStr.slice, PyStr.clamp_index.
  destruct (Z.ltb_spec lo 0); [lia|]. destruct (Z.ltb_spec hi 0); [lia|].
  now rewrite !Z.min_l by lia.
Qed.

(** The three parts of a concatenation, by slicing. *)
Lemma slice_app3 {A : Type} (a b c : list A) :
  let la := Z.of_nat (List.length a) in
  let lb := Z.of_nat (List.length b) in
  PyStr.slice_to (a ++ b ++ c) la = a
  /\ PyStr.slice (a ++ b ++ c) la (la + lb) = b
  /\ PyStr.slice_from (a ++ b ++ c) (la + lb) = c.
Proof.
  intros la lb. unfold PyStr.slice_to, PyStr.slice_from.
  assert (Hlen : Z.of_nat (List.length (a ++ b ++ c))
                 = la + lb + Z.of_nat (List.length c))
    by (rewrite !length_app; lia).
  rewrite !slice_in_range by lia. rewrite Hlen.
  replace (Z.to_nat (la - 0)) with (List.length a) by lia.
  replace (Z.to_nat la) with (List.length a) by lia.
  replace (Z.to_nat (la + lb - la)) with (List.length b) by lia.
  replace (Z.to_nat (la + lb)) with (List.length a + List.length b)%nat by lia.
  replace (Z.to_nat (la + lb + Z.of_nat (List.length c) - (la + lb)))
    with (List.length c) by lia.
  change (Z.to_nat 0) with O. cbn [skipn].
  repeat split.
  - rewrite firstn_app, Nat.sub_diag, firstn_all. simpl. apply app_nil_r.
  - rewrite skipn_app, skipn_all, Nat.sub_diag. simpl.
    rewrite firstn_app, Nat.sub_diag, firstn_all. simpl. apply app_nil_r.
  - rewrite app_assoc, skipn_app, length_app.
    rewrite skipn_all2 by (rewrite length_app; lia).
    rewrite Nat.sub_diag. simpl. apply firstn_all.
Qed.

Variable cov : Z.
Let wid := 10000 + cov.
Variables (seq : string) (dist : Z * Z).

Hypothesis Hwid : 0 <= wid.
Hypothesis Hdist : fst dist <= 0 <= snd dist.
Hypothesis Hseq : PyStr.len seq = wid.

(** X14: the reference window is the extracted sequence with the bases
    outside the transcript masked: the first [pad_size[0]] and the last
    [pad_size[1]] positions read N, every position between them reads the
    base of the sequence at that position. *)
Theorem window_ref_masks (i : Z) (Hi : 0 <= i < wid) :
  let pad := pad_size wid dist in
  nth (Z.to_nat i) (PyStr.chars (window_ref wid seq pad)) "N"%char
  = if (i <? fst pad) || (wid - snd pad <=? i) then "N"%char
    else nth (Z.to_nat i) (PyStr.chars seq) "N"%char.
Proof.
  intro pad. unfold window_ref.
  assert (Hh : 0 <= wid / 2 /\ 2 * (wid / 2) <= wid)
    by (split; [apply Z.div_pos; lia | apply Z.mul_div_le; lia]).
  assert (Hp0 : 0 <= fst pad <= wid / 2) by (unfold pad, pad_size; simpl; lia).
  assert (Hp1 : 0 <= snd pad <= wid / 2) by (unfold pad, pad_size; simpl; lia).
  assert (Hlen : Z.of_nat (List.length (PyStr.chars seq)) = wid)
    by (rewrite chars_length; exact Hseq).
  rewrite !chars_app, !chars_str_mul. unfold PyStr.str_slice. rewrite chars_of_chars.
  assert (Hmid : Z.of_nat (List.length
                   (PyStr.slice (PyStr.chars seq) (fst pad) (wid - snd pad)))
                 = wid - snd pad - fst pad)
    by (rewrite slice_length_in; lia).
  destruct (Z.ltb_spec i (fst pad)) as [Hlt|Hge]; cbn [orb].
  - rewrite app_nth1 by (rewrite repeat_length; lia).
    apply nth_repeat.
  - rewrite app_nth2 by (rewrite repeat_length; lia).
    rewrite repeat_length.
    destruct (Z.leb_spec (wid - snd pad) i) as [Hhi|Hlo].
    + rewrite app_nth2 by lia. apply nth_repeat.
    + rewrite app_nth1 by lia.
      rewrite nth_slice by lia. f_equal. lia.
Qed.

(** X15: the alternate window is the reference window up to the centre,
    then the alternate allele, then the reference window from behind the
    reference allele. *)
Theorem window_alt_parts (ref alt : string)
  (Href : wid / 2 + PyStr.len ref <= wid) :
  let x_ref := window_ref wid seq (pad_size wid dist) in
  let x_alt := window_alt wid x_ref alt (PyStr.len ref) in
  PyStr.str_slice_to x_alt (wid / 2) = PyStr.str_slice_to x_ref (wid / 2)
  /\ PyStr.str_slice x_alt (wid / 2) (wid / 2 + PyStr.len alt) = alt
  /\ PyStr.str_slice_from x_alt (wid / 2 + PyStr.len alt)
     = PyStr.str_slice_from x_ref (wid / 2 + PyStr.len ref).
Proof.
  intros x_ref x_alt.
  assert (Hx : PyStr.len x_ref = wid) by now apply window_ref_len.
  assert (Hh : 0 <= wid / 2 /\ 2 * (wid / 2) <= wid)
    by (split; [apply Z.div_pos; lia | apply Z.mul_div_le; lia]).
  set (a := PyStr.slice_to (PyStr.chars x_ref) (wid / 2)).
  set (c := PyStr.slice_from (PyStr.chars x_ref) (wid / 2 + PyStr.len ref)).
  assert (Ha : Z.of_nat (List.length a) = wid / 2).
  { unfold a. rewrite slice_to_length; [reflexivity|].
    rewrite chars_length. unfold PyStr.len in Hx. lia. }
  assert (Hb : Z.of_nat (List.length (PyStr.chars alt)) = PyStr.len alt)
    by (now rewrite chars_length).
  assert (Hchars : PyStr.chars x_alt = a ++ PyStr.chars alt ++ c).
  { unfold x_alt, window_alt, PyStr.str_slice_to, PyStr.str_slice_from.
    now rewrite !chars_app, !chars_of_chars. }
  destruct (slice_app3 a (PyStr.chars alt) c) as [S1 [S2 S3]].
  rewrite Ha, Hb in *.
  unfold PyStr.str_slice_to, PyStr.str_slice, PyStr.str_slice_from.
  rewrite Hchars, S1, S2, S3.
  split; [reflexivity|]. split; [apply of_chars_chars | reflexivity].
Qed.

End WindowContents.

Lemma window_ref_masks_witness :
  0 <= 5500 < 10000 + 1001
  /\ nth (Z.to_nat 5500)
       (PyStr.chars (window_ref (10000 + 1001) demo_seq
                       (pad_size (10000 + 1001) (-19000, 30000)))) "N"%char
     = "A"%char.
Proof.
  split; [lia|].
  rewrite (window_ref_masks 1001 demo_seq (-19000, 30000)).
  - vm_compute. reflexivity.
  - lia.
  - simpl; lia.
  - vm_compute; reflexivity.
  - lia.
Defined.

Lemma window_alt_parts_witness :
  10000 + 1001 = PyStr.len demo_seq
  /\ PyStr.str_slice
       (window_alt (10000 + 1001)
          (window_ref (10000 + 1001) demo_seq
             (pad_size (10000 + 1001) (-19000, 30000))) "GT" (PyStr.len "A"))
       ((10000 + 1001) / 2) ((10000 + 1001) / 2 + PyStr.len "GT")
     = "GT".
Proof.
  split; [vm_compute; reflexivity|].
  refine (proj1 (proj2 (window_alt_parts 1001 demo_seq (-19000, 30000)
                          _ _ _ "A" "GT" _))).
  - lia.
  - simpl; lia.
  - vm_compute; reflexivity.
  - vm_compute; discriminate.
Defined.

(** ** The score extraction: values and ranges *)

Section ExtractionMore.

Variables (y_ref y_alt : Np.Tensor2).
Hypothesis Href : has_columns 3 y_ref.
Hypothesis Halt : has_columns 3 y_alt.
Hypothesis Hlen : List.length y_ref = List.length y_alt.
Hypothesis Hne : y_ref <> [].

Lemma class_diff_value (a b c : Z) (ya yb : Np.Tensor2) :
  Py.index [y_ref; y_alt] a = Py.Ok ya ->
  Py.index [y_ref; y_alt] b = Py.Ok yb ->
  has_columns 3 ya -> has_columns 3 yb -> c = 1 \/ c = 2 ->
  class_diff [y_ref; y_alt] a b c = Py.Ok (Np.sub1 (col c ya) (col c yb)).
Proof.
  intros Ha Hb Ca Cb Hc. unfold class_diff, col.
  assert (Hw : 0 <= c < Z.of_nat 3) by lia.
  rewrite Ha. cbn [Py.bind]. rewrite (column_ok 3 ya c Ca Hw). cbn [Py.bind].
  rewrite Hb. cbn [Py.bind]. rewrite (column_ok 3 yb c Cb Hw). reflexivity.
Qed.

Lemma diff_length (c : Z) (ya yb : Np.Tensor2) :
  List.length ya = List.length y_ref -> List.length yb = List.length y_ref ->
  List.length (Np.sub1 (col c ya) (col c yb)) = List.length y_ref.
Proof.
  intros Ha Hb. unfold Np.sub1, col.
  rewrite map2_length, !length_map, Ha, Hb. apply Nat.min_id.
Qed.

(** The four difference arrays, the four indices and what is reported. *)
Lemma extract_scores_inv (cov : Z) :
  let d_pa := Np.sub1 (col 1 y_alt) (col 1 y_ref) in
  let d_na := Np.sub1 (col 1 y_ref) (col 1 y_alt) in
  let d_pd := Np.sub1 (col 2 y_alt) (col 2 y_ref) in
  let d_nd := Np.sub1 (col 2 y_ref) (col 2 y_alt) in
  exists ipa ina ipd ind,
    first_max d_pa ipa /\ first_max d_na ina
    /\ first_max d_pd ipd /\ first_max d_nd ind
    /\ extract_scores cov [y_ref; y_alt]
       = Py.Ok (nth (Z.to_nat ipa) d_pa 0%Q, nth (Z.to_nat ina) d_na 0%Q,
                nth (Z.to_nat ipd) d_pd 0%Q, nth (Z.to_nat ind) d_nd 0%Q,
                (ipa - cov / 2, ina - cov / 2, ipd - cov / 2, ind - cov / 2)).
Proof.
  intros d_pa d_na d_pd d_nd.
  assert (H0 : Py.index [y_ref; y_alt] 0 = Py.Ok y_ref) by reflexivity.
  assert (H1 : Py.index [y_ref; y_alt] 1 = Py.Ok y_alt) by reflexivity.
  assert (Hnz : forall d : list Q, List.length d = List.length y_ref -> d <> []).
  { intros d Hd E. rewrite E in Hd. destruct y_ref; [contradiction|discriminate]. }
  assert (Lpa : List.length d_pa = List.length y_ref)
    by (apply diff_length; congruence).
  assert (Lna : List.length d_na = List.length y_ref)
    by (apply diff_length; congruence).
  assert (Lpd : List.length d_pd = List.length y_ref)
    by (apply diff_length; congruence).
  assert (Lnd : List.length d_nd = List.length y_ref)
    by (apply diff_length; congruence).
  destruct (argmax_first_max d_pa (Hnz _ Lpa)) as [ipa [Apa Fpa]].
  destruct (argmax_first_max d_na (Hnz _ Lna)) as [ina [Ana Fna]].
  destruct (argmax_first_max d_pd (Hnz _ Lpd)) as [ipd [Apd Fpd]].
  destruct (argmax_first_max d_nd (Hnz _ Lnd)) as [ind [And Fnd]].
  exists ipa, ina, ipd, ind. repeat (split; [assumption|]).
  unfold extract_scores.
  rewrite (class_diff_value 1 0 1 y_alt y_ref H1 H0 Halt Href (or_introl eq_refl)).
  cbn [Py.bind]. fold d_pa. rewrite Apa. cbn [Py.bind].
  rewrite (class_diff_value 0 1 1 y_ref y_alt H0 H1 Href Halt (or_introl eq_refl)).
  cbn [Py.bind]. fold d_na. rewrite Ana. cbn [Py.bind].
  rewrite (class_diff_value 1 0 2 y_alt y_ref H1 H0 Halt Href (or_intror eq_refl)).
  cbn [Py.bind]. fold d_pd. rewrite Apd. cbn [Py.bind].
  rewrite (class_diff_value 0 1 2 y_ref y_alt H0 H1 Href Halt (or_intror eq_refl)).
  cbn [Py.bind]. fold d_nd. rewrite And. cbn [Py.bind].
  rewrite (index_ok d_pa ipa (nth (Z.to_nat ipa) d_pa 0%Q))
    by (try apply nth_error_nth'; destruct Fpa; lia).
  rewrite (index_ok d_na ina (nth (Z.to_nat ina) d_na 0%Q))
    by (try apply nth_error_nth'; destruct Fna; lia).
  rewrite (index_ok d_pd ipd (nth (Z.to_nat ipd) d_pd 0%Q))
    by (try apply nth_error_nth'; destruct Fpd; lia).
  rewrite (index_ok d_nd ind (nth (Z.to_nat ind) d_nd 0%Q))
    by (try apply nth_error_nth'; destruct Fnd; lia).
  reflexivity.
Qed.

Lemma col_entry_unit (c : Z) (m : Np.Tensor2) (i : nat) :
  has_columns 3 m -> unit_entries m -> c = 1 \/ c = 2 ->
  (i < List.length m)%nat ->
  (0 <= nth i (col c m) 0 <= 1)%Q.
Proof.
  intros Hc Hu Hcc Hi. unfold col.
  rewrite (nth_map_in _ m i [] 0%Q) by exact Hi.
  assert (Hrow : In (nth i m []) m) by now apply nth_In.
  unfold unit_entries in Hu. rewrite Forall_forall in Hu.
  specialize (Hu _ Hrow). rewrite Forall_forall in Hu. apply Hu.
  apply nth_In. rewrite (has_columns_In 3 m _ Hc Hrow). lia.
Qed.

Lemma diff_entry_unit (c : Z) (ya yb : Np.Tensor2) (i : Z) :
  has_columns 3 ya -> has_columns 3 yb -> unit_entries ya -> unit_entries yb ->
  List.length ya = List.length y_ref -> List.length yb = List.length y_ref ->
  c = 1 \/ c = 2 -> 0 <= i < Z.of_nat (List.length y_ref) ->
  (-1 <= nth (Z.to_nat i) (Np.sub1 (col c ya) (col c yb)) 0 <= 1)%Q.
Proof.
  intros Ca Cb Ua Ub La Lb Hc Hi. unfold Np.sub1.
  rewrite (nth_map2 Qminus (col c ya) (col c yb) (Z.to_nat i) 0%Q 0%Q 0%Q)
    by (unfold col; rewrite length_map; lia).
  pose proof (col_entry_unit c ya (Z.to_nat i) Ca Ua Hc ltac:(lia)) as Ha.
  pose proof (col_entry_unit c yb (Z.to_nat i) Cb Ub Hc ltac:(lia)) as Hb.
  lra.
Qed.

(** X12: what [get_delta_scores] reports for one allele and gene is in
    range: each of the four offsets lies between [-(cov//2)] and the last
    position of the output minus [cov//2], and, when the two outputs hold
    probabilities, each of the four scores lies between -1 and 1. *)
Theorem extract_scores_ranges (cov : Z) :
  exists ag al dg dl pa na pd nd,
    extract_scores cov [y_ref; y_alt] = Py.Ok (ag, al, dg, dl, (pa, na, pd, nd))
    /\ Forall (fun o => - (cov / 2) <= o < Z.of_nat (List.length y_ref) - cov / 2)
              [pa; na; pd; nd]
    /\ (unit_entries y_ref -> unit_entries y_alt ->
        Forall (fun v => -1 <= v <= 1)%Q [ag; al; dg; dl]).
Proof.
  destruct (extract_scores_inv cov)
    as (ipa & ina & ipd & ind & Fpa & Fna & Fpd & Fnd & E).
  assert (Lpa := diff_length 1 y_alt y_ref (eq_sym Hlen) eq_refl).
  assert (Lna := diff_length 1 y_ref y_alt eq_refl (eq_sym Hlen)).
  assert (Lpd := diff_length 2 y_alt y_ref (eq_sym Hlen) eq_refl).
  assert (Lnd := diff_length 2 y_ref y_alt eq_refl (eq_sym Hlen)).
  destruct Fpa as [Ipa _], Fna as [Ina _], Fpd as [Ipd _], Fnd as [Ind _].
  rewrite Lpa in Ipa. rewrite Lna in Ina. rewrite Lpd in Ipd. rewrite Lnd in Ind.
  do 8 eexists. split; [exact E|]. split.
  - repeat (apply Forall_cons; [lia|]). apply Forall_nil.
  - intros Ur Ua.
    repeat (apply Forall_cons;
            [apply diff_entry_unit; auto; try lia; congruence|]).
    apply Forall_nil.
Qed.

End ExtractionMore.

Lemma extract_scores_ranges_witness :
  has_columns 3 demo_y_ref
  /\ exists ag al dg dl pa na pd nd,
       extract_scores 3 [demo_y_ref; demo_y_alt]
       = Py.Ok (ag, al, dg, dl, (pa, na, pd, nd))
       /\ Forall (fun o => - (3 / 2) <= o < 3 - 3 / 2) [pa; na; pd; nd].
Proof.
  assert (H1 : has_columns 3 demo_y_ref) by (repeat constructor).
  assert (H2 : has_columns 3 demo_y_alt) by (repeat constructor).
  split; [exact H1|].
  destruct (extract_scores_ranges demo_y_ref demo_y_alt H1 H2 eq_refl
              ltac:(discriminate) 3)
    as (ag & al & dg & dl & pa & na & pd & nd & E & Ho & _).
  exists ag, al, dg, dl, pa, na, pd, nd. split; [exact E | exact Ho].
Defined.

(** ** The realignment in all its cases *)

Section Realignment.

Lemma slice_to_from_length {A : Type} (l : list A) (h : Z) :
  0 <= h ->
  Z.of_nat (List.length (PyStr.slice_to l h))
  + Z.of_nat (List.length (PyStr.slice_from l h))
  = Z.of_nat (List.length l).
Proof.
  intro Hh. unfold PyStr.slice_to, PyStr.slice_from.
  rewrite !slice_length. unfold PyStr.clamp_index.
  destruct (Z.ltb_spec 0 0); [lia|]. destruct (Z.ltb_spec h 0); [lia|].
  destruct (Z.ltb_spec (Z.of_nat (List.length l)) 0); lia.
Qed.


Lemma zeros_shape (n : Z) (w : nat) :
  Z.of_nat (List.length (Np.zeros n w)) = Z.max n 0
  /\ has_columns w (Np.zeros n w)
  /\ Forall (fun row => row = repeat 0%Q w) (Np.zeros n w).
Proof.
  unfold Np.zeros, has_columns. rewrite repeat_length. split; [lia|].
  split; apply Forall_forall; intros row Hrow; apply repeat_spec in Hrow;
    subst; [apply repeat_length | reflexivity].
Qed.


Variables (ms : list Model) (cov : Z) (seq ref alt strand : string) (dist : Z * Z).
Let wid := 10000 + cov.

Hypothesis Hms : List.length ms = 5%nat.
Hypothesis Hcontract : Forall model_contract ms.
Hypothesis Hcov : 1 <= cov.
Hypothesis Hdist : fst dist <= 0 <= snd dist.
Hypothesis Hseq : PyStr.len seq = wid.
Hypothesis Href : 1 < PyStr.len ref.
Hypothesis Halt : PyStr.len alt = 1.
Hypothesis Hdel : PyStr.len ref - 1 <= cov.
Hypothesis Hfit : wid / 2 + PyStr.len ref <= wid.

Let x_ref := window_ref wid seq (pad_size wid dist).
Let x_alt := window_alt wid x_ref alt (PyStr.len ref).
Let orient (y : Np.Tensor3) : Np.Tensor3 :=
  if String.eqb strand "-" then Np.flip_pos y else y.

(** X11: for a deletion ([len(ref) > 1], [len(alt) = 1]) of at most [cov]
    bases the alternate output of the ensemble is [len(ref) - 1] positions
    shorter than the reference output; the realignment inserts that many
    rows of zeros behind position [cov//2], and the realigned alternate
    output has the length of the reference output, [cov]. *)
Theorem deletion_realigned :
  exists y_ref y_alt r a,
    ensemble_mean ms (encode_window x_ref strand) = Py.Ok y_ref
    /\ ensemble_mean ms (encode_window x_alt strand) = Py.Ok y_alt
    /\ orient y_ref = [r]
    /\ orient y_alt = [a]
    /\ Z.of_nat (List.length a) = Z.of_nat (List.length r) - (PyStr.len ref - 1)
    /\ reconcile cov (PyStr.len ref) (PyStr.len alt)
         (Z.max (PyStr.len ref - PyStr.len alt) 0) (orient y_alt)
       = Py.Ok [PyStr.slice_to a (cov / 2 + 1)
                ++ Np.zeros (PyStr.len ref - 1) 3
                ++ PyStr.slice_from a (cov / 2 + 1)]
    /\ Z.of_nat (List.length (Np.zeros (PyStr.len ref - 1) 3)) = PyStr.len ref - 1
    /\ Forall (fun row => row = [0; 0; 0]%Q) (Np.zeros (PyStr.len ref - 1) 3)
    /\ List.length (PyStr.slice_to a (cov / 2 + 1)
                    ++ Np.zeros (PyStr.len ref - 1) 3
                    ++ PyStr.slice_from a (cov / 2 + 1))
       = List.length r
    /\ Z.of_nat (List.length r) = cov.
Proof.
  assert (Hxr : PyStr.len x_ref = wid) by (apply window_ref_len; unfold wid; lia).
  assert (Hxa : PyStr.len x_alt = wid - PyStr.len ref + PyStr.len alt).
  { apply window_alt_length; try assumption; unfold wid in *; lia. }
  destruct (oriented_output ms strand Hms Hcontract x_ref)
    as [y_ref [r [Er [Or [Lr Cr]]]]].
  destruct (oriented_output ms strand Hms Hcontract x_alt)
    as [y_alt [a [Ea [Oa [La Ca]]]]].
  rewrite Hxr in Lr. rewrite Hxa, Halt in La. unfold wid in Lr, La.
  destruct (zeros_shape (PyStr.len ref - 1) 3) as [Lz [_ Fz]].
  exists y_ref, y_alt, r, a.
  split; [exact Er|]. split; [exact Ea|]. split; [exact Or|]. split; [exact Oa|].
  split; [lia|]. split; [|split; [lia|split; [exact Fz|split; [|lia]]]].
  - unfold orient in Oa |- *. rewrite Oa. unfold reconcile. rewrite Halt.
    replace ((1 <? PyStr.len ref) && (1 =? 1)) with true
      by (symmetry; apply andb_true_iff; split; [apply Z.ltb_lt; lia | reflexivity]).
    replace (Z.max (PyStr.len ref - 1) 0) with (PyStr.len ref - 1) by lia.
    reflexivity.
  - apply Nat2Z.inj. rewrite !length_app, !Nat2Z.inj_add, Lz.
    pose proof (slice_to_from_length a (cov / 2 + 1)).
    assert (0 <= cov / 2) by (apply Z.div_pos; lia). lia.
Qed.

End Realignment.

Lemma deletion_realigned_witness :
  1 < PyStr.len "AAA"
  /\ exists r a : Np.Tensor2,
       Z.of_nat (List.length a) = Z.of_nat (List.length r) - (PyStr.len "AAA" - 1)
       /\ Z.of_nat (List.length r) = 1001.
Proof.
  split; [reflexivity|].
  destruct (deletion_realigned (models demo_ann) 1001 demo_seq "AAA" "A" "-"
              (-19000, 30000) eq_refl demo_models_contract)
    as (y_ref & y_alt & r & a & _ & _ & _ & _ & Hlen & _ & _ & _ & _ & Hr).
  - lia.
  - simpl; lia.
  - vm_compute; reflexivity.
  - reflexivity.
  - reflexivity.
  - vm_compute; discriminate.
  - vm_compute; discriminate.
  - exists r, a. split; [exact Hlen | exact Hr].
Defined.

(** ** The lines that [get_delta_scores] returns *)

Section Collecting.

(** A loop that appends to a list: when every round appends lines that do
    not depend on what is already there, so does the loop. *)
Lemma foldM_collect {A B K : Type} (f : list B -> A -> Py.result (list B))
  (key : B -> K) (ok : B -> Prop) (h : A -> list K) (l : list A) :
  (forall a, In a l ->
     exists new, List.map key new = h a /\ Forall ok new
                 /\ forall s, f s a = Py.Ok (s ++ new)) ->
  exists out,
    List.map key out = flat_map h l /\ Forall ok out
    /\ forall s, Py.foldM f l s = Py.Ok (s ++ out).
Proof.
  induction l as [|a l IH]; intro H.
  - exists []. split; [reflexivity|]. split; [constructor|].
    intro s. simpl. now rewrite app_nil_r.
  - destruct (H a (or_introl eq_refl)) as [new [Hk [Hok Hf]]].
    destruct (IH (fun a' Hin => H a' (or_intror Hin))) as [out [Hk' [Hok' Hf']]].
    exists (new ++ out). split; [|split].
    + simpl. now rewrite map_app, Hk, Hk'.
    + now apply Forall_app.
    + intro s. simpl. rewrite Hf. cbn [Py.bind]. rewrite Hf'.
      now rewrite app_assoc.
Qed.

Lemma range_succ (n : nat) : Py.range (S n) = Py.range n ++ [Z.of_nat n].
Proof. unfold Py.range. rewrite seq_S, map_app. reflexivity. Qed.

Lemma index_app_last {A : Type} (l : list A) (x : A) :
  Py.index (l ++ [x]) (Z.of_nat (List.length l)) = Py.Ok x.
Proof.
  apply index_nat_ok. rewrite nth_error_app2 by lia.
  now rewrite Nat.sub_diag.
Qed.

Lemma index_app_front {A : Type} (l : list A) (x : A) (j : Z) :
  0 <= j < Z.of_nat (List.length l) ->
  Py.index (l ++ [x]) j = Py.index l j.
Proof.
  intro Hj. destruct (index_in_range l j Hj) as [a [Ha Hn]].
  rewrite Ha. apply index_ok; [lia|].
  rewrite nth_error_app1 by lia. exact Hn.
Qed.

Lemma flat_map_ext_in {A K : Type} (f g : A -> list K) (l : list A) :
  (forall a, In a l -> f a = g a) -> flat_map f l = flat_map g l.
Proof.
  induction l as [|a l IH]; intro H; simpl; [reflexivity|].
  rewrite (H a) by now left. f_equal. apply IH. intros; apply H; now right.
Qed.

(** Visiting [l[j]] for [j] in [range(len(l))] visits the elements of [l]
    in their order. *)
Lemma flat_map_range_index {A K : Type} (l : list A) (H : A -> list K) :
  flat_map (fun j => match Py.index l j with
                     | Py.Ok a => H a
                     | Py.Raise _ => []
                     end) (Py.range (List.length l))
  = flat_map H l.
Proof.
  induction l as [|x l IH] using rev_ind; [reflexivity|].
  rewrite length_app. simpl List.length. rewrite Nat.add_1_r, range_succ.
  rewrite !flat_map_app. simpl flat_map. rewrite !app_nil_r.
  rewrite index_app_last. f_equal.
  rewrite <- IH. apply flat_map_ext_in.
  intros j Hj. apply range_In in Hj. now rewrite index_app_front.
Qed.

End Collecting.

Section Lines.

Variables (record : VcfRecord) (ann : Annotator) (cov : Z).
Let wid := 10000 + cov.
Variables (alleles : list string) (genes strands : list string) (idxs : list Z).
Variables (k0 seq : string).

Hypothesis Hcols : columns_aligned ann.
Hypothesis Halts : alts record = Some alleles.
Hypothesis Hlookup :
  get_name_and_strand ann (chrom record) (pos record)
  = Py.Ok (genes, strands, idxs).
Hypothesis Hidxs : idxs <> [].
Hypothesis Hkeys : Py.index (keys (ref_fasta ann)) 0 = Py.Ok k0.
Hypothesis Hfetch :
  fetch (ref_fasta ann) (normalise_chrom (chrom record) k0)
        (pos record - wid / 2 - 1) (pos record + wid / 2)
  = Py.Ok seq.
Hypothesis Hcentre : window_centre wid seq (ref record) = ref record.

Lemma flat_map_single {A K : Type} (f : A -> K) (l : list A) :
  flat_map (fun a => [f a]) l = List.map f l.
Proof. induction l as [|a l IH]; simpl; [reflexivity | now rewrite IH]. Qed.

Lemma flat_map_nil {A K : Type} (l : list A) :
  flat_map (fun _ : A => @nil K) l = [].
Proof. induction l; simpl; auto. Qed.

Lemma lookup_lengths :
  List.length genes = List.length idxs /\ List.length strands = List.length idxs.
Proof.
  destruct (lookup_inv ann _ _ _ _ _ Hcols Hlookup) as [c0 [_ [Hg [Hs _]]]].
  now split.
Qed.

(** The two loops, from what one round does: [hk a g] is what the round
    for allele [a] and gene [g] appends, seen through [key]. *)
Lemma loop_from_steps {K : Type} (key : ScoreLine -> K) (ok : ScoreLine -> Prop)
  (hk : string -> string -> list K) :
  (forall j i alt gene,
      Py.index alleles j = Py.Ok alt -> In alt alleles ->
      Py.index genes i = Py.Ok gene ->
      0 <= i < Z.of_nat (List.length idxs) ->
      exists new,
        List.map key new = (if is_sentinel alt then [] else hk alt gene)
        /\ Forall ok new
        /\ forall ds,
            delta_scores_step ann record cov seq alleles genes strands idxs j i ds
            = Py.Ok (ds ++ new)) ->
  exists out,
    List.map key out
    = flat_map (fun a => if is_sentinel a then [] else flat_map (hk a) genes) alleles
    /\ Forall ok out
    /\ get_delta_scores record ann cov = Py.Ok ([], out).
Proof.
  intro Hstep. destruct lookup_lengths as [Hg _].
  assert (Hinner : forall j alt,
             Py.index alleles j = Py.Ok alt -> In alt alleles ->
             exists new,
               List.map key new
               = (if is_sentinel alt then [] else flat_map (hk alt) genes)
               /\ Forall ok new
               /\ forall ds,
                   Py.foldM
                     (fun ds i =>
                        delta_scores_step ann record cov seq alleles genes strands
                          idxs j i ds)
                     (Py.range (List.length idxs)) ds
                   = Py.Ok (ds ++ new)).
  { intros j alt Hj Hin.
    destruct (foldM_collect
                (fun ds i =>
                   delta_scores_step ann record cov seq alleles genes strands
                     idxs j i ds)
                key ok
                (fun i => match Py.index genes i with
                          | Py.Ok g => if is_sentinel alt then [] else hk alt g
                          | Py.Raise _ => []
                          end)
                (Py.range (List.length idxs)))
      as [new [Hk [Hok Hf]]].
    - intros i Hi. apply range_In in Hi.
      destruct (index_in_range genes i) as [g [Hgi _]]; [lia|].
      rewrite Hgi. now apply (Hstep j i alt g).
    - exists new. split; [|now split].
      rewrite Hk, <- Hg.
      rewrite (flat_map_range_index genes
                 (fun g => if is_sentinel alt then [] else hk alt g)).
      destruct (is_sentinel alt); [apply flat_map_nil | reflexivity]. }
  destruct (foldM_collect
              (fun ds j =>
                 Py.foldM
                   (fun ds i =>
                      delta_scores_step ann record cov seq alleles genes strands
                        idxs j i ds)
                   (Py.range (List.length idxs)) ds)
              key ok
              (fun j => match Py.index alleles j with
                        | Py.Ok a => if is_sentinel a then []
                                     else flat_map (hk a) genes
                        | Py.Raise _ => []
                        end)
              (Py.range (List.length alleles)))
    as [out [Hk [Hok Hf]]].
  - intros j Hj. apply range_In in Hj.
    destruct (index_in_range alleles j Hj) as [alt [Halt Hn]].
    rewrite Halt. apply Hinner; [exact Halt | now apply nth_error_In in Hn].
  - exists out. split; [|split; [exact Hok|]].
    + rewrite Hk. apply flat_map_range_index.
    + rewrite (get_delta_scores_at_check record ann cov alleles genes strands idxs
                 k0 seq Halts Hlookup Hidxs Hkeys Hfetch).
      fold wid. rewrite Hcentre, String.eqb_refl. cbn [negb].
      unfold delta_scores_loop. rewrite (Hf []). reflexivity.
Qed.

(** X10: for a multi-base reference allele and alternate alleles that are
    each a sentinel or multi-base, [get_delta_scores] returns exactly the
    unscored line of every allele that is no sentinel with every gene,
    allele by allele and gene by gene; no model is consulted. *)
Theorem unscored_lines
  (Href : 1 < PyStr.len (ref record))
  (Hall : Forall (fun a => is_sentinel a = true \/ 1 < PyStr.len a) alleles) :
  get_delta_scores record ann cov
  = Py.Ok ([], flat_map (fun a => if is_sentinel a then []
                                  else List.map (Unscored a) genes) alleles).
Proof.
  destruct (loop_from_steps (fun l => l) (fun _ => True)
              (fun a g => [Unscored a g])) as [out [Hk [_ Hres]]].
  - intros j i alt gene Hj Hin Hgi Hi.
    exists (if is_sentinel alt then [] else [Unscored alt gene]).
    split; [now rewrite map_id|]. split; [now apply Forall_forall|].
    intro ds. unfold delta_scores_step. rewrite Hj. cbn [Py.bind].
    destruct (is_sentinel alt) eqn:Es; [now rewrite app_nil_r|].
    rewrite Forall_forall in Hall. destruct (Hall alt Hin) as [E|E]; [congruence|].
    replace ((1 <? PyStr.len (ref record)) && (1 <? PyStr.len alt)) with true
      by (symmetry; apply andb_true_iff; split; apply Z.ltb_lt; lia).
    rewrite Hgi. reflexivity.
  - rewrite map_id in Hk. rewrite Hres, Hk. apply f_equal. apply f_equal.
    apply flat_map_ext_in. intros a _.
    destruct (is_sentinel a); [reflexivity | apply flat_map_single].
Qed.

End Lines.

Section ScoredLines.

Variables (record : VcfRecord) (ann : Annotator) (cov : Z).
Let wid := 10000 + cov.
Variables (alleles : list string) (genes strands : list string) (idxs : list Z).
Variables (k0 seq : string).

Hypothesis Hcols : columns_aligned ann.
Hypothesis Halts : alts record = Some alleles.
Hypothesis Hlookup :
  get_name_and_strand ann (chrom record) (pos record)
  = Py.Ok (genes, strands, idxs).
Hypothesis Hidxs : idxs <> [].
Hypothesis Hkeys : Py.index (keys (ref_fasta ann)) 0 = Py.Ok k0.
Hypothesis Hfetch :
  fetch (ref_fasta ann) (normalise_chrom (chrom record) k0)
        (pos record - wid / 2 - 1) (pos record + wid / 2)
  = Py.Ok seq.
Hypothesis Hcentre : window_centre wid seq (ref record) = ref record.

(** The ensemble, the genome and the alleles are as the module expects
    them: five models that keep their contract, a full window, a reference
    allele of at least one base that fits in the window and is at most
    [cov] bases longer than one base, and alleles of at least one base. *)
Hypothesis Hms : List.length (models ann) = 5%nat.
Hypothesis Hcontract : Forall model_contract (models ann).
Hypothesis Hcov : 1 <= cov.
Hypothesis Hseq : PyStr.len seq = wid.
Hypothesis Href : 1 <= PyStr.len (ref record).
Hypothesis Hdel : PyStr.len (ref record) - 1 <= cov.
Hypothesis Hfit : wid / 2 + PyStr.len (ref record) <= wid.
Hypothesis Hall : Forall (fun a => is_sentinel a = true \/ 1 <= PyStr.len a) alleles.



End ScoredLines.

Lemma unscored_lines_witness :
  1 < PyStr.len (ref demo_record_multi)
  /\ get_delta_scores demo_record_multi demo_ann 1001
     = Py.Ok ([], [Unscored "GC" "GENE1"; Unscored "GC" "GENE2"]).
Proof.
  split; [reflexivity|].
  refine (unscored_lines demo_record_multi demo_ann 1001 ["GC"; "."]
            ["GENE1"; "GENE2"] ["+"; "-"] [0; 1] "chr1" demo_seq
            _ _ _ _ _ _ _ _ _).
  - apply Annotator_init_aligned.
  - reflexivity.
  - vm_compute; reflexivity.
  - discriminate.
  - reflexivity.
  - vm_compute; reflexivity.
  - vm_compute; reflexivity.
  - reflexivity.
  - constructor; [right; reflexivity|]. constructor; [left; reflexivity|].
    constructor.
Defined.


(** ** [calculate_importance_score]: what makes it raise *)

Section ImportanceErrors.

Lemma index_cases {A : Type} (l : list A) (i : Z) :
  (exists a, Py.index l i = Py.Ok a) \/ Py.index l i = Py.Raise Py.IndexError.
Proof.
  unfold Py.index.
  destruct ((0 <=? (if i <? 0 then i + Z.of_nat (List.length l) else i))
            && ((if i <? 0 then i + Z.of_nat (List.length l) else i)
                <? Z.of_nat (List.length l))); [|now right].
  destruct (nth_error l _) as [a|]; [left; now exists a | now right].
Qed.

Lemma index_singleton_raises {A : Type} (y : A) (t : Z) :
  t <> 0 -> t <> -1 -> Py.index [y] t = Py.Raise Py.IndexError.
Proof.
  intros H0 H1. unfold Py.index. simpl List.length.
  change (Z.of_nat 1) with 1.
  destruct (Z.ltb_spec t 0).
  - replace ((0 <=? t + 1) && (t + 1 <? 1)) with false; [reflexivity|].
    symmetry. apply andb_false_iff. left. apply Z.leb_gt. lia.
  - replace ((0 <=? t) && (t <? 1)) with false; [reflexivity|].
    symmetry. apply andb_false_iff. right. apply Z.ltb_ge. lia.
Qed.

Lemma mapM_cases {A B : Type} (f : A -> Py.result B) (e : Py.exn) (l : list A) :
  (forall a, In a l -> (exists b, f a = Py.Ok b) \/ f a = Py.Raise e) ->
  (exists bs, Py.mapM f l = Py.Ok bs) \/ Py.mapM f l = Py.Raise e.
Proof.
  induction l as [|a l IH]; intro H; simpl.
  - left. now exists [].
  - destruct (H a (or_introl eq_refl)) as [[b Hb]|Hr].
    + rewrite Hb. cbn [Py.bind].
      destruct (IH (fun a' Hin => H a' (or_intror Hin))) as [[bs Hbs]|Hr].
      * rewrite Hbs. left. now eexists.
      * rewrite Hr. now right.
    + rewrite Hr. now right.
Qed.

(** A comprehension in which a round raises [e], and no round raises
    anything else, raises [e]. *)
Lemma mapM_raises {A B : Type} (f : A -> Py.result B) (e : Py.exn) (l : list A)
  (a0 : A) :
  (forall a, In a l -> (exists b, f a = Py.Ok b) \/ f a = Py.Raise e) ->
  In a0 l -> f a0 = Py.Raise e ->
  Py.mapM f l = Py.Raise e.
Proof.
  induction l as [|a l IH]; intros H Hin Hr; [contradiction|]. simpl.
  destruct (H a (or_introl eq_refl)) as [[b Hb]|Hra].
  - rewrite Hb. cbn [Py.bind].
    destruct Hin as [->|Hin]; [congruence|].
    now rewrite (IH (fun a' Hin' => H a' (or_intror Hin')) Hin Hr).
  - now rewrite Hra.
Qed.

Lemma set_pos_cases (X : Np.Tensor3) (p : Z) (row : list Q) :
  (exists X', Np.set_pos X p row = Py.Ok X')
  \/ Np.set_pos X p row = Py.Raise Py.IndexError.
Proof.
  unfold Np.set_pos. apply mapM_cases. intros m _. unfold Np.set_row.
  destruct (_ && _); [left; now eexists | now right].
Qed.

Variables (X : Np.Tensor3) (m0 m1 m2 m3 m4 : Model).
Let ms : list Model := [m0; m1; m2; m3; m4].

(** A round of the loop returns, or raises [IndexError]. *)
Lemma importance_step_cases (t : Z) (Y : list Np.Tensor3) (W N i : Z) :
  (exists v, importance_step X ms t Y W N i = Py.Ok v)
  \/ importance_step X ms t Y W N i = Py.Raise Py.IndexError.
Proof.
  unfold importance_step.
  destruct (set_pos_cases X ((W - N) / 2 + i) [1; 0; 0; 0]%Q) as [[Xa ->] | ->];
    [|now right]. cbn [Py.bind].
  destruct (set_pos_cases X ((W - N) / 2 + i) [0; 1; 0; 0]%Q) as [[Xc ->] | ->];
    [|now right]. cbn [Py.bind].
  destruct (set_pos_cases X ((W - N) / 2 + i) [0; 0; 1; 0]%Q) as [[Xg ->] | ->];
    [|now right]. cbn [Py.bind].
  destruct (set_pos_cases X ((W - N) / 2 + i) [0; 0; 0; 1]%Q) as [[Xt ->] | ->];
    [|now right]. cbn [Py.bind].
  unfold counterfactual_sum, ms.
  change (Py.index [m0; m1; m2; m3; m4] 0) with (Py.Ok m0).
  change (Py.index [m0; m1; m2; m3; m4] 1) with (Py.Ok m1).
  change (Py.index [m0; m1; m2; m3; m4] 2) with (Py.Ok m2).
  change (Py.index [m0; m1; m2; m3; m4] 3) with (Py.Ok m3).
  change (Py.index [m0; m1; m2; m3; m4] 4) with (Py.Ok m4).
  cbn [Py.bind].
  destruct (index_cases Y t) as [[Yt ->] | ->]; [|now right]. cbn [Py.bind].
  match goal with
  | |- context [Py.index ?l t] =>
      destruct (index_cases l t) as [[Iit ->] | ->]; [|now right]
  end.
  left. now eexists.
Qed.

(** X16: the index [t] addresses the leading axis of size 1 that the
    function adds to the baseline, so with five models every [t] other
    than 0 and -1 makes the call raise [IndexError], whatever the batch of
    windows. *)
Theorem importance_bad_index_raises (t : Z) (Ht0 : t <> 0) (Ht1 : t <> -1) :
  calculate_importance_score X ms t = Py.Raise Py.IndexError.
Proof.
  unfold calculate_importance_score, ms.
  change (Py.index [m0; m1; m2; m3; m4] 0) with (Py.Ok m0).
  change (Py.index [m0; m1; m2; m3; m4] 1) with (Py.Ok m1).
  change (Py.index [m0; m1; m2; m3; m4] 2) with (Py.Ok m2).
  change (Py.index [m0; m1; m2; m3; m4] 3) with (Py.Ok m3).
  change (Py.index [m0; m1; m2; m3; m4] 4) with (Py.Ok m4).
  cbn [Py.bind].
  apply (mapM_raises _ _ _ 0).
  - intros i _. apply importance_step_cases.
  - apply range_In. lia.
  - unfold importance_step.
    destruct (set_pos_cases X ((Np.shape_pos X - 1001) / 2 + 0) [1; 0; 0; 0]%Q)
      as [[Xa ->] | ->]; [|reflexivity]. cbn [Py.bind].
    destruct (set_pos_cases X ((Np.shape_pos X - 1001) / 2 + 0) [0; 1; 0; 0]%Q)
      as [[Xc ->] | ->]; [|reflexivity]. cbn [Py.bind].
    destruct (set_pos_cases X ((Np.shape_pos X - 1001) / 2 + 0) [0; 0; 1; 0]%Q)
      as [[Xg ->] | ->]; [|reflexivity]. cbn [Py.bind].
    destruct (set_pos_cases X ((Np.shape_pos X - 1001) / 2 + 0) [0; 0; 0; 1]%Q)
      as [[Xt ->] | ->]; [|reflexivity]. cbn [Py.bind].
    unfold counterfactual_sum.
    change (Py.index [m0; m1; m2; m3; m4] 0) with (Py.Ok m0).
    change (Py.index [m0; m1; m2; m3; m4] 1) with (Py.Ok m1).
    change (Py.index [m0; m1; m2; m3; m4] 2) with (Py.Ok m2).
    change (Py.index [m0; m1; m2; m3; m4] 3) with (Py.Ok m3).
    change (Py.index [m0; m1; m2; m3; m4] 4) with (Py.Ok m4).
    cbn [Py.bind].
    now rewrite (index_singleton_raises _ t Ht0 Ht1).
Qed.

(** X19: on a batch of windows with fewer than 1000 positions the last
    perturbed position falls behind the window, and the call raises
    [IndexError], whatever [t]. *)
Theorem importance_short_window_raises (B : nat) (W t : Z)
  (HX : batch_of B W X) (HB : (0 < B)%nat) (HW : W < 1000) :
  calculate_importance_score X ms t = Py.Raise Py.IndexError.
Proof.
  assert (Hshape : Np.shape_pos X = W).
  { destruct HX as [Hlen Hall]. unfold Np.shape_pos.
    destruct X as [|x0 rest]; [simpl in Hlen; lia|].
    simpl. now inversion Hall. }
  assert (HW0 : 0 <= W) by (rewrite <- Hshape; unfold Np.shape_pos; lia).
  unfold calculate_importance_score, ms.
  change (Py.index [m0; m1; m2; m3; m4] 0) with (Py.Ok m0).
  change (Py.index [m0; m1; m2; m3; m4] 1) with (Py.Ok m1).
  change (Py.index [m0; m1; m2; m3; m4] 2) with (Py.Ok m2).
  change (Py.index [m0; m1; m2; m3; m4] 3) with (Py.Ok m3).
  change (Py.index [m0; m1; m2; m3; m4] 4) with (Py.Ok m4).
  cbn [Py.bind]. rewrite Hshape.
  apply (mapM_raises _ _ _ 1000).
  - intros i _. apply importance_step_cases.
  - apply range_In. lia.
  - unfold importance_step.
    assert (Hp : W <= (W - 1001) / 2 + 1000).
    { assert (W - 1001 < 2 * ((W - 1001) / 2) + 2).
      { pose proof (Z.mod_pos_bound (W - 1001) 2 ltac:(lia)).
        pose proof (Z.div_mod (W - 1001) 2 ltac:(lia)). lia. }
      lia. }
    assert (Hp0 : 0 <= (W - 1001) / 2 + 1000).
    { assert (-1001 <= 2 * ((W - 1001) / 2) + 1).
      { pose proof (Z.mod_pos_bound (W - 1001) 2 ltac:(lia)).
        pose proof (Z.div_mod (W - 1001) 2 ltac:(lia)). lia. }
      lia. }
    assert (Hraise : Np.set_pos X ((W - 1001) / 2 + 1000) [1; 0; 0; 0]%Q
                     = Py.Raise Py.IndexError).
    { destruct HX as [Hlen Hall]. unfold Np.set_pos.
      destruct X as [|x0 rest]; [simpl in Hlen; lia|].
      inversion Hall as [|? ? Hx0 _]. simpl Py.mapM.
      unfold Np.set_row at 1. rewrite Hx0.
      destruct (Z.ltb_spec ((W - 1001) / 2 + 1000) 0); [lia|].
      replace ((0 <=? (W - 1001) / 2 + 1000) && ((W - 1001) / 2 + 1000 <? W))
        with false; [reflexivity|].
      symmetry. apply andb_false_iff. right. apply Z.ltb_ge. lia. }
    now rewrite Hraise.
Qed.

End ImportanceErrors.

(** X17: with fewer than five models [calculate_importance_score] raises
    [IndexError] before any window is perturbed. *)
Theorem importance_few_models_raises (X : Np.Tensor3) (ms : list Model) (t : Z)
  (Hms : (List.length ms < 5)%nat) :
  calculate_importance_score X ms t = Py.Raise Py.IndexError.
Proof.
  destruct ms as [|m0 [|m1 [|m2 [|m3 [|m4 rest]]]]];
    try (simpl in Hms; lia); reflexivity.
Qed.

Lemma importance_few_models_raises_witness :
  (List.length [demo_model; demo_model] < 5)%nat
  /\ calculate_importance_score demo_X [demo_model; demo_model] 0
     = Py.Raise Py.IndexError.
Proof.
  split; [simpl; lia|].
  apply importance_few_models_raises. simpl; lia.
Defined.

Lemma importance_bad_index_raises_witness :
  1 <> 0
  /\ calculate_importance_score demo_X (models demo_ann) 1
     = Py.Raise Py.IndexError.
Proof.
  split; [discriminate|].
  apply (importance_bad_index_raises demo_X demo_model demo_model demo_model
           demo_model demo_model 1); discriminate.
Defined.

Lemma importance_short_window_raises_witness :
  3 < 1000
  /\ calculate_importance_score [[[1; 0; 0; 0]; [0; 1; 0; 0]; [0; 0; 0; 1]]]%Q
       (models demo_ann) 0
     = Py.Raise Py.IndexError.
Proof.
  split; [lia|].
  apply (importance_short_window_raises _ demo_model demo_model demo_model
           demo_model demo_model 1 3 0).
  - split; [reflexivity|]. repeat constructor.
  - lia.
  - lia.
Defined.

(** ** The two entry points side by side *)

Section Siblings.

(** X18: [get_importance_score] skips exactly the records that
    [get_delta_scores] skips, with the same warning: one of them returns
    the empty list after the warning [w] if and only if the other does. *)
Theorem same_skips (record : VcfRecord) (ann : Annotator) (cov : Z) (w : warning) :
  get_delta_scores record ann cov = Py.Ok ([w], [])
  <-> get_importance_score record ann cov = Py.Ok ([w], Lines []).
Proof.
  unfold get_delta_scores, get_importance_score.
  destruct (alts record) as [alleles|];
    [|split; intro H; inversion H; reflexivity].
  destruct (get_name_and_strand ann (chrom record) (pos record))
    as [[[genes strands] idxs]|e]; cbn [Py.bind]; [|split; discriminate].
  destruct (Z.of_nat (List.length idxs) =? 0); [split; discriminate|].
  destruct (Py.index (keys (ref_fasta ann)) 0) as [k0|e]; cbn [Py.bind];
    [|split; discriminate].
  destruct (fetch _ _ _ _) as [seq|[]];
    try (split; discriminate);
    try (split; intro H; inversion H; reflexivity).
  destruct (negb _); [split; intro H; inversion H; reflexivity|].
  split.
  - destruct (delta_scores_loop _ _ _ _ _ _ _ _); discriminate.
  - destruct (importance_loop _ _ _ _ _ _ _ _) as [st|e]; cbn [Py.bind];
      [|discriminate].
    destruct (importance_return_raises ann st) as [e ->]. discriminate.
Qed.

Variables (record : VcfRecord) (ann : Annotator) (cov : Z).
Let wid := 10000 + cov.
Variables (alleles : list string) (genes strands : list string) (idxs : list Z).
Variables (k0 seq : string).

Hypothesis Hcols : columns_aligned ann.
Hypothesis Halts : alts record = Some alleles.
Hypothesis Hlookup :
  get_name_and_strand ann (chrom record) (pos record)
  = Py.Ok (genes, strands, idxs).
Hypothesis Hidxs : idxs <> [].
Hypothesis Hkeys : Py.index (keys (ref_fasta ann)) 0 = Py.Ok k0.
Hypothesis Hfetch :
  fetch (ref_fasta ann) (normalise_chrom (chrom record) k0)
        (pos record - wid / 2 - 1) (pos record + wid / 2)
  = Py.Ok seq.
Hypothesis Hcentre : window_centre wid seq (ref record) = ref record.
Hypothesis Hall : Forall (fun a => is_sentinel a = true) alleles.

(** X20: a record whose alleles are all sentinels ([.] or [<NON_REF>])
    passes the checks and gives no line and no warning; no model is
    consulted. *)
Theorem sentinel_alleles_no_lines :
  get_delta_scores record ann cov = Py.Ok ([], []).
Proof.
  destruct (loop_from_steps record ann cov alleles genes strands idxs k0 seq
              Hcols Halts Hlookup Hidxs Hkeys Hfetch Hcentre
              (fun l => l) (fun _ => True) (fun a g => [Unscored a g]))
    as [out [Hk [_ Hres]]].
  - intros j i alt gene Hj Hin Hgi Hi.
    rewrite Forall_forall in Hall. specialize (Hall alt Hin).
    exists []. rewrite Hall. split; [reflexivity|]. split; [constructor|].
    intro ds. unfold delta_scores_step. rewrite Hj. cbn [Py.bind].
    rewrite Hall. now rewrite app_nil_r.
  - rewrite map_id in Hk. rewrite Hres, Hk. apply f_equal. apply f_equal.
    rewrite Forall_forall in Hall. clear -Hall.
    induction alleles as [|a l IH]; [reflexivity|]. simpl.
    rewrite (Hall a) by now left. apply IH. intros; apply Hall; now right.
Qed.

End Siblings.

Lemma sentinel_alleles_no_lines_witness :
  Forall (fun a => is_sentinel a = true) [".";  "<NON_REF>"]
  /\ get_delta_scores demo_record_sentinels demo_ann 1001 = Py.Ok ([], []).
Proof.
  assert (H : Forall (fun a => is_sentinel a = true) [".";  "<NON_REF>"])
    by (repeat constructor).
  split; [exact H|].
  refine (sentinel_alleles_no_lines demo_record_sentinels demo_ann 1001
            ["."; "<NON_REF>"] ["GENE1"; "GENE2"] ["+"; "-"] [0; 1] "chr1"
            demo_seq _ _ _ _ _ _ _ H).
  - apply Annotator_init_aligned.
  - reflexivity.
  - vm_compute; reflexivity.
  - discriminate.
  - reflexivity.
  - vm_compute; reflexivity.
  - vm_compute; reflexivity.
Defined.

(* ================================================================== *)
(** * The encoder, the lookup, the realignment, the scores and the
      attribution, position by position *)
(* ================================================================== *)

(** ** [one_hot_encode] on ASCII text *)

Section EncodingAscii.

Lemma symbol_row_ascii (c : ascii) :
  is_ascii_char c = true -> symbol_row c = ascii_row c.
Proof.
  destruct c as [[] [] [] [] [] [] [] []]; vm_compute;
    intro H; try discriminate H; reflexivity.
Qed.

(** C3, amended: on every input string of ASCII characters
    [one_hot_encode] encodes symbol by symbol; in either case A, C, G, T
    give the four unit rows and N the zero row; any other symbol gives the
    row [v mod 5] of the table (zero, A, C, G, T), [v] being the code of
    its upper-case form, which is the zero row only when that residue is
    0. *)
Theorem one_hot_encode_ascii (seq : string) (Hseq : is_ascii seq = true) :
  one_hot_encode seq = List.map ascii_row (list_ascii_of_string seq).
Proof.
  rewrite one_hot_encode_by_symbol. unfold PyStr.chars.
  apply map_ext_in. intros c Hc. apply symbol_row_ascii.
  unfold is_ascii in Hseq. rewrite forallb_forall in Hseq. now apply Hseq.
Qed.

End EncodingAscii.

Lemma one_hot_encode_ascii_witness :
  is_ascii "aCgtNBu*" = true
  /\ one_hot_encode "aCgtNBu*"
     = [ [1; 0; 0; 0]; [0; 1; 0; 0]; [0; 0; 1; 0]; [0; 0; 0; 1]; [0; 0; 0; 0];
         [1; 0; 0; 0]; [0; 0; 0; 0]; [0; 1; 0; 0] ].
Proof.
  split; [reflexivity|].
  rewrite (one_hot_encode_ascii "aCgtNBu*"); reflexivity.
Defined.

(** ** The lookup on a query label that ends in one of c, h, r *)

(** C4, at a query where the code and the claim part: the annotation labels
    its chromosomes without the prefix, and no row is on a chromosome
    ["chr1r"] or ["1r"]; the lookup of ["chr1r"] strips the label down to
    ["1"] and returns the two genes of chromosome 1 that cover the
    position. *)
Theorem lookup_strips_query_label :
  Forall (fun r => CHROM r <> "chr1r" /\ CHROM r <> "1r") demo_df
  /\ normalise_chrom "chr1r" "1" = "1"
  /\ get_name_and_strand demo_ann "chr1r" 20000
     = Py.Ok (["GENE1"; "GENE2"], ["+"; "-"], [0; 1]).
Proof.
  split; [|split; vm_compute; reflexivity].
  repeat constructor; discriminate.
Qed.

(** ** The reference check, base by base *)

Section ReferenceCheckByPosition.





Variables (record : VcfRecord) (ann : Annotator) (cov : Z).
Let wid := 10000 + cov.
Variables (alleles : list string) (genes strands : list string) (idxs : list Z).
Variables (k0 seq : string).

Hypothesis Halts : alts record = Some alleles.
Hypothesis Hlookup :
  get_name_and_strand ann (chrom record) (pos record)
  = Py.Ok (genes, strands, idxs).
Hypothesis Hidxs : idxs <> [].
Hypothesis Hkeys : Py.index (keys (ref_fasta ann)) 0 = Py.Ok k0.
Hypothesis Hfetch :
  fetch (ref_fasta ann) (normalise_chrom (chrom record) k0)
        (pos record - wid / 2 - 1) (pos record + wid / 2)
  = Py.Ok seq.

(** The window is wide enough to hold the reference allele at its centre. *)
Hypothesis Hwid : 0 <= wid.
Hypothesis Hlen : wid / 2 + PyStr.len (ref record) <= PyStr.len seq.



End ReferenceCheckByPosition.


(** ** The scores and offsets, position by position *)

Section ScoresByPosition.

Variables (y_ref y_alt : list (list Q)).
Hypothesis Href : has_columns 3 y_ref.
Hypothesis Halt : has_columns 3 y_alt.
Hypothesis Hlen : List.length y_ref = List.length y_alt.
Hypothesis Hne : y_ref <> [].

(** An entry of a difference array of the extraction is the difference of
    the two outputs at that position and class. *)
Lemma diff_entry (c : Z) (ya yb : list (list Q)) (j : nat) :
  List.length ya = List.length y_ref -> List.length yb = List.length y_ref ->
  (j < List.length y_ref)%nat ->
  nth j (Np.sub1 (col c ya) (col c yb)) 0%Q = gain ya yb (Z.to_nat c) j.
Proof.
  intros Ha Hb Hj. unfold Np.sub1, col, gain.
  rewrite (nth_map2 Qminus _ _ j 0%Q 0%Q 0%Q) by (rewrite length_map; lia).
  rewrite (nth_map_in _ ya j [] 0%Q) by lia.
  rewrite (nth_map_in _ yb j [] 0%Q) by lia.
  reflexivity.
Qed.

Lemma first_max_reported (cov c : Z) (ya yb : list (list Q)) (idx : Z) :
  List.length ya = List.length y_ref -> List.length yb = List.length y_ref ->
  first_max (Np.sub1 (col c ya) (col c yb)) idx ->
  reported cov (List.length y_ref) (gain ya yb (Z.to_nat c))
    (idx - cov / 2) (nth (Z.to_nat idx) (Np.sub1 (col c ya) (col c yb)) 0%Q).
Proof.
  intros Ha Hb [Hi [Hmax Hfirst]].
  pose proof (diff_length y_ref c ya yb Ha Hb) as Hl. rewrite Hl in Hi, Hmax.
  unfold reported. replace (idx - cov / 2 + cov / 2) with idx by lia.
  split; [exact Hi|]. split; [apply diff_entry; try assumption; lia|].
  split.
  - intros j Hj. rewrite <- !diff_entry by (try assumption; lia).
    specialize (Hmax (Z.of_nat j) ltac:(lia)). now rewrite Nat2Z.id in Hmax.
  - intros j Hj. rewrite <- !diff_entry by (try assumption; lia).
    specialize (Hfirst (Z.of_nat j) ltac:(lia)). now rewrite Nat2Z.id in Hfirst.
Qed.

(** C7: on two aligned, non-empty outputs with three classes the four
    components are computed, and for each of them (acceptor gain: class 1
    of alternate minus reference; acceptor loss: class 1 of reference minus
    alternate; donor gain and loss: the same with class 2) the reported
    offset plus [cov//2] is the first position at which the difference is
    greatest: no position has a greater difference, every position before
    it has a strictly smaller one, and the reported score is the difference
    at that position.  Among tied positions the lowest index, and with it
    the lowest offset, is reported. *)
Theorem scores_at_first_maximum (cov : Z) :
  let n := List.length y_ref in
  exists ag al dg dl pa na pd nd,
    extract_scores cov [y_ref; y_alt] = Py.Ok (ag, al, dg, dl, (pa, na, pd, nd))
    /\ reported cov n (gain y_alt y_ref 1) pa ag
    /\ reported cov n (gain y_ref y_alt 1) na al
    /\ reported cov n (gain y_alt y_ref 2) pd dg
    /\ reported cov n (gain y_ref y_alt 2) nd dl.
Proof.
  intro n.
  destruct (extract_scores_inv y_ref y_alt Href Halt Hlen Hne cov)
    as (ipa & ina & ipd & ind & Fpa & Fna & Fpd & Fnd & E).
  do 8 eexists. split; [exact E|].
  split; [|split; [|split]].
  - apply (first_max_reported cov 1 y_alt y_ref ipa); auto.
  - apply (first_max_reported cov 1 y_ref y_alt ina); auto.
  - apply (first_max_reported cov 2 y_alt y_ref ipd); auto.
  - apply (first_max_reported cov 2 y_ref y_alt ind); auto.
Qed.

End ScoresByPosition.

Lemma scores_at_first_maximum_witness :
  has_columns 3 demo_y_ref
  /\ exists ag al dg dl pa na pd nd,
       extract_scores 3 [demo_y_ref; demo_y_alt]
       = Py.Ok (ag, al, dg, dl, (pa, na, pd, nd))
       /\ reported 3 3 (gain demo_y_alt demo_y_ref 1) pa ag
       /\ pa = -1 /\ ag = ((1 # 2) - 0)%Q.
Proof.
  assert (H1 : has_columns 3 demo_y_ref) by (repeat constructor).
  assert (H2 : has_columns 3 demo_y_alt) by (repeat constructor).
  split; [exact H1|].
  destruct (scores_at_first_maximum demo_y_ref demo_y_alt H1 H2 eq_refl
              ltac:(discriminate) 3)
    as (ag & al & dg & dl & pa & na & pd & nd & E & Rpa & _).
  exists ag, al, dg, dl, pa, na, pd, nd.
  split; [exact E|]. split; [exact Rpa|].
  vm_compute in E. inversion E. split; reflexivity.
Defined.

(** ** The realignment of an insertion, position by position *)

Section InsertionByPosition.

Variables (ms : list Model) (cov : Z) (seq ref alt strand : string) (dist : Z * Z).
Let wid := 10000 + cov.

Hypothesis Hms : List.length ms = 5%nat.
Hypothesis Hcontract : Forall model_contract ms.
Hypothesis Hcov : 1 <= cov.
Hypothesis Hdist : fst dist <= 0 <= snd dist.
Hypothesis Hseq : PyStr.len seq = wid.
Hypothesis Href : PyStr.len ref = 1.
Hypothesis Halt : 1 < PyStr.len alt.

Let x_ref := window_ref wid seq (pad_size wid dist).
Let x_alt := window_alt wid x_ref alt (PyStr.len ref).
Let orient (y : list (list (list Q))) : list (list (list Q)) :=
  if String.eqb strand "-" then Np.flip_pos y else y.

(** C5: for an insertion ([len(ref) = 1 < len(alt)]) the alternate output
    of the ensemble has [cov + len(alt) - 1] positions, the reference
    output [cov].  The realigned alternate output has [cov] positions, as
    the reference output: before position [cov//2] it is the alternate
    output; at position [cov//2] it holds one row of three classes, each
    the maximum of that class over the [len(alt)] positions of the
    alternate output from [cov//2] on; behind it, it is the alternate
    output shifted by [len(alt) - 1]. *)
Theorem insertion_collapsed_by_class_maximum :
  let c := Z.to_nat (cov / 2) in
  let n := Z.to_nat (PyStr.len alt) in
  exists y_ref y_alt r a mx res,
    ensemble_mean ms (encode_window x_ref strand) = Py.Ok y_ref
    /\ ensemble_mean ms (encode_window x_alt strand) = Py.Ok y_alt
    /\ orient y_ref = [r]
    /\ orient y_alt = [a]
    /\ reconcile cov (PyStr.len ref) (PyStr.len alt)
         (Z.max (PyStr.len ref - PyStr.len alt) 0) (orient y_alt)
       = Py.Ok [res]
    /\ Z.of_nat (List.length r) = cov
    /\ List.length a = (List.length r + (n - 1))%nat
    /\ List.length res = List.length r
    /\ List.length mx = 3%nat
    /\ (forall j, (j < List.length res)%nat ->
          nth j res []
          = if (j <? c)%nat then nth j a []
            else if (j =? c)%nat then mx
                 else nth (j + (n - 1)) a [])
    /\ (forall cl, (cl < 3)%nat ->
          (forall j, (c <= j < c + n)%nat ->
             (nth cl (nth j a []) 0 <= nth cl mx 0)%Q)
          /\ (exists j, (c <= j < c + n)%nat
                        /\ (nth cl mx 0 == nth cl (nth j a []) 0)%Q)).
Proof.
  intros c n.
  destruct (insertion_realigned ms cov seq ref alt strand dist Hms Hcontract
              Hcov Hdist Hseq Href Halt)
    as (y_ref & y_alt & r & a & mx & Er & Ea & Or & Oa & La & Lspan & Emx & Hmx
        & Erec & Lres & Lr).
  fold wid x_ref x_alt in Er, Ea. fold orient in Or, Oa, Erec.
  assert (Hh : 0 <= cov / 2 /\ 2 * (cov / 2) <= cov)
    by (split; [apply Z.div_pos; lia | apply Z.mul_div_le; lia]).
  set (h := cov / 2) in *. set (N := PyStr.len alt) in *.
  set (span := PyStr.slice a h (h + N)) in *.
  assert (Ca : has_columns 3 a).
  { destruct (oriented_output ms strand Hms Hcontract x_alt)
      as [y' [a' [Ea' [Oa' [_ Ca']]]]].
    fold orient in Oa'. rewrite Ea in Ea'. injection Ea' as <-.
    rewrite Oa in Oa'. injection Oa' as <-. exact Ca'. }
  assert (Lmx : List.length mx = 3%nat).
  { destruct (max_rows_spec 3 span) as [mx' [Emx' [Lmx' _]]].
    - intro E. rewrite E in Lspan. simpl in Lspan. lia.
    - now apply has_columns_slice.
    - rewrite Emx in Emx'. injection Emx' as <-. exact Lmx'. }
  assert (LA : Z.of_nat (List.length (PyStr.slice_to a h)) = h)
    by (apply slice_to_length; lia).
  exists y_ref, y_alt, r, a, mx,
    (PyStr.slice_to a h ++ [mx] ++ PyStr.slice_from a (h + N)).
  split; [exact Er|]. split; [exact Ea|]. split; [exact Or|]. split; [exact Oa|].
  split; [exact Erec|]. split; [exact Lr|]. split; [unfold n; lia|].
  split; [exact Lres|]. split; [exact Lmx|]. split.
  - intros j Hj. rewrite Lres in Hj.
    destruct (Nat.ltb_spec j c) as [Hlt|Hge].
    + rewrite app_nth1 by lia. unfold PyStr.slice_to.
      rewrite nth_slice by lia. reflexivity.
    + rewrite app_nth2 by lia.
      replace (List.length (PyStr.slice_to a h)) with c by (unfold c; lia).
      destruct (Nat.eqb_spec j c) as [->|Hne].
      * now rewrite Nat.sub_diag.
      * destruct (j - c)%nat as [|k] eqn:Ek; [lia|]. simpl nth.
        unfold PyStr.slice_from. rewrite nth_slice by lia.
        f_equal. unfold c, n in *. lia.
  - intros cl Hcl. rewrite <- Lmx in Hcl.
    destruct (Hmx cl Hcl) as [Hle [row [Hin Heq]]].
    assert (Hrow : forall j, (c <= j < c + n)%nat ->
                     nth (j - c) span [] = nth j a [] /\ In (nth j a []) span).
    { intros j Hj.
      assert (E : nth (j - c) span [] = nth j a []).
      { unfold span. rewrite nth_slice by (unfold c, n in *; lia).
        f_equal. unfold c in *. lia. }
      split; [exact E|]. rewrite <- E. apply nth_In. unfold c, n in *. lia. }
    split.
    + intros j Hj. apply Hle. now apply Hrow.
    + destruct (In_nth span row [] Hin) as [i [Hi Hnth]].
      exists (c + i)%nat. split; [unfold n; lia|].
      destruct (Hrow (c + i)%nat) as [E _]; [unfold n; lia|].
      replace (c + i - c)%nat with i in E by lia.
      rewrite <- E, Hnth. exact Heq.
Qed.

End InsertionByPosition.

Lemma insertion_collapsed_by_class_maximum_witness :
  1 < PyStr.len "AT"
  /\ exists (r a res : list (list Q)) (mx : list Q),
       List.length a = (List.length r + 1)%nat
       /\ List.length res = List.length r
       /\ Z.of_nat (List.length r) = 1001
       /\ List.length mx = 3%nat
       /\ nth 500 res [] = mx.
Proof.
  split; [reflexivity|].
  destruct (insertion_collapsed_by_class_maximum (models demo_ann) 1001 demo_seq
              "A" "AT" "+" (-19000, 30000) eq_refl demo_models_contract)
    as (y_ref & y_alt & r & a & mx & res & _ & _ & _ & _ & _ & Lr & La & Lres
        & Lmx & Hres & _).
  - lia.
  - simpl; lia.
  - vm_compute; reflexivity.
  - reflexivity.
  - reflexivity.
  - exists r, a, res, mx.
    split; [exact La|]. split; [exact Lres|]. split; [exact Lr|].
    split; [exact Lmx|].
    apply (Hres 500%nat). lia.
Defined.

(** ** The attribution, entry by entry *)

Section ShapesOfArrays.

Lemma result_Ok_inj {A : Type} (a b : A) : Py.Ok a = Py.Ok b -> a = b.
Proof. intro H. now injection H. Qed.

Lemma set_nth_force {A : Type} (l : list A) (n : nat) (a : A) :
  (n < List.length l)%nat ->
  Np.set_nth l n a = firstn n l ++ a :: skipn (S n) l.
Proof.
  revert n. induction l as [|x l IH]; intros [|n] H; simpl in *; try lia.
  - reflexivity.
  - f_equal. apply IH. lia.
Qed.

Lemma counterfactual_force (B : nat) (W : Z) (X : Np.Tensor3) (p : Z)
  (base : list Q) :
  batch_of B W X -> 0 <= p < W ->
  counterfactual X p base = force_position X (Z.to_nat p) base.
Proof.
  intros [_ HW] Hp. unfold counterfactual, force_position.
  apply map_ext_in. intros m Hm. rewrite Forall_forall in HW.
  apply set_nth_force. specialize (HW m Hm). lia.
Qed.

Lemma has_shape3_range (B L C : nat) (T : Np.Tensor3) (b p c : nat) :
  has_shape3 B L C T -> (b < B)%nat -> (p < L)%nat -> (c < C)%nat ->
  in_range3 T b p c.
Proof.
  intros [HB HT] Hb Hp Hc. rewrite Forall_forall in HT. unfold in_range3.
  assert (Hm : In (nth b T []) T) by (apply nth_In; lia).
  destruct (HT _ Hm) as [HL HR]. rewrite Forall_forall in HR.
  assert (Hr : In (nth p (nth b T []) []) (nth b T [])) by (apply nth_In; lia).
  specialize (HR _ Hr). lia.
Qed.

Lemma map2_Forall {A B C : Type} (f : A -> B -> C)
  (P : A -> Prop) (P' : B -> Prop) (R : C -> Prop) :
  (forall a b, P a -> P' b -> R (f a b)) ->
  forall l l', Forall P l -> Forall P' l' -> Forall R (Np.map2 f l l').
Proof.
  intros Hf l. induction l as [|a l IH]; intros [|b l'] Hl Hl'; simpl;
    try constructor.
  - apply Hf; [now inversion Hl | now inversion Hl'].
  - apply IH; [now inversion Hl | now inversion Hl'].
Qed.

Lemma has_shape3_map2 (f : Q -> Q -> Q) (B L C : nat) (S T : Np.Tensor3) :
  has_shape3 B L C S -> has_shape3 B L C T ->
  has_shape3 B L C (Np.map2 (Np.map2 (Np.map2 f)) S T).
Proof.
  intros [SB SF] [TB TF]. split.
  - rewrite map2_length. lia.
  - refine (map2_Forall _ _ _ _ _ S T SF TF).
    intros s t [sL sF] [tL tF]. split.
    + rewrite map2_length. lia.
    + refine (map2_Forall _ _ _ _ _ s t sF tF).
      intros r r' Hr Hr'. rewrite map2_length. lia.
Qed.

Lemma has_shape3_map (f : Q -> Q) (B L C : nat) (T : Np.Tensor3) :
  has_shape3 B L C T ->
  has_shape3 B L C (List.map (List.map (List.map f)) T).
Proof.
  intros [TB TF]. split; [now rewrite length_map|].
  apply Forall_map. eapply Forall_impl; [|exact TF].
  intros m [mL mF]. split; [now rewrite length_map|].
  apply Forall_map. eapply Forall_impl; [|exact mF].
  intros r Hr. now rewrite length_map.
Qed.

Lemma has_shape3_add3 (B L C : nat) (S T : Np.Tensor3) :
  has_shape3 B L C S -> has_shape3 B L C T -> has_shape3 B L C (Np.add3 S T).
Proof. apply has_shape3_map2. Qed.

Lemma has_shape3_sub3 (B L C : nat) (S T : Np.Tensor3) :
  has_shape3 B L C S -> has_shape3 B L C T -> has_shape3 B L C (Np.sub3 S T).
Proof. apply has_shape3_map2. Qed.

Lemma has_shape3_div3 (B L C : nat) (T : Np.Tensor3) (k : Z) :
  has_shape3 B L C T -> has_shape3 B L C (Np.div3 T k).
Proof. apply (has_shape3_map (fun v => (v / inject_Z k)%Q)). Qed.

Lemma demo_model_shape (B : nat) (W : Z) (x : Np.Tensor3) :
  batch_of B W x -> has_shape3 B (Z.to_nat (W - 10000)) 3 (demo_model x).
Proof.
  intros [HB HW]. unfold demo_model. split; [now rewrite length_map|].
  apply Forall_map. eapply Forall_impl; [|exact HW].
  intros m Hm. cbv beta in *. split.
  - pose proof (demo_model_rows m) as Hrows. rewrite <- Hm. lia.
  - apply Forall_map, Forall_forall. intros row _. apply demo_row_length.
Qed.

End ShapesOfArrays.

Section AttributionByPosition.

Variables (X : Np.Tensor3) (m0 m1 m2 m3 m4 : Model) (B L : nat) (W : Z).
Let ms : list Model := [m0; m1; m2; m3; m4].

Hypothesis HX : batch_of B W X.
Hypothesis HB : (0 < B)%nat.
Hypothesis HW : 1001 <= W.

(** Every model answers a batch of [B] windows of [W] positions with an
    array of shape [(B, L, 3)]. *)
Hypothesis Hshape :
  forall m x, In m ms -> batch_of B W x -> has_shape3 B L 3 (m x).

(** The window position perturbed in round [i], and the batch with that
    position replaced by the row of a base. *)
Let position (i : nat) : Z := (W - 1001) / 2 + Z.of_nat i.
Let forced (i : nat) (base : list Q) : list (list (list Q)) :=
  force_position X (Z.to_nat (position i)) base.

(** C8: with [t] the one index of the leading axis that the function adds
    and models whose outputs have the shape [(B, L, 3)], the array [I] is
    computed and has 1001 entries.  Round [i] perturbs the window position
    [(W - 1001) // 2 + i]: the four counterfactual batches are the batch
    [X] with the row at that position replaced by the row of A, C, G and
    T, every other row kept.  The entry [I[i]] has the shape [(B, L, 3)],
    and at every batch element, output position and class it is the
    baseline ensemble mean minus the average, over the four counterfactual
    bases, of the ensemble means at the counterfactuals; that is the
    baseline minus the twentieth of the sum of the 20 counterfactual
    predictions. *)
Theorem importance_by_position (t : Z) (Ht : t = 0 \/ t = -1) :
  exists I,
    calculate_importance_score X ms t = Py.Ok I
    /\ List.length I = 1001%nat
    /\ forall i, (i < 1001)%nat ->
         let Xa := forced i [1; 0; 0; 0]%Q in
         let Xc := forced i [0; 1; 0; 0]%Q in
         let Xg := forced i [0; 0; 1; 0]%Q in
         let Xt := forced i [0; 0; 0; 1]%Q in
         0 <= position i < W
         /\ Np.set_pos X (position i) [1; 0; 0; 0]%Q = Py.Ok Xa
         /\ Np.set_pos X (position i) [0; 1; 0; 0]%Q = Py.Ok Xc
         /\ Np.set_pos X (position i) [0; 0; 1; 0]%Q = Py.Ok Xg
         /\ Np.set_pos X (position i) [0; 0; 0; 1]%Q = Py.Ok Xt
         /\ has_shape3 B L 3 (nth i I [])
         /\ forall b q c, (b < B)%nat -> (q < L)%nat -> (c < 3)%nat ->
              (at3 (nth i I []) b q c
               == ensemble_at ms X b q c
                  - (ensemble_at ms Xa b q c + ensemble_at ms Xc b q c
                     + ensemble_at ms Xg b q c + ensemble_at ms Xt b q c)
                    / 4)%Q
              /\ (at3 (nth i I []) b q c
                  == ensemble_at ms X b q c
                     - (sum_at ms Xa b q c + sum_at ms Xc b q c
                        + sum_at ms Xg b q c + sum_at ms Xt b q c)
                       / 20)%Q.
Proof.
  assert (Hout : forall m x, In m ms -> batch_of B W x ->
            forall b p c, (b < B)%nat -> (p < L)%nat -> (c < 3)%nat ->
              in_range3 (m x) b p c).
  { intros m x Hm Hx b p c Hb Hp Hc.
    now apply (has_shape3_range B L 3); [apply Hshape| | |]. }
  destruct (importance_two_level_mean X m0 m1 m2 m3 m4 B L W HX HB HW Hout t Ht)
    as (I & HI & Hlen & Hent).
  exists I. split; [exact HI|]. split; [exact Hlen|].
  intros i Hi Xa Xc Xg Xt.
  assert (Hpos : 0 <= position i < W).
  { unfold position.
    assert (0 <= (W - 1001) / 2) by (apply Z.div_pos; lia).
    assert (2 * ((W - 1001) / 2) <= W - 1001) by (apply Z.mul_div_le; lia).
    lia. }
  destruct (set_pos_ok B W X (position i) [1; 0; 0; 0]%Q HX Hpos) as [Sa Ba].
  destruct (set_pos_ok B W X (position i) [0; 1; 0; 0]%Q HX Hpos) as [Sc Bc].
  destruct (set_pos_ok B W X (position i) [0; 0; 1; 0]%Q HX Hpos) as [Sg Bg].
  destruct (set_pos_ok B W X (position i) [0; 0; 0; 1]%Q HX Hpos) as [St Bt].
  pose proof (counterfactual_force B W X (position i) [1; 0; 0; 0]%Q HX Hpos) as Fa.
  pose proof (counterfactual_force B W X (position i) [0; 1; 0; 0]%Q HX Hpos) as Fc.
  pose proof (counterfactual_force B W X (position i) [0; 0; 1; 0]%Q HX Hpos) as Fg.
  pose proof (counterfactual_force B W X (position i) [0; 0; 0; 1]%Q HX Hpos) as Ft.
  fold (forced i [1; 0; 0; 0]%Q) in Fa. fold (forced i [0; 1; 0; 0]%Q) in Fc.
  fold (forced i [0; 0; 1; 0]%Q) in Fg. fold (forced i [0; 0; 0; 1]%Q) in Ft.
  fold Xa in Fa. fold Xc in Fc. fold Xg in Fg. fold Xt in Ft.
  rewrite Fa in Sa, Ba. rewrite Fc in Sc, Bc.
  rewrite Fg in Sg, Bg. rewrite Ft in St, Bt.
  split; [exact Hpos|].
  split; [exact Sa|]. split; [exact Sc|]. split; [exact Sg|]. split; [exact St|].
  assert (In0 : In m0 ms) by (unfold ms; simpl; auto).
  assert (In1 : In m1 ms) by (unfold ms; simpl; auto).
  assert (In2 : In m2 ms) by (unfold ms; simpl; auto).
  assert (In3 : In m3 ms) by (unfold ms; simpl; auto).
  assert (In4 : In m4 ms) by (unfold ms; simpl; auto 6).
  split.
  - pose proof (calculate_importance_score_ok X m0 m1 m2 m3 m4 B W HX HB HW t Ht)
      as Hclosed.
    rewrite HI in Hclosed. apply result_Ok_inj in Hclosed. subst I.
    rewrite (nth_map_in _ (Py.range 1001) i 0 [])
      by (unfold Py.range; now rewrite length_map, length_seq).
    rewrite range_nth by exact Hi. fold (position i).
    rewrite Fa, Fc, Fg, Ft.
    repeat first [ apply has_shape3_sub3 | apply has_shape3_add3
                 | apply has_shape3_div3 ];
      apply Hshape; assumption.
  - intros b q c Hb Hq Hc.
    destruct (Hent i b q c Hi Hb Hq Hc) as (_ & _ & _ & _ & E1 & E2).
    cbv zeta in E1, E2. fold (position i) in E1, E2. fold ms in E1, E2.
    rewrite Fa, Fc, Fg, Ft in E1, E2.
    split; [exact E1 | exact E2].
Qed.

End AttributionByPosition.

Lemma importance_by_position_witness :
  1001 <= 11001
  /\ exists I,
       calculate_importance_score demo_X (models demo_ann) 0 = Py.Ok I
       /\ List.length I = 1001%nat
       /\ has_shape3 1 1001 3 (nth 0 I [])
       /\ (at3 (nth 0 I []) 0 0 0
           == ensemble_at (models demo_ann) demo_X 0 0 0
              - (sum_at (models demo_ann)
                   (force_position demo_X (Z.to_nat 5000) [1; 0; 0; 0]%Q) 0 0 0
                 + sum_at (models demo_ann)
                     (force_position demo_X (Z.to_nat 5000) [0; 1; 0; 0]%Q) 0 0 0
                 + sum_at (models demo_ann)
                     (force_position demo_X (Z.to_nat 5000) [0; 0; 1; 0]%Q) 0 0 0
                 + sum_at (models demo_ann)
                     (force_position demo_X (Z.to_nat 5000) [0; 0; 0; 1]%Q) 0 0 0)
                / 20)%Q.
Proof.
  split; [lia|].
  destruct (importance_by_position demo_X demo_model demo_model demo_model
              demo_model demo_model 1 1001 11001) with (t := 0)
    as (I & HI & Hlen & Hent).
  - split; [reflexivity|]. constructor; [vm_compute; reflexivity | constructor].
  - lia.
  - lia.
  - intros m x Hm Hx.
    assert (Em : m = demo_model) by (simpl in Hm; intuition congruence).
    subst m. apply (demo_model_shape 1 11001 x Hx).
  - now left.
  - exists I. split; [exact HI|]. split; [exact Hlen|].
    destruct (Hent 0%nat) as (_ & _ & _ & _ & _ & Hsh & Hval); [lia|].
    split; [exact Hsh|].
    destruct (Hval 0%nat 0%nat 0%nat) as [_ E]; [lia | lia | lia |].
    exact E.
Defined.
